(** * FlexBase: the route handlers of the collectors' social platform

    A shallow embedding of the Express route handlers of FlexBase
    (routes/posts.js, routes/users.js, routes/collections.js,
    routes/views.js), of the Mongoose schemas they persist
    (models/Post.js, models/UserCollection.js) and of the central
    middleware/errorHandler.js, followed by the properties the
    specification states about them.

    The document database is a record of three finite maps keyed by
    ObjectId.  A handler is a function on the world (database and the
    socket.io emissions made so far) that either goes on with a value,
    ends the request with a response, or throws; what a handler throws
    is passed to the error handler, as [next(error)] does. *)

From Stdlib Require Import Ascii.
From stdpp Require Import base option list strings gmap.

Local Open Scope string_scope.
Local Open Scope list_scope.

(** ** Identifiers, dates and JavaScript array helpers *)

(** An ObjectId.  The handlers compare ids through [toString()], which
    is injective on ObjectIds, so equality of ids is equality here. *)
Abbreviation ObjectId := N (only parsing).

(** Milliseconds since the epoch, as [Date.now()] gives them. *)
Abbreviation Date := N (only parsing).

(** An identifier as it arrives in a URL or in a request body: either the
    text of an ObjectId or some other text.  [isMongoId] of
    express-validator accepts the first kind only, and Mongoose fails
    with a CastError when asked to look up the second. *)
Inductive RawId :=
  | ValidId (i : ObjectId)
  | InvalidId (s : string).

Definition isMongoId (r : RawId) : bool :=
  match r with ValidId _ => true | InvalidId _ => false end.

(** [Array.prototype.findIndex]: the loop over the indices [k], [k+1], ...
    answering the first index whose element satisfies [f], or [-1]. *)
Fixpoint findIndex_from {A} (f : A → bool) (l : list A) (k : Z) : Z :=
  match l with
  | [] => (-1)%Z
  | x :: l' => if f x then k else findIndex_from f l' (k + 1)%Z
  end.

Definition findIndex {A} (f : A → bool) (l : list A) : Z :=
  findIndex_from f l 0%Z.

(** [l.splice(start, deleteCount)] for [start >= 0], the only way the
    handlers call it: the elements before [start], then those from
    [start + deleteCount] on. *)
Definition splice {A} (l : list A) (start : Z) (deleteCount : nat) : list A :=
  take (Z.to_nat start) l ++ drop (Z.to_nat start + deleteCount) l.

(** [l.includes(x)] on a Mongoose array of ObjectIds. *)
Definition includes (x : ObjectId) (l : list ObjectId) : bool :=
  bool_decide (x ∈ l).

(** [l.some(f)]. *)
Definition some {A} (f : A → bool) (l : list A) : bool := existsb f l.

(** [a || b] on optional strings: the empty string is falsy. *)
Definition or_default (a : option string) (b : string) : string :=
  match a with
  | Some s => if bool_decide (s = "") then b else s
  | None => b
  end.

(** ** The schemas *)

(** models/Post.js, [tags]: [{ name: String, type: { type: String, enum } }]. *)
Module Tag.
Record t := mk { name : option string; type : option string }.
End Tag.

(** models/Post.js, [likes]. *)
Module Like.
Record t := mk { user : ObjectId; createdAt : Date }.
End Like.

(** models/Post.js, [comments]. *)
Module Comment.
Record t := mk { user : ObjectId; text : string; createdAt : Date }.
End Comment.

(** models/Post.js.  The fields are those the schema declares; the
    [createdAt]/[updatedAt] pair that the [timestamps] option lets the
    storage layer maintain is not part of the model. *)
Module Post.
Record t := mk {
  user : ObjectId;
  caption : string;
  mediaURL : string;
  mediaType : string;
  tags : list Tag.t;
  likes : list Like.t;
  comments : list Comment.t;
  userCollection : option ObjectId;
  visibility : string
}.

Definition set_likes (p : t) (l : list Like.t) : t :=
  mk (user p) (caption p) (mediaURL p) (mediaType p) (tags p) l
     (comments p) (userCollection p) (visibility p).

Definition set_comments (p : t) (c : list Comment.t) : t :=
  mk (user p) (caption p) (mediaURL p) (mediaType p) (tags p) (likes p)
     c (userCollection p) (visibility p).

Definition set_userCollection (p : t) (c : option ObjectId) : t :=
  mk (user p) (caption p) (mediaURL p) (mediaType p) (tags p) (likes p)
     (comments p) c (visibility p).
End Post.

(** models/UserCollection.js. *)
Module UserCollection.
Record t := mk {
  user : ObjectId;
  name : string;
  description : string;
  category : string;
  isPrivate : bool;
  coverImage : string;
  items : list ObjectId
}.

Definition set_items (c : t) (i : list ObjectId) : t :=
  mk (user c) (name c) (description c) (category c) (isPrivate c)
     (coverImage c) i.
End UserCollection.

(** Modelled from the spec: models/User.js is not among the sources.  The
    record holds the profile fields the routes read ([username],
    [avatar], [bio]) and the two relationship sets of the data model,
    [followers] (users who follow this user) and [following] (users this
    user follows), each an array of user identifiers. *)
Module User.
Record t := mk {
  username : string;
  avatar : string;
  bio : string;
  followers : list ObjectId;
  following : list ObjectId
}.

Definition set_followers (u : t) (l : list ObjectId) : t :=
  mk (username u) (avatar u) (bio u) l (following u).

Definition set_following (u : t) (l : list ObjectId) : t :=
  mk (username u) (avatar u) (bio u) (followers u) l.
End User.

(** ** The database and the real-time channel *)

Record Db := mkDb {
  users : gmap N User.t;
  posts : gmap N Post.t;
  collections : gmap N UserCollection.t
}.

Definition set_users (d : Db) (u : gmap N User.t) : Db :=
  mkDb u (posts d) (collections d).
Definition set_posts (d : Db) (p : gmap N Post.t) : Db :=
  mkDb (users d) p (collections d).
Definition set_collections (d : Db) (c : gmap N UserCollection.t) : Db :=
  mkDb (users d) (posts d) c.

(** A document reference after [populate(path, 'username avatar ...')]:
    the referenced user's selected fields, or [null] when it is gone. *)
Record UserRef := mkUserRef {
  ref_id : ObjectId;
  ref_username : string;
  ref_avatar : string;
  ref_bio : option string
}.

(** A collection reference after [populate('userCollection', 'name category')]. *)
Record CollectionRef := mkCollectionRef {
  cref_id : ObjectId;
  cref_name : string;
  cref_category : string
}.

(** A comment whose [user] path has been populated. *)
Record PopulatedComment := mkPopulatedComment {
  pc_user : option UserRef;
  pc_text : string;
  pc_createdAt : Date
}.

(** A post document as the single-post routes send it: the stored
    document with its [user], [userCollection] and [comments.user] paths
    populated. *)
Record PopulatedPost := mkPopulatedPost {
  pp_id : ObjectId;
  pp_doc : Post.t;
  pp_user : option UserRef;
  pp_userCollection : option CollectionRef;
  pp_comments : list PopulatedComment
}.

(** A collection document with [user] and [items] (and each item's
    [user]) populated. *)
Record PopulatedCollection := mkPopulatedCollection {
  pcoll_id : ObjectId;
  pcoll_doc : UserCollection.t;
  pcoll_user : option UserRef;
  pcoll_items : list (ObjectId * Post.t * option UserRef)
}.

(** The socket.io rooms of server.js: [user_<id>] and [post_<id>]. *)
Inductive Room :=
  | user_ (id : ObjectId)
  | post_ (id : ObjectId).

(** The events the handlers emit, with their payloads.  A comment is
    optional where the handler reads it off the end of an array. *)
Inductive Event :=
  | new_post (user : string) (userId postId : ObjectId) (message : string)
  | post_like (postId userId : ObjectId) (username : string)
              (isLiked : bool) (totalLikes : nat)
  | post_comment (postId : ObjectId) (comment : option PopulatedComment)
                 (totalComments : nat)
  | notification (type : string) (user : string) (userId : ObjectId)
                 (postId : option ObjectId) (message : string).

(** [req.io.to(room).emit(...)], recorded in order. *)
Record Emit := mkEmit { room : Room; event : Event }.

Record World := mkWorld { db : Db; emitted : list Emit }.

(** ** Responses *)

Inductive Payload :=
  | Failure (message : string)
  | ValidationFailed (errors : list string)
  | Success (message : string)
  | LikeResult (isLiked : bool) (totalLikes : nat)
  | CommentResult (message : string) (comment : option PopulatedComment)
                  (totalComments : nat)
  | PostResult (post : PopulatedPost)
  | PostCreated (message : string) (post : PopulatedPost)
  | FollowResult (message : string) (isFollowing : bool) (followersCount : nat)
  | CollectionResult (collection : PopulatedCollection)
  | RenderError (title message : string)
  | RenderPostDetail (title : string) (viewer : option ObjectId)
                     (post : PopulatedPost) (isLiked isOwner : bool)
                     (likesCount commentsCount : nat).

Record Response := mkResponse { status : nat; payload : Payload }.

(** ** Handlers: state, early response, exceptions *)

(** What can be thrown: the Mongoose and JWT errors the error handler
    tells apart by [name] or [code], and any other error with its message. *)
Inductive Error :=
  | CastError
  | DuplicateKey (field : string)
  | ValidationError (messages : list string)
  | JsonWebTokenError
  | TokenExpiredError
  | TypeError (message : string).

Inductive Outcome (A : Type) :=
  | Next (a : A) (w : World)
  | Done (r : Response) (w : World)
  | Raise (e : Error) (w : World).
Arguments Next {A} a w.
Arguments Done {A} r w.
Arguments Raise {A} e w.

Definition Handler (A : Type) := World → Outcome A.

Definition ret {A} (a : A) : Handler A := λ w, Next a w.

Definition bind {A B} (m : Handler A) (k : A → Handler B) : Handler B :=
  λ w, match m w with
       | Next a w' => k a w'
       | Done r w' => Done r w'
       | Raise e w' => Raise e w'
       end.

Notation "x <~ m ;; k" := (bind m (λ x, k))
  (at level 100, m at next level, right associativity).
Notation "m ;;; k" := (bind m (λ _, k))
  (at level 100, right associativity).

(** [return res.status(s).json(p)]. *)
Definition respond {A} (s : nat) (p : Payload) : Handler A :=
  λ w, Done (mkResponse s p) w.

Definition throw {A} (e : Error) : Handler A := λ w, Raise e w.

Definition get_db : Handler Db := λ w, Next (db w) w.

Definition put_db (d : Db) : Handler unit :=
  λ w, Next tt (mkWorld d (emitted w)).

Definition emit (r : Room) (e : Event) : Handler unit :=
  λ w, Next tt (mkWorld (db w) (emitted w ++ [mkEmit r e])).

(** [Model.findById(id)]: a CastError for text that is no ObjectId,
    otherwise the document, or [null]. *)
Definition findById {V} (table : Db → gmap N V) (id : RawId)
  : Handler (option (ObjectId * V)) :=
  match id with
  | InvalidId _ => throw CastError
  | ValidId i => d <~ get_db ;; ret ((λ v, (i, v)) <$> table d !! i)
  end.

(** ** middleware/errorHandler.js *)

(** The status and message the error handler chooses for an API request
    outside development mode. *)
Definition errorHandler (e : Error) : Response :=
  match e with
  | CastError => mkResponse 404 (Failure "Resource not found")
  | DuplicateKey field =>
      mkResponse 400
        (Failure (if bool_decide (field = "email") then "Email already exists"
                  else if bool_decide (field = "username") then "Username already taken"
                  else "Duplicate field value entered"))
  | ValidationError msgs =>
      mkResponse 400 (Failure (String.concat ", " msgs))
  | JsonWebTokenError => mkResponse 401 (Failure "Invalid token")
  | TokenExpiredError => mkResponse 401 (Failure "Token expired")
  | TypeError m =>
      mkResponse 500 (Failure (if bool_decide (m = "") then "Server Error" else m))
  end.

(** ** Requests and middleware *)

(** The [tags] field of a request body: something that is no array, or
    an array of objects each with an optional [name] and [type]. *)
Inductive TagsField :=
  | NotAnArray
  | TagArray (l : list Tag.t).

(** [req.file], as multer leaves it. *)
Record File := mkFile { filename : string; mimetype : string }.

(** [req.body]: the fields the handlers read. *)
Module Body.
Record t := mk {
  text : option string;
  caption : option string;
  tags : option TagsField;
  userCollection : option RawId;
  visibility : option string;
  postId : option RawId
}.

Definition empty : t := mk None None None None None None.
End Body.

(** A request as it reaches the router.  [credential] is the identity its
    token stands for, when it carries a token that validates. *)
Record Request := mkRequest {
  params_id : RawId;
  body : Body.t;
  file : option File;
  credential : option ObjectId
}.

(** The request object the handlers see: [req.user] is whatever a
    middleware of the route has stored there, a user document with its
    [_id]. *)
Module Req.
Record t := mk { request : Request; user : option (ObjectId * User.t) }.
End Req.

(** Express creates the request object without a [user] property, and no
    application-level middleware of server.js (helmet, rate limit, cors,
    body and cookie parsers, static files, the [req.io] hook) sets one. *)
Definition incoming (r : Request) : Req.t := Req.mk r None.

Definition Middleware := Req.t → Handler Req.t.

(** Modelled from the spec: middleware/auth.js is not among the sources.
    [auth] resolves the acting identity from the request's credential and
    stores the user document in [req.user], or rejects the request with
    401 (the text of the message is not known). *)
Definition auth : Middleware := λ req,
  match credential (Req.request req) with
  | None => respond 401 (Failure "Not authorized")
  | Some uid =>
      d <~ get_db ;;
      match users d !! uid with
      | None => respond 401 (Failure "Not authorized")
      | Some u => ret (Req.mk (Req.request req) (Some (uid, u)))
      end
  end.

(** Modelled from the spec: the variant of the guard that lets anonymous
    requests through, with an optional identity. *)
Definition optionalAuth : Middleware := λ req,
  d <~ get_db ;;
  ret (Req.mk (Req.request req)
         (uid ← credential (Req.request req);
          u ← users d !! uid;
          Some (uid, u))).

Fixpoint chain (mws : list Middleware) (req : Req.t) : Handler Req.t :=
  match mws with
  | [] => ret req
  | mw :: rest => req' <~ mw req ;; chain rest req'
  end.

(** What becomes of a request once its handler has run: the response it
    sent, or the one the error handler sends for what it threw. *)
Definition settle (catch : Error → Response) (o : Outcome Response)
  : Response * World :=
  match o with
  | Next res w' => (res, w')
  | Done res w' => (res, w')
  | Raise e w' => (catch e, w')
  end.

(** An API route [router.METHOD(path, mws, handler)]: the middleware in
    order, then the handler, whose [catch] hands the error to [next] and
    so to the error handler. *)
Definition route (mws : list Middleware) (h : Req.t → Handler Response)
    (r : Request) (w : World) : Response * World :=
  settle errorHandler ((req <~ chain mws (incoming r) ;; h req) w).

(** A page route of routes/views.js: its own [catch] renders the error
    page with the given message (and the default status). *)
Definition page (mws : list Middleware) (h : Req.t → Handler Response)
    (failed : string) (r : Request) (w : World) : Response * World :=
  settle (λ _, mkResponse 200 (RenderError "Error" failed))
         ((req <~ chain mws (incoming r) ;; h req) w).

(** express-validator's [notEmpty()] and [isLength({ max })]; an absent
    field is validated as the empty string.  Lengths are counted in the
    units of the string type. *)
Definition notEmpty (v : option string) : bool :=
  negb (bool_decide (default "" v = "")).

Definition isLength_max (max : nat) (v : option string) : bool :=
  bool_decide (String.length (default "" v) ≤ max)%nat.

Definition check (ok : bool) (message : string) : list string :=
  if ok then [] else [message].

(** ** Schema validation on save (models/Post.js) *)

Definition tag_type_enum : list string :=
  ["brand"; "category"; "year"; "rarity"; "color"; "size"].
Definition mediaType_enum : list string := ["image"; "video"].
Definition visibility_enum : list string := ["public"; "private"; "followers"].

Definition validate_enum (path : string) (enum : list string) (v : string)
  : list string :=
  check (bool_decide (v ∈ enum))
        ("`" ++ v ++ "` is not a valid enum value for path `" ++ path ++ "`.")%string.

Definition validate_required (path : string) (v : string) : list string :=
  check (negb (bool_decide (v = ""))) ("Path `" ++ path ++ "` is required.")%string.

Definition validate_maxlength (path : string) (max : nat) (v : string)
  : list string :=
  check (bool_decide (String.length v ≤ max)%nat)
        ("Path `" ++ path ++ "` is longer than the maximum allowed length.")%string.

(** A tag: [name] has no validator; [type], when set, must be in the enum. *)
Definition validate_tag (t : Tag.t) : list string :=
  match Tag.type t with
  | Some v => validate_enum "type" tag_type_enum v
  | None => []
  end.

(** A comment: [text] is required and at most 500 long. *)
Definition validate_comment (c : Comment.t) : list string :=
  validate_required "text" (Comment.text c)
  ++ validate_maxlength "text" 500 (Comment.text c).

(** A new post document: every validator of the schema. *)
Definition validate_post (p : Post.t) : list string :=
  validate_required "caption" (Post.caption p)
  ++ validate_maxlength "caption" 1000 (Post.caption p)
  ++ validate_required "mediaURL" (Post.mediaURL p)
  ++ validate_enum "mediaType" mediaType_enum (Post.mediaType p)
  ++ mjoin (validate_tag <$> Post.tags p)
  ++ mjoin (validate_comment <$> Post.comments p)
  ++ validate_enum "visibility" visibility_enum (Post.visibility p).

(** [post.save()]: [errors] are the messages of the validators that ran
    (those of the modified paths); with none the document is written,
    otherwise Mongoose throws a ValidationError and writes nothing. *)
Definition Post_save (id : ObjectId) (p : Post.t) (errors : list string)
  : Handler unit :=
  match errors with
  | [] => d <~ get_db ;; put_db (set_posts d (<[id := p]> (posts d)))
  | _ => throw (ValidationError errors)
  end.

(** ** Population *)

Definition populate_user (d : Db) (bio : bool) (id : ObjectId) : option UserRef :=
  (λ u, mkUserRef id (User.username u) (User.avatar u)
          (if bio then Some (User.bio u) else None)) <$> users d !! id.

Definition populate_collection_ref (d : Db) (id : ObjectId) : option CollectionRef :=
  (λ c, mkCollectionRef id (UserCollection.name c) (UserCollection.category c))
    <$> collections d !! id.

Definition populate_comment (d : Db) (c : Comment.t) : PopulatedComment :=
  mkPopulatedComment (populate_user d false (Comment.user c))
    (Comment.text c) (Comment.createdAt c).

Definition populate_post (d : Db) (bio : bool) (id : ObjectId) (p : Post.t)
  : PopulatedPost :=
  mkPopulatedPost id p
    (populate_user d bio (Post.user p))
    (Post.userCollection p ≫= populate_collection_ref d)
    (populate_comment d <$> Post.comments p).

(** ** routes/posts.js *)

(** [req.user] where a handler dereferences it. *)
Definition the_user (req : Req.t) : Handler (ObjectId * User.t) :=
  match Req.user req with
  | Some u => ret u
  | None => throw (TypeError "Cannot read properties of undefined")
  end.

Fixpoint forEach {A} (l : list A) (f : A → Handler unit) : Handler unit :=
  match l with
  | [] => ret tt
  | x :: l' => f x ;;; forEach l' f
  end.

(** POST /api/posts/:id/like *)
Definition like_handler (now : Date) (req : Req.t) : Handler Response :=
  found <~ findById posts (params_id (Req.request req)) ;;
  match found with
  | None => respond 404 (Failure "Post not found")
  | Some (id, post) =>
      me <~ the_user req ;;
      let likeIndex :=
        findIndex (λ like, bool_decide (Like.user like = me.1)) (Post.likes post) in
      let '(likes, isLiked) :=
        if bool_decide (likeIndex > -1)%Z
        then (splice (Post.likes post) likeIndex 1, false)
        else (Post.likes post ++ [Like.mk me.1 now], true) in
      let post := Post.set_likes post likes in
      Post_save id post [] ;;;
      emit (post_ id)
           (post_like id me.1 (User.username me.2) isLiked
                      (length (Post.likes post))) ;;;
      (if negb (bool_decide (Post.user post = me.1)) && isLiked
       then emit (user_ (Post.user post))
                 (notification "like" (User.username me.2) me.1 (Some id)
                               (User.username me.2 ++ " liked your post")%string)
       else ret tt) ;;;
      respond 200 (LikeResult isLiked (length (Post.likes post)))
  end.

Definition POST_posts_like (now : Date) : Request → World → Response * World :=
  route [auth] (like_handler now).

(** POST /api/posts/:id/comment *)
Definition comment_validators (b : Body.t) : list string :=
  check (notEmpty (Body.text b)) "Comment text is required"
  ++ check (isLength_max 500 (Body.text b))
           "Comment must be less than 500 characters".

Definition comment_handler (now : Date) (req : Req.t) : Handler Response :=
  match comment_validators (body (Req.request req)) with
  | (_ :: _) as errors => respond 400 (ValidationFailed errors)
  | [] =>
      found <~ findById posts (params_id (Req.request req)) ;;
      match found with
      | None => respond 404 (Failure "Post not found")
      | Some (id, post) =>
          me <~ the_user req ;;
          let newComment :=
            Comment.mk me.1 (default "" (Body.text (body (Req.request req)))) now in
          let post := Post.set_comments post (Post.comments post ++ [newComment]) in
          Post_save id post (validate_comment newComment) ;;;
          d <~ get_db ;;
          let populatedComment := last (populate_comment d <$> Post.comments post) in
          emit (post_ id)
               (post_comment id populatedComment (length (Post.comments post))) ;;;
          (if negb (bool_decide (Post.user post = me.1))
           then emit (user_ (Post.user post))
                     (notification "comment" (User.username me.2) me.1 (Some id)
                                   (User.username me.2 ++ " commented on your post")%string)
           else ret tt) ;;;
          respond 201 (CommentResult "Comment added successfully"
                         populatedComment (length (Post.comments post)))
      end
  end.

Definition POST_posts_comment (now : Date) : Request → World → Response * World :=
  route [auth] (comment_handler now).

(** GET /api/posts/:id *)
Definition get_post_handler (req : Req.t) : Handler Response :=
  found <~ findById posts (params_id (Req.request req)) ;;
  match found with
  | None => respond 404 (Failure "Post not found")
  | Some (id, post) =>
      d <~ get_db ;;
      respond 200 (PostResult (populate_post d false id post))
  end.

Definition GET_posts_id : Request → World → Response * World :=
  route [] get_post_handler.

(** POST /api/posts *)
Definition create_validators (b : Body.t) : list string :=
  check (notEmpty (Body.caption b)) "Caption is required"
  ++ check (isLength_max 1000 (Body.caption b))
           "Caption must be less than 1000 characters"
  ++ check (match Body.tags b with Some NotAnArray => false | _ => true end)
           "Tags must be an array"
  ++ check (match Body.userCollection b with Some r => isMongoId r | None => true end)
           "Invalid collection ID".

Definition processedTags (tags : option TagsField) : list Tag.t :=
  match tags with
  | Some (TagArray l) =>
      (λ tag, Tag.mk (Tag.name tag) (Some (or_default (Tag.type tag) "general")))
        <$> l
  | _ => []
  end.

Definition create_handler (newId : ObjectId) (req : Req.t) : Handler Response :=
  let b := body (Req.request req) in
  match create_validators b with
  | (_ :: _) as errors => respond 400 (ValidationFailed errors)
  | [] =>
      match file (Req.request req) with
      | None => respond 400 (Failure "Media file is required")
      | Some f =>
          me <~ the_user req ;;
          userCollection <~
            match Body.userCollection b with
            | Some r =>
                found <~ findById collections r ;;
                match found with
                | Some (cid, c) =>
                    if bool_decide (UserCollection.user c = me.1)
                    then ret (Some cid)
                    else respond 404 (Failure "Collection not found or not owned by user")
                | None => respond 404 (Failure "Collection not found or not owned by user")
                end
            | None => ret None
            end ;;
          let mediaType :=
            if String.prefix "video/" (mimetype f) then "video" else "image" in
          let post :=
            Post.mk me.1 (default "" (Body.caption b))
                    ("/uploads/posts/" ++ filename f)%string mediaType
                    (processedTags (Body.tags b)) [] [] userCollection
                    (or_default (Body.visibility b) "public") in
          Post_save newId post (validate_post post) ;;;
          match userCollection with
          | Some cid =>
              d <~ get_db ;;
              put_db (set_collections d
                        (alter (λ c, UserCollection.set_items c
                                       (UserCollection.items c ++ [newId]))
                               cid (collections d)))
          | None => ret tt
          end ;;;
          d <~ get_db ;;
          forEach (User.followers me.2) (λ followerId,
            emit (user_ followerId)
                 (new_post (User.username me.2) me.1 newId
                           (User.username me.2 ++ " posted a new item")%string)) ;;;
          respond 201 (PostCreated "Post created successfully"
                         (populate_post d false newId post))
      end
  end.

Definition POST_posts (newId : ObjectId) : Request → World → Response * World :=
  route [auth] (create_handler newId).

(** ** routes/users.js *)

(** [user.save()] on a user document. *)
Definition User_save (id : ObjectId) (u : User.t) : Handler unit :=
  d <~ get_db ;; put_db (set_users d (<[id := u]> (users d))).

(** [ids.filter(id => id.toString() !== other.toString())]. *)
Definition without (other : ObjectId) (ids : list ObjectId) : list ObjectId :=
  filter (λ id, id ≠ other) ids.

(** POST /api/users/:id/follow *)
Definition follow_handler (req : Req.t) : Handler Response :=
  found <~ findById users (params_id (Req.request req)) ;;
  match found with
  | None => respond 404 (Failure "User not found")
  | Some (targetId, userToFollow) =>
      me <~ the_user req ;;
      if bool_decide (targetId = me.1)
      then respond 400 (Failure "You cannot follow yourself")
      else
        current <~ findById users (ValidId me.1) ;;
        match current with
        | None => throw (TypeError "Cannot read properties of null")
        | Some (currentId, currentUser) =>
            let isFollowing := includes targetId (User.following currentUser) in
            updated <~
              (if isFollowing
               then
                 ret (User.set_following currentUser
                        (without targetId (User.following currentUser)),
                      User.set_followers userToFollow
                        (without currentId (User.followers userToFollow)))
               else
                 emit (user_ targetId)
                      (notification "follow" (User.username currentUser) currentId
                         None (User.username currentUser ++ " started following you")%string) ;;;
                 ret (User.set_following currentUser
                        (User.following currentUser ++ [targetId]),
                      User.set_followers userToFollow
                        (User.followers userToFollow ++ [currentId]))) ;;
            User_save currentId updated.1 ;;;
            User_save targetId updated.2 ;;;
            respond 200 (FollowResult
                           (if isFollowing then "User unfollowed" else "User followed")
                           (negb isFollowing)
                           (length (User.followers updated.2)))
        end
  end.

Definition POST_users_follow : Request → World → Response * World :=
  route [auth] follow_handler.

(** ** routes/collections.js *)

Definition UserCollection_save (id : ObjectId) (c : UserCollection.t)
  : Handler unit :=
  d <~ get_db ;; put_db (set_collections d (<[id := c]> (collections d))).

(** The items of a collection populated with their posts, each with its
    [user] populated; references to posts that are gone are dropped. *)
Definition populate_items (d : Db) (items : list ObjectId)
  : list (ObjectId * Post.t * option UserRef) :=
  omap (λ id, (λ p, (id, p, populate_user d false (Post.user p))) <$> posts d !! id)
       items.

Definition populate_collection (d : Db) (id : ObjectId) (c : UserCollection.t)
  : PopulatedCollection :=
  mkPopulatedCollection id c
    (populate_user d false (UserCollection.user c))
    (populate_items d (UserCollection.items c)).

(** GET /api/collections/:id *)
Definition get_collection_handler (req : Req.t) : Handler Response :=
  found <~ findById collections (params_id (Req.request req)) ;;
  match found with
  | None => respond 404 (Failure "Collection not found")
  | Some (id, c) =>
      d <~ get_db ;;
      let collection := populate_collection d id c in
      private <~
        (if UserCollection.isPrivate c
         then
           match Req.user req with
           | None => ret true
           | Some me =>
               match pcoll_user collection with
               | None => throw (TypeError "Cannot read properties of null")
               | Some owner => ret (negb (bool_decide (ref_id owner = me.1)))
               end
           end
         else ret false) ;;
      if (private : bool)
      then respond 403 (Failure "This collection is private")
      else respond 200 (CollectionResult collection)
  end.

(** The route is registered with the handler alone; the page router that
    server.js mounts before it at [/] has no route matching a path under
    [/api], so none of its [optionalAuth] runs either. *)
Definition GET_collections_id : Request → World → Response * World :=
  route [] get_collection_handler.

(** [Post.updateMany({ userCollection: id }, { $unset: { userCollection: 1 } })]. *)
Definition unset_userCollection (id : ObjectId) (p : Post.t) : Post.t :=
  if bool_decide (Post.userCollection p = Some id)
  then Post.set_userCollection p None
  else p.

(** DELETE /api/collections/:id *)
Definition delete_collection_handler (req : Req.t) : Handler Response :=
  found <~ findById collections (params_id (Req.request req)) ;;
  match found with
  | None => respond 404 (Failure "Collection not found")
  | Some (id, c) =>
      me <~ the_user req ;;
      if negb (bool_decide (UserCollection.user c = me.1))
      then respond 403 (Failure "Not authorized to delete this collection")
      else
        d <~ get_db ;;
        put_db (set_posts d (unset_userCollection id <$> posts d)) ;;;
        d <~ get_db ;;
        put_db (set_collections d (delete id (collections d))) ;;;
        respond 200 (Success "Collection deleted successfully")
  end.

Definition DELETE_collections_id : Request → World → Response * World :=
  route [auth] delete_collection_handler.

(** POST /api/collections/:id/add-post *)
Definition add_post_validators (b : Body.t) : list string :=
  check (match Body.postId b with Some r => isMongoId r | None => false end)
        "Invalid post ID".

Definition add_post_handler (req : Req.t) : Handler Response :=
  let b := body (Req.request req) in
  match add_post_validators b with
  | (_ :: _) as errors => respond 400 (ValidationFailed errors)
  | [] =>
      foundCollection <~ findById collections (params_id (Req.request req)) ;;
      foundPost <~
        match Body.postId b with
        | Some r => findById posts r
        | None => ret None
        end ;;
      match foundCollection, foundPost with
      | None, _ => respond 404 (Failure "Collection not found")
      | Some _, None => respond 404 (Failure "Post not found")
      | Some (cid, collection), Some (pid, post) =>
          me <~ the_user req ;;
          if negb (bool_decide (UserCollection.user collection = me.1))
          then respond 403 (Failure "Not authorized to modify this collection")
          else if negb (bool_decide (Post.user post = me.1))
          then respond 403 (Failure "Can only add your own posts to collections")
          else if includes pid (UserCollection.items collection)
          then respond 400 (Failure "Post is already in this collection")
          else
            UserCollection_save cid
              (UserCollection.set_items collection
                 (UserCollection.items collection ++ [pid])) ;;;
            Post_save pid (Post.set_userCollection post (Some cid)) [] ;;;
            respond 200 (Success "Post added to collection successfully")
      end
  end.

Definition POST_collections_add_post : Request → World → Response * World :=
  route [auth] add_post_handler.

(** ** routes/views.js *)

(** GET /post/:id *)
Definition post_page_handler (req : Req.t) : Handler Response :=
  found <~ findById posts (params_id (Req.request req)) ;;
  match found with
  | None => respond 404 (RenderError "Post Not Found" "Post not found")
  | Some (id, doc) =>
      d <~ get_db ;;
      let post := populate_post d true id doc in
      let isLiked :=
        match Req.user req with
        | Some me => some (λ like, bool_decide (Like.user like = me.1)) (Post.likes doc)
        | None => false
        end in
      match pp_user post with
      | None => throw (TypeError "Cannot read properties of null")
      | Some owner =>
          let isOwner :=
            match Req.user req with
            | Some me => bool_decide (ref_id owner = me.1)
            | None => false
            end in
          respond 200 (RenderPostDetail
                         (ref_username owner ++ "'s Post - FlexBase")%string
                         (fst <$> Req.user req) post isLiked isOwner
                         (length (Post.likes doc)) (length (Post.comments doc)))
      end
  end.

Definition GET_post_page : Request → World → Response * World :=
  page [optionalAuth] post_page_handler "Failed to load post".

(** ** The other routes

    The routes below answer, when they succeed, with bodies that
    [Payload] does not list.  Their handlers go on with the status and
    the data of the success body; [respond] and [throw] end them as they
    end every handler. *)

Inductive Reply (A : Type) :=
  | Sent (r : Response)
  | Json (status : nat) (data : A).
Arguments Sent {A} r.
Arguments Json {A} status data.

Definition settle_json {A} (catch : Error → Response) (o : Outcome (nat * A))
  : Reply A * World :=
  match o with
  | Next (s, a) w' => (Json s a, w')
  | Done r w' => (Sent r, w')
  | Raise e w' => (Sent (catch e), w')
  end.

Definition route_json {A} (mws : list Middleware) (h : Req.t → Handler (nat * A))
    (r : Request) (w : World) : Reply A * World :=
  settle_json errorHandler ((req <~ chain mws (incoming r) ;; h req) w).

Definition page_json {A} (mws : list Middleware) (h : Req.t → Handler (nat * A))
    (failed : string) (r : Request) (w : World) : Reply A * World :=
  settle_json (λ _, mkResponse 200 (RenderError "Error" failed))
              ((req <~ chain mws (incoming r) ;; h req) w).

(** [Model.find(query)]: the documents of a table that satisfy the query,
    with their ids. *)
Definition find {V} (query : ObjectId → V → bool) (table : gmap N V)
  : list (ObjectId * V) :=
  filter (λ kv, query kv.1 kv.2 = true) (map_to_list table).

(** What [.sort(...)], and [.skip(...).limit(...)] where a route pages,
    make of the documents a query matches.  The order is by [createdAt],
    which the storage layer keeps, and the page comes from the query
    string; both are left to a parameter of the route, a function from
    the matching documents to the ones the cursor yields. *)
Definition Cursor (V : Type) := list (ObjectId * V) → list (ObjectId * V).

(** *** routes/posts.js *)

(** DELETE /api/posts/:id.  [$pull] takes every occurrence of the id out
    of the collection's items; [findByIdAndUpdate] on a collection that
    is gone does nothing. *)
Definition delete_post_handler (req : Req.t) : Handler Response :=
  found <~ findById posts (params_id (Req.request req)) ;;
  match found with
  | None => respond 404 (Failure "Post not found")
  | Some (id, post) =>
      me <~ the_user req ;;
      if negb (bool_decide (Post.user post = me.1))
      then respond 403 (Failure "Not authorized to delete this post")
      else
        match Post.userCollection post with
        | Some cid =>
            d <~ get_db ;;
            put_db (set_collections d
                      (alter (λ c, UserCollection.set_items c
                                     (without id (UserCollection.items c)))
                             cid (collections d)))
        | None => ret tt
        end ;;;
        d <~ get_db ;;
        put_db (set_posts d (delete id (posts d))) ;;;
        respond 200 (Success "Post deleted successfully")
  end.

Definition DELETE_posts_id : Request → World → Response * World :=
  route [auth] delete_post_handler.

(** GET /api/posts/feed: the query
    [{ user: { $in: [...following, me] }, visibility: { $in: ['public', 'followers'] } }]. *)
Definition feed_query (me : ObjectId * User.t) : ObjectId → Post.t → bool :=
  λ _ p,
    bool_decide (Post.user p ∈ User.following me.2 ++ [me.1])
    && bool_decide (Post.visibility p ∈ ["public"; "followers"]).

(** The posts of the answer, populated; the echo of the page and limit
    is not modelled. *)
Definition feed_handler (cursor : Cursor Post.t) (req : Req.t)
  : Handler (nat * list PopulatedPost) :=
  me <~ the_user req ;;
  d <~ get_db ;;
  ret (200, (λ kv, populate_post d false kv.1 kv.2)
              <$> cursor (find (feed_query me) (posts d))).

Definition GET_posts_feed (cursor : Cursor Post.t)
  : Request → World → Reply (list PopulatedPost) * World :=
  route_json [auth] (feed_handler cursor).

(** *** routes/users.js *)

(** The visibility labels a viewer may see of the posts of [user]. *)
Definition visibilityFilter (viewer : option (ObjectId * User.t))
    (uid : ObjectId) (user : User.t) : list string :=
  match viewer with
  | Some me =>
      if bool_decide (me.1 = uid)
      then ["public"; "private"; "followers"]
      else if includes me.1 (User.followers user)
      then ["public"; "followers"]
      else ["public"]
  | None => ["public"]
  end.

(** A post of the listing: the document with [userCollection] populated.
    As for the feed, the echo of the page and limit is not modelled. *)
Definition ListedPost : Type := ObjectId * Post.t * option CollectionRef.

(** GET /api/users/:id/posts *)
Definition user_posts_handler (cursor : Cursor Post.t) (req : Req.t)
  : Handler (nat * list ListedPost) :=
  found <~ findById users (params_id (Req.request req)) ;;
  match found with
  | None => respond 404 (Failure "User not found")
  | Some (uid, user) =>
      let allowed := visibilityFilter (Req.user req) uid user in
      d <~ get_db ;;
      ret (200,
           (λ kv, (kv.1, kv.2, Post.userCollection kv.2 ≫= populate_collection_ref d))
             <$> cursor (find (λ _ p, bool_decide (Post.user p = uid)
                                      && bool_decide (Post.visibility p ∈ allowed))
                              (posts d)))
  end.

Definition GET_users_posts (cursor : Cursor Post.t)
  : Request → World → Reply (list ListedPost) * World :=
  route_json [optionalAuth] (user_posts_handler cursor).

(** A collection of a listing: the document with its items populated
    with [mediaURL] and [caption]; items that are gone are dropped. *)
Definition ListedCollection : Type :=
  ObjectId * UserCollection.t * list (ObjectId * string * string).

Definition populate_listed (d : Db) (kv : ObjectId * UserCollection.t)
  : ListedCollection :=
  (kv.1, kv.2,
   omap (λ id, (λ p, (id, Post.mediaURL p, Post.caption p)) <$> posts d !! id)
        (UserCollection.items kv.2)).

(** GET /api/users/:id/collections: the query is [{ user }], with
    [isPrivate: false] added unless the viewer is the user. *)
Definition user_collections_handler (cursor : Cursor UserCollection.t)
    (req : Req.t) : Handler (nat * list ListedCollection) :=
  found <~ findById users (params_id (Req.request req)) ;;
  match found with
  | None => respond 404 (Failure "User not found")
  | Some (uid, user) =>
      let publicOnly :=
        match Req.user req with
        | None => true
        | Some me => negb (bool_decide (me.1 = uid))
        end in
      d <~ get_db ;;
      ret (200,
           populate_listed d
             <$> cursor (find (λ _ c, bool_decide (UserCollection.user c = uid)
                                      && (if publicOnly
                                          then negb (UserCollection.isPrivate c)
                                          else true))
                              (collections d)))
  end.

Definition GET_users_collections (cursor : Cursor UserCollection.t)
  : Request → World → Reply (list ListedCollection) * World :=
  route_json [optionalAuth] (user_collections_handler cursor).

(** *** routes/collections.js *)

(** The fields of [req.body] that the collection routes read. *)
Module CollectionBody.
Record t := mk {
  name : option string;
  description : option string;
  category : option string;
  isPrivate : option bool
}.
End CollectionBody.

Definition category_enum : list string :=
  ["sneakers"; "watches"; "luxury"; "art"; "cars"; "jewelry"; "other"].

(** [req.body[field] !== undefined]. *)
Definition present {A} (v : option A) : bool :=
  match v with Some _ => true | None => false end.

(** express-validator's [optional()]: an absent field passes. *)
Definition optional (v : option string) (ok : option string → bool) : bool :=
  match v with None => true | Some _ => ok v end.

Definition isIn (values : list string) (v : option string) : bool :=
  bool_decide (default "" v ∈ values).

(** GET /api/collections: the collections of the acting user (the
    [createdAt] that this route selects for the items is the storage
    layer's, and not in the model). *)
Definition my_collections_handler (cursor : Cursor UserCollection.t)
    (req : Req.t) : Handler (nat * list ListedCollection) :=
  me <~ the_user req ;;
  d <~ get_db ;;
  ret (200,
       populate_listed d
         <$> cursor (find (λ _ c, bool_decide (UserCollection.user c = me.1))
                          (collections d))).

Definition GET_collections (cursor : Cursor UserCollection.t)
  : Request → World → Reply (list ListedCollection) * World :=
  route_json [auth] (my_collections_handler cursor).

(** POST /api/collections *)
Definition create_collection_validators (b : CollectionBody.t) : list string :=
  check (notEmpty (CollectionBody.name b)) "Collection name is required"
  ++ check (isLength_max 50 (CollectionBody.name b))
           "Name must be less than 50 characters"
  ++ check (isIn category_enum (CollectionBody.category b)) "Invalid category"
  ++ check (optional (CollectionBody.description b) (isLength_max 200))
           "Description must be less than 200 characters".

(** The validators of models/UserCollection.js. *)
Definition validate_collection (c : UserCollection.t) : list string :=
  validate_required "name" (UserCollection.name c)
  ++ validate_maxlength "name" 50 (UserCollection.name c)
  ++ validate_maxlength "description" 200 (UserCollection.description c)
  ++ validate_required "category" (UserCollection.category c)
  ++ validate_enum "category" category_enum (UserCollection.category c).

(** [collection.save()] with the messages of the validators that ran. *)
Definition UserCollection_validated_save (id : ObjectId) (c : UserCollection.t)
    (errors : list string) : Handler unit :=
  match errors with
  | [] => UserCollection_save id c
  | _ => throw (ValidationError errors)
  end.

Definition create_collection_handler (newId : ObjectId) (b : CollectionBody.t)
    (req : Req.t) : Handler (nat * (string * PopulatedCollection)) :=
  match create_collection_validators b with
  | (_ :: _) as errors => respond 400 (ValidationFailed errors)
  | [] =>
      me <~ the_user req ;;
      let collection :=
        UserCollection.mk me.1 (default "" (CollectionBody.name b))
          (or_default (CollectionBody.description b) "")
          (default "" (CollectionBody.category b))
          (default false (CollectionBody.isPrivate b)) "" [] in
      UserCollection_validated_save newId collection
        (validate_collection collection) ;;;
      d <~ get_db ;;
      ret (201, ("Collection created successfully",
                 populate_collection d newId collection))
  end.

Definition POST_collections (newId : ObjectId) (b : CollectionBody.t)
  : Request → World → Reply (string * PopulatedCollection) * World :=
  route_json [auth] (create_collection_handler newId b).

(** PUT /api/collections/:id *)
Definition update_collection_validators (b : CollectionBody.t) : list string :=
  check (optional (CollectionBody.name b) (isLength_max 50))
        "Name must be less than 50 characters"
  ++ check (optional (CollectionBody.category b) (isIn category_enum))
           "Invalid category"
  ++ check (optional (CollectionBody.description b) (isLength_max 200))
           "Description must be less than 200 characters".

(** [updateFields.forEach(...)]: each of the four fields is overwritten
    when the body has it. *)
Definition apply_update (b : CollectionBody.t) (c : UserCollection.t)
  : UserCollection.t :=
  UserCollection.mk (UserCollection.user c)
    (default (UserCollection.name c) (CollectionBody.name b))
    (default (UserCollection.description c) (CollectionBody.description b))
    (default (UserCollection.category c) (CollectionBody.category b))
    (default (UserCollection.isPrivate c) (CollectionBody.isPrivate b))
    (UserCollection.coverImage c) (UserCollection.items c).

(** On the save of a loaded document the required validators run, and
    the others run for the paths that were set. *)
Definition validate_update (b : CollectionBody.t) (c : UserCollection.t)
  : list string :=
  validate_required "name" (UserCollection.name c)
  ++ (if present (CollectionBody.name b)
      then validate_maxlength "name" 50 (UserCollection.name c) else [])
  ++ (if present (CollectionBody.description b)
      then validate_maxlength "description" 200 (UserCollection.description c)
      else [])
  ++ validate_required "category" (UserCollection.category c)
  ++ (if present (CollectionBody.category b)
      then validate_enum "category" category_enum (UserCollection.category c)
      else []).

Definition update_collection_handler (b : CollectionBody.t) (req : Req.t)
  : Handler (nat * (string * PopulatedCollection)) :=
  match update_collection_validators b with
  | (_ :: _) as errors => respond 400 (ValidationFailed errors)
  | [] =>
      found <~ findById collections (params_id (Req.request req)) ;;
      match found with
      | None => respond 404 (Failure "Collection not found")
      | Some (id, collection) =>
          me <~ the_user req ;;
          if negb (bool_decide (UserCollection.user collection = me.1))
          then respond 403 (Failure "Not authorized to update this collection")
          else
            let collection := apply_update b collection in
            UserCollection_validated_save id collection
              (validate_update b collection) ;;;
            d <~ get_db ;;
            ret (200, ("Collection updated successfully",
                       populate_collection d id collection))
      end
  end.

Definition PUT_collections_id (b : CollectionBody.t)
  : Request → World → Reply (string * PopulatedCollection) * World :=
  route_json [auth] (update_collection_handler b).

(** DELETE /api/collections/:id/remove-post/:postId, with the second
    route parameter as an argument. *)
Definition remove_post_handler (postId : RawId) (req : Req.t) : Handler Response :=
  foundCollection <~ findById collections (params_id (Req.request req)) ;;
  foundPost <~ findById posts postId ;;
  match foundCollection, foundPost with
  | None, _ => respond 404 (Failure "Collection not found")
  | Some _, None => respond 404 (Failure "Post not found")
  | Some (cid, collection), Some (pid, post) =>
      me <~ the_user req ;;
      if negb (bool_decide (UserCollection.user collection = me.1))
      then respond 403 (Failure "Not authorized to modify this collection")
      else
        UserCollection_save cid
          (UserCollection.set_items collection
             (without pid (UserCollection.items collection))) ;;;
        Post_save pid (Post.set_userCollection post None) [] ;;;
        respond 200 (Success "Post removed from collection successfully")
  end.

Definition DELETE_collections_remove_post (postId : RawId)
  : Request → World → Response * World :=
  route [auth] (remove_post_handler postId).

(** *** routes/views.js *)

(** What the collection page is rendered with: the title, the viewer,
    the populated collection and the owner flag. *)
Definition CollectionDetail : Type :=
  string * option ObjectId * PopulatedCollection * bool.

(** GET /collection/:id *)
Definition collection_page_handler (req : Req.t)
  : Handler (nat * CollectionDetail) :=
  found <~ findById collections (params_id (Req.request req)) ;;
  match found with
  | None => respond 404 (RenderError "Collection Not Found" "Collection not found")
  | Some (id, c) =>
      d <~ get_db ;;
      let collection := populate_collection d id c in
      (* collection.user._id.toString() === req.user._id.toString() *)
      let same_user (me : ObjectId * User.t) : Handler bool :=
        match pcoll_user collection with
        | None => throw (TypeError "Cannot read properties of null")
        | Some owner => ret (bool_decide (ref_id owner = me.1))
        end in
      private <~
        (if UserCollection.isPrivate c
         then
           match Req.user req with
           | None => ret true
           | Some me => same <~ same_user me ;; ret (negb same)
           end
         else ret false) ;;
      if (private : bool)
      then respond 403 (RenderError "Private Collection" "This collection is private")
      else
        isOwner <~
          match Req.user req with
          | Some me => same_user me
          | None => ret false
          end ;;
        ret (200, ((UserCollection.name c ++ " - FlexBase")%string,
                   fst <$> Req.user req, collection, isOwner))
  end.

Definition GET_collection_page
  : Request → World → Reply CollectionDetail * World :=
  page_json [optionalAuth] collection_page_handler "Failed to load collection".

(** ** Vocabulary of the properties *)

(** The users in a post's like set. *)
Definition likers (p : Post.t) : list ObjectId := Like.user <$> Post.likes p.

Definition by_user (uid : ObjectId) : Like.t → bool :=
  λ like, bool_decide (Like.user like = uid).

(** The world after a like toggle that stored [likes] and emitted [events]. *)
Definition liked_world (w : World) (pid : ObjectId) (p : Post.t)
    (likes : list Like.t) (events : list Emit) : World :=
  mkWorld (set_posts (db w) (<[pid := Post.set_likes p likes]> (posts (db w))))
          (emitted w ++ events).

Definition like_notification (u : User.t) (uid pid : ObjectId) : Event :=
  notification "like" (User.username u) uid (Some pid)
               (User.username u ++ " liked your post")%string.

(** What a request added to the real-time channel. *)
Definition emitted_by (w w' : World) : list Emit :=
  drop (length (emitted w)) (emitted w').

Definition is_notification (e : Event) : bool :=
  match e with notification _ _ _ _ _ => true | _ => false end.

Definition is_like_notification (e : Event) : bool :=
  match e with
  | notification type _ _ _ _ => bool_decide (type = "like")
  | _ => false
  end.

(** ** A small instance

    Three users: alice (1) is followed by bob (2); carol (3) follows
    nobody.  Alice owns a private post (10), a public post (11) that bob
    has liked and that sits in her private collection (20), and a public
    post (12) outside any collection. *)

Definition alice : User.t := User.mk "alice" "a.png" "" [2%N] [].
Definition bob : User.t := User.mk "bob" "b.png" "" [] [1%N].
Definition carol : User.t := User.mk "carol" "c.png" "" [] [].

Definition post10 : Post.t :=
  Post.mk 1 "my grail" "/uploads/posts/10.png" "image" [] [] [] None "private".
Definition post11 : Post.t :=
  Post.mk 1 "daily pair" "/uploads/posts/11.png" "image"
          [Tag.mk (Some "Nike") (Some "brand")] [Like.mk 2 50] []
          (Some 20%N) "public".
Definition post12 : Post.t :=
  Post.mk 1 "new watch" "/uploads/posts/12.png" "image" [] [] [] None "public".

Definition coll20 : UserCollection.t :=
  UserCollection.mk 1 "Vault" "" "sneakers" true "" [11%N].

Definition sample_db : Db :=
  mkDb (<[1%N := alice]> (<[2%N := bob]> (<[3%N := carol]> ∅)))
       (<[10%N := post10]> (<[11%N := post11]> (<[12%N := post12]> ∅)))
       (<[20%N := coll20]> ∅).

Definition sample_world : World := mkWorld sample_db [].

(** A request for the document [id] by the identity [who], with an empty
    body and no file. *)
Definition request_for (id : ObjectId) (who : option ObjectId) : Request :=
  mkRequest (ValidId id) Body.empty None who.

(** The database after the two saves of a follow toggle. *)
Definition follow_db (d : Db) (a : ObjectId) (ua' : User.t) (b : ObjectId)
    (ub' : User.t) : Db :=
  set_users (set_users d (<[a := ua']> (users d)))
            (<[b := ub']> (<[a := ua']> (users d))).

(** Alice's request to add post [pid] to collection [cid]. *)
Definition add_request (cid pid : ObjectId) (who : option ObjectId) : Request :=
  mkRequest (ValidId cid)
            (Body.mk None None None None None (Some (ValidId pid))) None who.

(** A text of [n] characters, and a request to post it as a comment. *)
Fixpoint filler (n : nat) : string :=
  match n with
  | O => ""
  | S n' => String "a"%char (filler n')
  end.

Definition comment_request (pid : ObjectId) (text : string)
    (who : option ObjectId) : Request :=
  mkRequest (ValidId pid) (Body.mk (Some text) None None None None None) None who.

Definition comment_notification (u : User.t) (uid pid : ObjectId) : Event :=
  notification "comment" (User.username u) uid (Some pid)
               (User.username u ++ " commented on your post")%string.

(** A multipart request to create a post with the given caption and
    tags, carrying an uploaded PNG. *)
Definition create_request (caption : string) (tags : list Tag.t)
    (who : option ObjectId) : Request :=
  mkRequest (InvalidId "")
            (Body.mk None (Some caption) (Some (TagArray tags)) None None None)
            (Some (mkFile "1700000000000-1.png" "image/png")) who.

(** The message Mongoose gives for the tag type the handler fills in. *)
Definition general_rejected : string :=
  "`general` is not a valid enum value for path `type`.".

(** A second instance: the first one with a followers-only post (13) of
    alice added, a public collection (21) of alice, and an empty public
    collection (22) of bob. *)
Definition post13 : Post.t :=
  Post.mk 1 "for friends" "/uploads/posts/13.png" "image" [] [] [] None "followers".

Definition coll21 : UserCollection.t :=
  UserCollection.mk 1 "Shelf" "on display" "watches" false "" [12%N].

Definition coll22 : UserCollection.t :=
  UserCollection.mk 2 "Wishlist" "" "other" false "" [].

Definition social_db : Db :=
  mkDb (users sample_db) (<[13%N := post13]> (posts sample_db))
       (<[21%N := coll21]> (<[22%N := coll22]> (collections sample_db))).

Definition social_world : World := mkWorld social_db [].

(** A cursor that yields every match, in the order it is given them. *)
Definition every {V} : Cursor V := λ l, l.

(** The document that POST /api/posts builds from a request. *)
Definition created_post (uid : ObjectId) (caption : string) (f : File)
    (tags : option TagsField) (coll : option ObjectId)
    (visibility : option string) : Post.t :=
  Post.mk uid caption ("/uploads/posts/" ++ filename f)%string
          (if String.prefix "video/" (mimetype f) then "video" else "image")
          (processedTags tags) [] [] coll (or_default visibility "public").

(** The event that tells a follower of a new post. *)
Definition new_post_to (u : User.t) (uid newId followerId : ObjectId) : Emit :=
  mkEmit (user_ followerId)
         (new_post (User.username u) uid newId
                   (User.username u ++ " posted a new item")%string).

(** The database after a post has been created, and pushed onto the
    items of the collection it names. *)
Definition created_db (d : Db) (newId : ObjectId) (post : Post.t) : Db :=
  mkDb (users d) (<[newId := post]> (posts d))
       (match Post.userCollection post with
        | Some cid =>
            alter (λ c, UserCollection.set_items c (UserCollection.items c ++ [newId]))
                  cid (collections d)
        | None => collections d
        end).

(** The invariant of the data model: an item of a collection, when it is
    a stored post, is a post of the collection's owner. *)
Definition items_owned (d : Db) : Prop :=
  ∀ cid c pid p,
    collections d !! cid = Some c → pid ∈ UserCollection.items c →
    posts d !! pid = Some p → Post.user p = UserCollection.user c.

(** A request to create a post in collection [cid]. *)
Definition create_in_request (caption : string) (cid : ObjectId)
    (who : option ObjectId) : Request :=
  mkRequest (InvalidId "")
            (Body.mk None (Some caption) None (Some (ValidId cid)) None None)
            (Some (mkFile "1700000000000-2.mp4" "video/mp4")) who.

(** * Properties *)

(** ** Running a route *)

Lemma route_auth h r w uid u :
  credential r = Some uid →
  users (db w) !! uid = Some u →
  route [auth] h r w = settle errorHandler (h (Req.mk r (Some (uid, u))) w).
Proof.
  intros Hc Hu. unfold route, chain, auth, incoming, bind, get_db, ret.
  simpl. rewrite Hc. simpl. rewrite Hu. reflexivity.
Qed.

Lemma route_auth_anonymous h r w :
  credential r = None →
  route [auth] h r w = (mkResponse 401 (Failure "Not authorized"), w).
Proof.
  intros Hc. unfold route, chain, auth, incoming, bind. simpl.
  rewrite Hc. reflexivity.
Qed.

Lemma route_open h r w :
  route [] h r w = settle errorHandler (h (incoming r) w).
Proof. reflexivity. Qed.

Lemma bind_next {A B} (m : Handler A) (k : A → Handler B) w a w' :
  m w = Next a w' → bind m k w = k a w'.
Proof. intros H. unfold bind. rewrite H. reflexivity. Qed.

Lemma findById_found {V} (table : Db → gmap N V) id v w :
  table (db w) !! id = Some v →
  findById table (ValidId id) w = Next (Some (id, v)) w.
Proof.
  intros H. unfold findById, bind, get_db, ret. rewrite H. reflexivity.
Qed.

Lemma findById_missing {V} (table : Db → gmap N V) id w :
  table (db w) !! id = None →
  findById table (ValidId id) w = Next None w.
Proof.
  intros H. unfold findById, bind, get_db, ret. rewrite H. reflexivity.
Qed.

(** ** [findIndex] and [splice] *)

Section FindIndex.
Context {A : Type} (f : A → bool).

Lemma findIndex_from_none l k :
  Forall (λ x, f x = false) l → findIndex_from f l k = (-1)%Z.
Proof.
  intros H. revert k. induction H as [|x l Hx _ IH]; intros k; simpl.
  - reflexivity.
  - rewrite Hx. apply IH.
Qed.

Lemma findIndex_from_first l1 x l2 k :
  Forall (λ y, f y = false) l1 → f x = true →
  findIndex_from f (l1 ++ x :: l2) k = (k + Z.of_nat (length l1))%Z.
Proof.
  intros H Hx. revert k. induction H as [|y l Hy _ IH]; intros k; simpl.
  - rewrite Hx. lia.
  - rewrite Hy, IH. lia.
Qed.

(** Either no element satisfies [f], or the list splits at the first
    one that does. *)
Lemma first_match l :
  Forall (λ x, f x = false) l
  ∨ ∃ l1 x l2, l = l1 ++ x :: l2 ∧ Forall (λ y, f y = false) l1 ∧ f x = true.
Proof.
  induction l as [|a l IH].
  - left. constructor.
  - destruct (f a) eqn:Ha.
    + right. exists [], a, l. repeat split; [constructor | assumption].
    + destruct IH as [IH | (l1 & x & l2 & -> & Hl1 & Hx)].
      * left. constructor; assumption.
      * right. exists (a :: l1), x, l2. repeat split; [|assumption].
        constructor; assumption.
Qed.

Lemma splice_one (l1 : list A) x l2 :
  splice (l1 ++ x :: l2) (Z.of_nat (length l1)) 1 = l1 ++ l2.
Proof.
  unfold splice. rewrite Nat2Z.id.
  rewrite take_app_length.
  replace (length l1 + 1)%nat with (length l1 + 1 + 0)%nat by lia.
  rewrite <- Nat.add_assoc. rewrite drop_app_add. reflexivity.
Qed.
End FindIndex.

(** ** The like toggle *)

Lemma not_liker_Forall uid (l : list Like.t) :
  uid ∉ Like.user <$> l ↔ Forall (λ x, by_user uid x = false) l.
Proof.
  rewrite Forall_forall. unfold by_user. split.
  - intros H x Hx. apply bool_decide_eq_false. intros <-.
    apply H. apply list_elem_of_fmap. eauto.
  - intros H (x & -> & Hx)%list_elem_of_fmap.
    apply H in Hx. apply bool_decide_eq_false in Hx. congruence.
Qed.

(** The like transition: the acting user is not in the like set. *)
Lemma like_run_like now r w uid u pid p :
  credential r = Some uid → users (db w) !! uid = Some u →
  params_id r = ValidId pid → posts (db w) !! pid = Some p →
  uid ∉ likers p →
  POST_posts_like now r w =
    (mkResponse 200 (LikeResult true (length (Post.likes p ++ [Like.mk uid now]))),
     liked_world w pid p (Post.likes p ++ [Like.mk uid now])
       (mkEmit (post_ pid)
          (post_like pid uid (User.username u) true
             (length (Post.likes p ++ [Like.mk uid now])))
        :: if bool_decide (Post.user p = uid) then []
           else [mkEmit (user_ (Post.user p)) (like_notification u uid pid)])).
Proof.
  intros Hc Hu Hr Hp Hn. unfold POST_posts_like.
  rewrite (route_auth _ _ _ _ _ Hc Hu).
  unfold like_handler, bind at 1. simpl. rewrite Hr.
  rewrite (findById_found posts _ _ _ Hp).
  unfold the_user, bind, ret. simpl.
  fold (by_user uid). unfold findIndex.
  rewrite findIndex_from_none by (apply not_liker_Forall, Hn).
  simpl. unfold liked_world, like_notification.
  destruct (bool_decide (Post.user p = uid)); simpl;
    rewrite <- ?app_assoc; reflexivity.
Qed.

(** The unlike transition: the like set splits at the acting user's
    first entry, which is removed. *)
Lemma like_run_unlike now r w uid u pid p l1 x l2 :
  credential r = Some uid → users (db w) !! uid = Some u →
  params_id r = ValidId pid → posts (db w) !! pid = Some p →
  Post.likes p = l1 ++ x :: l2 →
  uid ∉ Like.user <$> l1 → Like.user x = uid →
  POST_posts_like now r w =
    (mkResponse 200 (LikeResult false (length (l1 ++ l2))),
     liked_world w pid p (l1 ++ l2)
       [mkEmit (post_ pid)
          (post_like pid uid (User.username u) false (length (l1 ++ l2)))]).
Proof.
  intros Hc Hu Hr Hp Hl Hn Hx. unfold POST_posts_like.
  rewrite (route_auth _ _ _ _ _ Hc Hu).
  unfold like_handler, bind at 1. simpl. rewrite Hr.
  rewrite (findById_found posts _ _ _ Hp).
  unfold the_user, bind, ret. simpl.
  fold (by_user uid). unfold findIndex. rewrite Hl.
  rewrite findIndex_from_first;
    [| apply not_liker_Forall, Hn | unfold by_user; apply bool_decide_eq_true, Hx].
  rewrite Z.add_0_l.
  rewrite bool_decide_eq_true_2 by lia.
  rewrite splice_one. simpl.
  rewrite andb_false_r. reflexivity.
Qed.

(** A like set in which no user occurs twice splits around a liker. *)
Lemma likers_split uid (l : list Like.t) :
  uid ∈ Like.user <$> l →
  ∃ l1 x l2, l = l1 ++ x :: l2 ∧ (uid ∉ Like.user <$> l1) ∧ Like.user x = uid.
Proof.
  intros Hin. destruct (first_match (by_user uid) l)
    as [Hnone | (l1 & x & l2 & -> & Hl1 & Hx)].
  - apply not_liker_Forall in Hnone. contradiction.
  - exists l1, x, l2. repeat split.
    + apply not_liker_Forall, Hl1.
    + unfold by_user in Hx. apply bool_decide_eq_true in Hx. exact Hx.
Qed.

Lemma emitted_by_liked_world w pid p likes events :
  emitted_by w (liked_world w pid p likes events) = events.
Proof. unfold emitted_by, liked_world. simpl. apply drop_app_length. Qed.

(** The toggle keeps the like set free of duplicates. *)
Lemma like_preserves_distinct now r w uid u pid p :
  credential r = Some uid → users (db w) !! uid = Some u →
  params_id r = ValidId pid → posts (db w) !! pid = Some p →
  NoDup (likers p) →
  ∃ p', posts (db (POST_posts_like now r w).2) !! pid = Some p' ∧ NoDup (likers p').
Proof.
  intros Hc Hu Hr Hp Hnd.
  destruct (decide (uid ∈ likers p)) as [Hin | Hout].
  - destruct (likers_split _ _ Hin) as (l1 & x & l2 & Hl & Hl1 & Hx).
    rewrite (like_run_unlike now r w uid u pid p l1 x l2) by assumption.
    eexists. split; [apply lookup_insert_eq|].
    unfold likers in *. simpl. rewrite Hl in Hnd.
    rewrite fmap_app in *. simpl in Hnd.
    apply NoDup_app in Hnd as (H1 & H2 & H3).
    apply NoDup_cons in H3 as [_ H3].
    apply NoDup_app. repeat split; [assumption | | assumption].
    intros y Hy Hy'. apply (H2 y Hy). right. exact Hy'.
  - rewrite (like_run_like now r w uid u pid p) by assumption.
    eexists. split; [apply lookup_insert_eq|].
    unfold likers in *. simpl. rewrite fmap_app. simpl.
    apply NoDup_app. repeat split; [assumption | | apply NoDup_singleton].
    intros y Hy ->%list_elem_of_singleton. contradiction.
Qed.

(** C3.  Toggling like twice in succession, by the same user on the same
    post, leaves the post with its original like count and the user with
    the original liked state; each call answers 200 with the resulting
    liked flag and the new total like count.  The like set is one in
    which no user occurs twice, the invariant of the data model, which
    the toggle maintains ([like_preserves_distinct]). *)
Theorem like_twice_restores now1 now2 r w uid u pid p :
  credential r = Some uid → users (db w) !! uid = Some u →
  params_id r = ValidId pid → posts (db w) !! pid = Some p →
  NoDup (likers p) →
  let first := POST_posts_like now1 r w in
  let second := POST_posts_like now2 r first.2 in
  ∃ p1 p2,
    posts (db first.2) !! pid = Some p1 ∧
    posts (db second.2) !! pid = Some p2 ∧
    first.1 = mkResponse 200
                (LikeResult (bool_decide (uid ∈ likers p1)) (length (Post.likes p1))) ∧
    second.1 = mkResponse 200
                 (LikeResult (bool_decide (uid ∈ likers p2)) (length (Post.likes p2))) ∧
    length (Post.likes p2) = length (Post.likes p) ∧
    (uid ∈ likers p2 ↔ uid ∈ likers p).
Proof.
  intros Hc Hu Hr Hp Hnd first second. subst first second.
  destruct (decide (uid ∈ likers p)) as [Hin | Hout].
  - destruct (likers_split _ _ Hin) as (l1 & x & l2 & Hl & Hl1 & Hx).
    assert (Hgone : uid ∉ Like.user <$> (l1 ++ l2)).
    { unfold likers in Hnd. rewrite Hl, fmap_app in Hnd. simpl in Hnd.
      apply NoDup_app in Hnd as (_ & _ & H3).
      apply NoDup_cons in H3 as [H3 _]. rewrite Hx in H3.
      rewrite fmap_app. intros [H | H]%elem_of_app; contradiction. }
    rewrite (like_run_unlike now1 r w uid u pid p l1 x l2) by assumption.
    set (p1 := Post.set_likes p (l1 ++ l2)).
    cbn [snd fst].
    rewrite (like_run_like now2 r _ uid u pid p1);
      [| assumption | assumption | assumption | apply lookup_insert_eq | exact Hgone].
    exists p1, (Post.set_likes p1 (Post.likes p1 ++ [Like.mk uid now2])).
    cbn [snd fst]. split; [apply lookup_insert_eq|].
    split; [apply lookup_insert_eq|].
    split; [| split; [| split]].
    + rewrite bool_decide_eq_false_2 by exact Hgone. reflexivity.
    + rewrite bool_decide_eq_true_2; [reflexivity|].
      unfold likers. simpl. rewrite fmap_app. apply elem_of_app. right.
      simpl. left.
    + simpl. rewrite Hl. rewrite !length_app. simpl. lia.
    + split; [intros _; exact Hin|]. intros _.
      unfold likers. simpl. rewrite fmap_app. apply elem_of_app. right.
      simpl. left.
  - rewrite (like_run_like now1 r w uid u pid p) by assumption.
    set (p1 := Post.set_likes p (Post.likes p ++ [Like.mk uid now1])).
    cbn [snd fst].
    rewrite (like_run_unlike now2 r _ uid u pid p1 (Post.likes p) (Like.mk uid now1) []);
      [| assumption | assumption | assumption | apply lookup_insert_eq
       | reflexivity | exact Hout | reflexivity].
    rewrite app_nil_r.
    exists p1, (Post.set_likes p1 (Post.likes p)).
    cbn [snd fst]. split; [apply lookup_insert_eq|].
    split; [apply lookup_insert_eq|].
    split; [| split; [| split]].
    + rewrite bool_decide_eq_true_2; [reflexivity|].
      unfold likers. simpl. rewrite fmap_app. apply elem_of_app. right.
      simpl. left.
    + rewrite bool_decide_eq_false_2 by exact Hout. reflexivity.
    + reflexivity.
    + reflexivity.
Qed.

Lemma like_twice_restores_witness :
  NoDup (likers post11) ∧
  let first := POST_posts_like 100 (request_for 11 (Some 2%N)) sample_world in
  let second := POST_posts_like 200 (request_for 11 (Some 2%N)) first.2 in
  ∃ p1 p2,
    posts (db first.2) !! 11%N = Some p1 ∧
    posts (db second.2) !! 11%N = Some p2 ∧
    first.1 = mkResponse 200
                (LikeResult (bool_decide (2%N ∈ likers p1)) (length (Post.likes p1))) ∧
    second.1 = mkResponse 200
                 (LikeResult (bool_decide (2%N ∈ likers p2)) (length (Post.likes p2))) ∧
    length (Post.likes p2) = length (Post.likes post11) ∧
    (2%N ∈ likers p2 ↔ 2%N ∈ likers post11).
Proof.
  assert (Hnd : NoDup (likers post11)) by (vm_compute; apply NoDup_singleton).
  split; [exact Hnd|].
  apply (like_twice_restores 100 200 (request_for 11 (Some 2%N)) sample_world
           2%N bob 11%N post11); [reflexivity | reflexivity | reflexivity | reflexivity | exact Hnd].
Defined.

(** C8.  A like toggle sends a "like" notification to the personal
    channel of the post's owner exactly when the call is a like
    transition (the acting user was not in the like set) and the acting
    user is not the owner; and whatever notification the call sends is
    that one, so none is sent on unlike or on self-like. *)
Theorem like_notification_iff now r w uid u pid p :
  credential r = Some uid → users (db w) !! uid = Some u →
  params_id r = ValidId pid → posts (db w) !! pid = Some p →
  let sent := emitted_by w (POST_posts_like now r w).2 in
  ((∃ e, mkEmit (user_ (Post.user p)) e ∈ sent ∧ is_like_notification e = true)
   ↔ ((uid ∉ likers p) ∧ uid ≠ Post.user p))
  ∧ (∀ m, m ∈ sent → is_notification (event m) = true →
       m = mkEmit (user_ (Post.user p)) (like_notification u uid pid)
       ∧ (uid ∉ likers p) ∧ uid ≠ Post.user p).
Proof.
  intros Hc Hu Hr Hp sent. subst sent.
  destruct (decide (uid ∈ likers p)) as [Hin | Hout].
  - destruct (likers_split _ _ Hin) as (l1 & x & l2 & Hl & Hl1 & Hx).
    rewrite (like_run_unlike now r w uid u pid p l1 x l2) by assumption.
    cbn [snd]. rewrite emitted_by_liked_world. split.
    + split.
      * intros (e & He & _). apply list_elem_of_singleton in He. discriminate He.
      * intros [Hout _]. contradiction.
    + intros m ->%list_elem_of_singleton Hm. discriminate Hm.
  - rewrite (like_run_like now r w uid u pid p) by assumption.
    cbn [snd]. rewrite emitted_by_liked_world.
    destruct (bool_decide (Post.user p = uid)) eqn:Hown.
    + apply bool_decide_eq_true in Hown. split.
      * split.
        -- intros (e & He & _). apply list_elem_of_singleton in He. discriminate He.
        -- intros [_ Hne]. congruence.
      * intros m ->%list_elem_of_singleton Hm. discriminate Hm.
    + apply bool_decide_eq_false in Hown. split.
      * split.
        -- intros _. split; [assumption | congruence].
        -- intros _. exists (like_notification u uid pid). split.
           ++ right. left.
           ++ reflexivity.
      * intros m Hm Hn. apply elem_of_cons in Hm as [-> | Hm]; [discriminate Hn|].
        apply list_elem_of_singleton in Hm. subst m.
        split; [reflexivity|]. split; [assumption | congruence].
Qed.

Lemma like_notification_iff_witness :
  let sent := emitted_by sample_world
                (POST_posts_like 100 (request_for 12 (Some 2%N)) sample_world).2 in
  ((∃ e, mkEmit (user_ (Post.user post12)) e ∈ sent ∧ is_like_notification e = true)
   ↔ ((2%N ∉ likers post12) ∧ 2%N ≠ Post.user post12))
  ∧ (∀ m, m ∈ sent → is_notification (event m) = true →
       m = mkEmit (user_ (Post.user post12)) (like_notification bob 2 12)
       ∧ (2%N ∉ likers post12) ∧ 2%N ≠ Post.user post12).
Proof.
  apply (like_notification_iff 100 (request_for 12 (Some 2%N)) sample_world
           2%N bob 12%N post12); reflexivity.
Defined.

(** ** The follow toggle *)

Lemma not_in_without (x : N) (l : list N) : x ∉ without x l.
Proof. unfold without. rewrite list_elem_of_filter. intros [H _]. congruence. Qed.

Lemma in_pushed (x : N) (l : list N) : x ∈ l ++ [x].
Proof. apply elem_of_app. right. left. Qed.

(** What the toggle does for an acting user [a] and a different target [b]. *)
Lemma follow_run r w a ua b ub :
  credential r = Some a → users (db w) !! a = Some ua →
  params_id r = ValidId b → users (db w) !! b = Some ub →
  a ≠ b →
  POST_users_follow r w =
    if bool_decide (b ∈ User.following ua)
    then
      (mkResponse 200
         (FollowResult "User unfollowed" false
                       (length (without a (User.followers ub)))),
       mkWorld
         (follow_db (db w)
            a (User.set_following ua (without b (User.following ua)))
            b (User.set_followers ub (without a (User.followers ub))))
         (emitted w))
    else
      (mkResponse 200
         (FollowResult "User followed" true
                       (length (User.followers ub ++ [a]))),
       mkWorld
         (follow_db (db w)
            a (User.set_following ua (User.following ua ++ [b]))
            b (User.set_followers ub (User.followers ub ++ [a])))
         (emitted w ++
          [mkEmit (user_ b)
             (notification "follow" (User.username ua) a None
                (User.username ua ++ " started following you")%string)])).
Proof.
  intros Hc Ha Hr Hb Hne. unfold POST_users_follow.
  rewrite (route_auth _ _ _ _ _ Hc Ha).
  unfold follow_handler. cbn [Req.request Req.user]. rewrite Hr.
  erewrite bind_next by (apply findById_found; eassumption).
  unfold the_user. erewrite bind_next by reflexivity. cbn [fst snd].
  rewrite bool_decide_eq_false_2 by congruence.
  erewrite bind_next by (apply findById_found; eassumption).
  unfold includes.
  destruct (bool_decide (b ∈ User.following ua)).
  - erewrite bind_next by reflexivity. reflexivity.
  - reflexivity.
Qed.

Lemma follow_db_lookup_actor d a ua' b ub' :
  a ≠ b → users (follow_db d a ua' b ub') !! a = Some ua'.
Proof.
  intros Hne. unfold follow_db. simpl.
  rewrite lookup_insert_ne by congruence. apply lookup_insert_eq.
Qed.

Lemma follow_db_lookup_target d a ua' b ub' :
  users (follow_db d a ua' b ub') !! b = Some ub'.
Proof. unfold follow_db. simpl. apply lookup_insert_eq. Qed.

(** C2.  For distinct users A and B, a follow toggle by A on B succeeds
    and leaves the two records symmetric: B is in A's following set
    exactly when A is in B's followers set, after a follow as after an
    unfollow.  The response carries the new state and B's follower count. *)
Theorem follow_toggle_symmetric r w a ua b ub :
  credential r = Some a → users (db w) !! a = Some ua →
  params_id r = ValidId b → users (db w) !! b = Some ub →
  a ≠ b →
  let out := POST_users_follow r w in
  ∃ ua' ub' message,
    users (db out.2) !! a = Some ua' ∧
    users (db out.2) !! b = Some ub' ∧
    out.1 = mkResponse 200
              (FollowResult message (bool_decide (b ∈ User.following ua'))
                            (length (User.followers ub'))) ∧
    (b ∈ User.following ua' ↔ a ∈ User.followers ub').
Proof.
  intros Hc Ha Hr Hb Hne out. subst out.
  rewrite (follow_run r w a ua b ub) by assumption.
  destruct (bool_decide (b ∈ User.following ua)); cbn [fst snd db].
  - eexists _, _, _.
    split; [apply follow_db_lookup_actor, Hne|].
    split; [apply follow_db_lookup_target|].
    cbn [User.following User.followers User.set_following User.set_followers].
    split.
    + rewrite bool_decide_eq_false_2 by apply not_in_without. reflexivity.
    + split; intros H; exfalso; revert H; apply not_in_without.
  - eexists _, _, _.
    split; [apply follow_db_lookup_actor, Hne|].
    split; [apply follow_db_lookup_target|].
    cbn [User.following User.followers User.set_following User.set_followers].
    split.
    + rewrite bool_decide_eq_true_2 by apply in_pushed. reflexivity.
    + split; intros _; apply in_pushed.
Qed.

Lemma follow_toggle_symmetric_witness :
  3%N ≠ 1%N ∧
  let out := POST_users_follow (request_for 1 (Some 3%N)) sample_world in
  ∃ ua' ub' message,
    users (db out.2) !! 3%N = Some ua' ∧
    users (db out.2) !! 1%N = Some ub' ∧
    out.1 = mkResponse 200
              (FollowResult message (bool_decide (1%N ∈ User.following ua'))
                            (length (User.followers ub'))) ∧
    (1%N ∈ User.following ua' ↔ 3%N ∈ User.followers ub').
Proof.
  assert (Hne : 3%N ≠ 1%N) by lia.
  split; [exact Hne|].
  apply (follow_toggle_symmetric (request_for 1 (Some 3%N)) sample_world
           3%N carol 1%N alice); [reflexivity | reflexivity | reflexivity | reflexivity | exact Hne].
Defined.

(** C5.  A follow toggle by a user on itself is answered 400 with the
    validation message, and the world is left as it was: no record, so
    neither relationship set of the user, is changed and nothing is
    emitted. *)
Theorem self_follow_rejected r w uid u :
  credential r = Some uid → users (db w) !! uid = Some u →
  params_id r = ValidId uid →
  POST_users_follow r w =
    (mkResponse 400 (Failure "You cannot follow yourself"), w).
Proof.
  intros Hc Hu Hr. unfold POST_users_follow.
  rewrite (route_auth _ _ _ _ _ Hc Hu).
  unfold follow_handler. cbn [Req.request Req.user]. rewrite Hr.
  erewrite bind_next by (apply findById_found; eassumption).
  unfold the_user. erewrite bind_next by reflexivity. cbn [fst snd].
  rewrite bool_decide_eq_true_2 by reflexivity. reflexivity.
Qed.

Lemma self_follow_rejected_witness :
  POST_users_follow (request_for 2 (Some 2%N)) sample_world =
    (mkResponse 400 (Failure "You cannot follow yourself"), sample_world).
Proof.
  apply (self_follow_rejected (request_for 2 (Some 2%N)) sample_world 2%N bob);
    reflexivity.
Defined.

(** ** Collections *)

(** C10.  GET /api/collections/:id answers 403 for every private
    collection, whoever asks and with whatever credential, the owner's
    included: the route runs no middleware, so the handler finds no
    [req.user]. *)
Theorem private_collection_forbidden r w cid c :
  params_id r = ValidId cid → collections (db w) !! cid = Some c →
  UserCollection.isPrivate c = true →
  GET_collections_id r w =
    (mkResponse 403 (Failure "This collection is private"), w).
Proof.
  intros Hr Hc Hp. unfold GET_collections_id. rewrite route_open.
  unfold get_collection_handler, incoming. cbn [Req.request Req.user].
  rewrite Hr. erewrite bind_next by (apply findById_found; eassumption).
  unfold bind, get_db. cbn beta iota. rewrite Hp. reflexivity.
Qed.

Lemma private_collection_forbidden_witness :
  credential (request_for 20 (Some 1%N)) = Some (UserCollection.user coll20) ∧
  GET_collections_id (request_for 20 (Some 1%N)) sample_world =
    (mkResponse 403 (Failure "This collection is private"), sample_world).
Proof.
  split; [reflexivity|].
  apply (private_collection_forbidden (request_for 20 (Some 1%N)) sample_world
           20%N coll20); reflexivity.
Defined.

(** What GET /api/posts/:id answers for a post that exists: the post,
    whoever asks. *)
Lemma get_post_run r w pid p :
  params_id r = ValidId pid → posts (db w) !! pid = Some p →
  GET_posts_id r w =
    (mkResponse 200 (PostResult (populate_post (db w) false pid p)), w).
Proof.
  intros Hr Hp. unfold GET_posts_id. rewrite route_open.
  unfold get_post_handler, incoming. cbn [Req.request].
  rewrite Hr. erewrite bind_next by (apply findById_found; eassumption).
  reflexivity.
Qed.

Lemma delete_collection_run r w uid u cid c :
  credential r = Some uid → users (db w) !! uid = Some u →
  params_id r = ValidId cid → collections (db w) !! cid = Some c →
  UserCollection.user c = uid →
  DELETE_collections_id r w =
    (mkResponse 200 (Success "Collection deleted successfully"),
     mkWorld (mkDb (users (db w))
                   (unset_userCollection cid <$> posts (db w))
                   (delete cid (collections (db w))))
             (emitted w)).
Proof.
  intros Hc Hu Hr Hcoll Hown. unfold DELETE_collections_id.
  rewrite (route_auth _ _ _ _ _ Hc Hu).
  unfold delete_collection_handler. cbn [Req.request Req.user]. rewrite Hr.
  erewrite bind_next by (apply findById_found; eassumption).
  unfold the_user. erewrite bind_next by reflexivity. cbn [fst snd].
  rewrite bool_decide_eq_true_2 by assumption. reflexivity.
Qed.

(** C6.  When the owner deletes a collection, the request succeeds, the
    collection is gone, and every post that referenced it is still
    stored under its id, with no collection reference and every other
    field as before; GET /api/posts/:id, for any requester, answers 200
    with that post. *)
Theorem delete_collection_detaches_posts r w uid u cid c pid p r' :
  credential r = Some uid → users (db w) !! uid = Some u →
  params_id r = ValidId cid → collections (db w) !! cid = Some c →
  UserCollection.user c = uid →
  posts (db w) !! pid = Some p → Post.userCollection p = Some cid →
  params_id r' = ValidId pid →
  let out := DELETE_collections_id r w in
  let p' := Post.set_userCollection p None in
  out.1 = mkResponse 200 (Success "Collection deleted successfully") ∧
  collections (db out.2) !! cid = None ∧
  posts (db out.2) !! pid = Some p' ∧
  Post.userCollection p' = None ∧
  GET_posts_id r' out.2 =
    (mkResponse 200 (PostResult (populate_post (db out.2) false pid p')), out.2).
Proof.
  intros Hc Hu Hr Hcoll Hown Hp Href Hr' out p'. subst out.
  rewrite (delete_collection_run r w uid u cid c) by assumption.
  cbn [fst snd db collections posts].
  assert (Hp' : (unset_userCollection cid <$> posts (db w)) !! pid = Some p').
  { rewrite lookup_fmap, Hp. simpl. unfold unset_userCollection.
    rewrite bool_decide_eq_true_2 by assumption. reflexivity. }
  split; [reflexivity|]. split; [apply lookup_delete_eq|].
  split; [exact Hp'|]. split; [reflexivity|].
  apply get_post_run; [assumption | exact Hp'].
Qed.

Lemma delete_collection_detaches_posts_witness :
  let out := DELETE_collections_id (request_for 20 (Some 1%N)) sample_world in
  let p' := Post.set_userCollection post11 None in
  out.1 = mkResponse 200 (Success "Collection deleted successfully") ∧
  collections (db out.2) !! 20%N = None ∧
  posts (db out.2) !! 11%N = Some p' ∧
  Post.userCollection p' = None ∧
  GET_posts_id (request_for 11 None) out.2 =
    (mkResponse 200 (PostResult (populate_post (db out.2) false 11 p')), out.2).
Proof.
  apply (delete_collection_detaches_posts (request_for 20 (Some 1%N)) sample_world
           1%N alice 20%N coll20 11%N post11 (request_for 11 None)); reflexivity.
Defined.

Lemma route_auth_unknown h r w uid :
  credential r = Some uid → users (db w) !! uid = None →
  route [auth] h r w = (mkResponse 401 (Failure "Not authorized"), w).
Proof.
  intros Hc Hu. unfold route, chain, auth, incoming, bind, get_db. simpl.
  rewrite Hc. simpl. rewrite Hu. reflexivity.
Qed.

(** Every way a request to add a post to a collection can go. *)
Lemma add_post_cases r w :
  let out := POST_collections_add_post r w in
  ((400 ≤ status out.1)%nat ∧ out.2 = w)
  ∨ ∃ uid cid c pid p,
      credential r = Some uid ∧ params_id r = ValidId cid ∧
      collections (db w) !! cid = Some c ∧
      Body.postId (body r) = Some (ValidId pid) ∧
      posts (db w) !! pid = Some p ∧
      UserCollection.user c = uid ∧ Post.user p = uid ∧
      (pid ∉ UserCollection.items c) ∧
      status out.1 = 200.
Proof.
  intros out. subst out. unfold POST_collections_add_post.
  destruct (credential r) as [uid|] eqn:Hc;
    [| rewrite route_auth_anonymous by assumption; left; split; [simpl; lia | reflexivity]].
  destruct (users (db w) !! uid) as [u|] eqn:Hu;
    [| rewrite (route_auth_unknown _ _ _ uid) by assumption; left; split; [simpl; lia | reflexivity]].
  rewrite (route_auth _ _ _ _ _ Hc Hu).
  unfold add_post_handler, add_post_validators, check.
  cbn [Req.request Req.user].
  destruct (Body.postId (body r)) as [[pid|s]|] eqn:Hb; cbn [isMongoId];
    try (left; split; [simpl; lia | reflexivity]).
  destruct (params_id r) as [cid|s] eqn:Hr;
    [| left; split; [simpl; lia | reflexivity]].
  destruct (collections (db w) !! cid) as [c|] eqn:Hcoll.
  2:{ erewrite bind_next by (apply findById_missing; eassumption).
      destruct (posts (db w) !! pid) as [p|] eqn:Hp.
      - erewrite bind_next by (apply findById_found; eassumption).
        left; split; [simpl; lia | reflexivity].
      - erewrite bind_next by (apply findById_missing; eassumption).
        left; split; [simpl; lia | reflexivity]. }
  erewrite bind_next by (apply findById_found; eassumption).
  destruct (posts (db w) !! pid) as [p|] eqn:Hp.
  2:{ erewrite bind_next by (apply findById_missing; eassumption).
      left; split; [simpl; lia | reflexivity]. }
  erewrite bind_next by (apply findById_found; eassumption).
  unfold the_user. erewrite bind_next by reflexivity. cbn [fst snd].
  destruct (bool_decide (UserCollection.user c = uid)) eqn:Hoc; cbn [negb];
    [| left; split; [simpl; lia | reflexivity]].
  destruct (bool_decide (Post.user p = uid)) eqn:Hop; cbn [negb];
    [| left; split; [simpl; lia | reflexivity]].
  unfold includes.
  destruct (bool_decide (pid ∈ UserCollection.items c)) eqn:Hin;
    [left; split; [simpl; lia | reflexivity] |].
  right. exists uid, cid, c, pid, p.
  apply bool_decide_eq_true in Hoc, Hop. apply bool_decide_eq_false in Hin.
  repeat split; try assumption; try reflexivity.
Qed.

(** C9.  Adding a post to a collection succeeds only for a user who owns
    both the collection and the post; and when the post is already among
    the collection's items the request is answered with an error, never
    with success, and nothing is written (the items list and the post
    stay as they were).  For the owner of both, that error is the 400
    "Post is already in this collection". *)
Theorem add_post_owner_only_no_duplicate r w :
  let out := POST_collections_add_post r w in
  (status out.1 = 200 →
   ∃ uid cid c pid p,
     credential r = Some uid ∧ params_id r = ValidId cid ∧
     collections (db w) !! cid = Some c ∧
     Body.postId (body r) = Some (ValidId pid) ∧
     posts (db w) !! pid = Some p ∧
     UserCollection.user c = uid ∧ Post.user p = uid)
  ∧ (∀ cid c pid,
       params_id r = ValidId cid → collections (db w) !! cid = Some c →
       Body.postId (body r) = Some (ValidId pid) →
       pid ∈ UserCollection.items c →
       (400 ≤ status out.1)%nat ∧ out.2 = w)
  ∧ (∀ uid u cid c pid p,
       credential r = Some uid → users (db w) !! uid = Some u →
       params_id r = ValidId cid → collections (db w) !! cid = Some c →
       Body.postId (body r) = Some (ValidId pid) →
       posts (db w) !! pid = Some p →
       UserCollection.user c = uid → Post.user p = uid →
       pid ∈ UserCollection.items c →
       out = (mkResponse 400 (Failure "Post is already in this collection"), w)).
Proof.
  intros out. pose proof (add_post_cases r w) as Hcases.
  fold out in Hcases. split; [| split].
  - intros Hok.
    destruct Hcases as [[Hge _] | (uid & cid & c & pid & p & H)]; [lia|].
    exists uid, cid, c, pid, p. tauto.
  - intros cid c pid Hr Hcoll Hb Hin.
    destruct Hcases as [Hrej | (uid & cid' & c' & pid' & p' & H)]; [exact Hrej|].
    destruct H as (_ & Hr' & Hcoll' & Hb' & _ & _ & _ & Hout & _).
    rewrite Hr in Hr'. injection Hr' as <-.
    rewrite Hb in Hb'. injection Hb' as <-.
    rewrite Hcoll in Hcoll'. injection Hcoll' as <-. contradiction.
  - intros uid u cid c pid p Hc Hu Hr Hcoll Hb Hp Hoc Hop Hin.
    subst out. unfold POST_collections_add_post.
    rewrite (route_auth _ _ _ _ _ Hc Hu).
    unfold add_post_handler, add_post_validators, check.
    cbn [Req.request Req.user]. rewrite Hb, Hr. cbn [isMongoId].
    erewrite bind_next by (apply findById_found; eassumption).
    erewrite bind_next by (apply findById_found; eassumption).
    unfold the_user. erewrite bind_next by reflexivity. cbn [fst snd].
    rewrite (bool_decide_eq_true_2 _ Hoc), (bool_decide_eq_true_2 _ Hop).
    unfold includes. rewrite (bool_decide_eq_true_2 _ Hin). reflexivity.
Qed.

Lemma add_post_owner_only_no_duplicate_witness :
  11%N ∈ UserCollection.items coll20 ∧
  POST_collections_add_post (add_request 20 11 (Some 1%N)) sample_world =
    (mkResponse 400 (Failure "Post is already in this collection"), sample_world).
Proof.
  assert (Hin : 11%N ∈ UserCollection.items coll20) by (simpl; left).
  split; [exact Hin|].
  destruct (add_post_owner_only_no_duplicate (add_request 20 11 (Some 1%N)) sample_world)
    as (_ & _ & H).
  apply (H 1%N alice 20%N coll20 11%N post11);
    [reflexivity | reflexivity | reflexivity | reflexivity | reflexivity
    | reflexivity | reflexivity | reflexivity | exact Hin].
Defined.

(** ** Comments *)

Lemma nonempty_of_length (s : string) : (0 < String.length s)%nat → s ≠ "".
Proof. intros H ->. simpl in H. lia. Qed.

(** A text longer than 500 is turned down by the request validators. *)
Lemma comment_too_long now r w uid u text :
  credential r = Some uid → users (db w) !! uid = Some u →
  Body.text (body r) = Some text →
  (500 < String.length text)%nat →
  POST_posts_comment now r w =
    (mkResponse 400 (ValidationFailed ["Comment must be less than 500 characters"]), w).
Proof.
  intros Hc Hu Ht Hlen. unfold POST_posts_comment.
  rewrite (route_auth _ _ _ _ _ Hc Hu).
  unfold comment_handler, comment_validators, notEmpty, isLength_max, check.
  cbn [Req.request]. rewrite Ht. cbn [default from_option id].
  rewrite (bool_decide_eq_false_2 (text = "")) by (apply nonempty_of_length; lia).
  rewrite bool_decide_eq_false_2 by lia. reflexivity.
Qed.

(** A non-empty text of at most 500 is appended as one comment, stamped
    with the time of the request. *)
Lemma comment_run_valid now r w uid u pid p text :
  credential r = Some uid → users (db w) !! uid = Some u →
  params_id r = ValidId pid → posts (db w) !! pid = Some p →
  Body.text (body r) = Some text →
  (0 < String.length text ≤ 500)%nat →
  let c := Comment.mk uid text now in
  POST_posts_comment now r w =
    (mkResponse 201
       (CommentResult "Comment added successfully"
          (Some (populate_comment (db w) c))
          (length (Post.comments p ++ [c]))),
     mkWorld
       (set_posts (db w)
          (<[pid := Post.set_comments p (Post.comments p ++ [c])]> (posts (db w))))
       (emitted w ++
        mkEmit (post_ pid)
          (post_comment pid (Some (populate_comment (db w) c))
             (length (Post.comments p ++ [c])))
        :: (if bool_decide (Post.user p = uid) then []
            else [mkEmit (user_ (Post.user p)) (comment_notification u uid pid)]))).
Proof.
  intros Hc Hu Hr Hp Ht Hlen c. unfold POST_posts_comment.
  rewrite (route_auth _ _ _ _ _ Hc Hu).
  unfold comment_handler, comment_validators, notEmpty, isLength_max, check.
  cbn [Req.request Req.user]. rewrite Ht, Hr. cbn [default from_option id].
  rewrite (bool_decide_eq_false_2 (text = "")) by (apply nonempty_of_length; lia).
  rewrite bool_decide_eq_true_2 by lia. cbn [negb app].
  erewrite bind_next by (apply findById_found; eassumption).
  unfold the_user. erewrite bind_next by reflexivity. cbn [fst snd].
  fold c. unfold validate_comment, validate_required, validate_maxlength, check.
  cbn [Comment.text c]. unfold c at 1 2. cbn [Comment.text].
  rewrite (bool_decide_eq_false_2 (text = "")) by (apply nonempty_of_length; lia).
  rewrite bool_decide_eq_true_2 by lia. cbn [negb app].
  unfold Post_save, bind, get_db, put_db, emit, ret, respond, settle.
  cbn [db emitted Post.comments Post.set_comments Post.user].
  rewrite !fmap_snoc, !last_snoc.
  subst c.
  destruct (bool_decide (Post.user p = uid)); cbn;
    rewrite <- ?app_assoc; reflexivity.
Qed.

(** C7.  On an existing post, a comment whose text is 501 long is
    answered 400 by validation and nothing changes; a comment whose text
    is exactly 500 long is answered 201, the post's comment list grows by
    exactly that one comment, stamped with the time of the request, and
    the response carries the new comment (its author populated) and the
    new total. *)
Theorem comment_length_boundary now r w uid u pid p text :
  credential r = Some uid → users (db w) !! uid = Some u →
  params_id r = ValidId pid → posts (db w) !! pid = Some p →
  Body.text (body r) = Some text →
  let out := POST_posts_comment now r w in
  let c := Comment.mk uid text now in
  (String.length text = 501%nat →
     out = (mkResponse 400
              (ValidationFailed ["Comment must be less than 500 characters"]), w))
  ∧ (String.length text = 500%nat →
       out.1 = mkResponse 201
                 (CommentResult "Comment added successfully"
                    (Some (populate_comment (db w) c))
                    (S (length (Post.comments p)))) ∧
       posts (db out.2) !! pid
         = Some (Post.set_comments p (Post.comments p ++ [c])) ∧
       Comment.createdAt c = now).
Proof.
  intros Hc Hu Hr Hp Ht out c. subst out. split; intros Hlen.
  - apply (comment_too_long now r w uid u text); [assumption.. | lia].
  - rewrite (comment_run_valid now r w uid u pid p text) by (assumption || lia).
    cbn [fst snd db]. fold c. split; [| split].
    + rewrite length_app. simpl. rewrite Nat.add_1_r. reflexivity.
    + apply lookup_insert_eq.
    + reflexivity.
Qed.

Lemma comment_length_boundary_witness :
  (String.length (filler 501) = 501%nat ∧
   POST_posts_comment 100 (comment_request 12 (filler 501) (Some 2%N)) sample_world =
     (mkResponse 400
        (ValidationFailed ["Comment must be less than 500 characters"]), sample_world))
  ∧ (String.length (filler 500) = 500%nat ∧
     let out := POST_posts_comment 100 (comment_request 12 (filler 500) (Some 2%N))
                  sample_world in
     let c := Comment.mk 2 (filler 500) 100 in
     out.1 = mkResponse 201
               (CommentResult "Comment added successfully"
                  (Some (populate_comment sample_db c))
                  (S (length (Post.comments post12)))) ∧
     posts (db out.2) !! 12%N
       = Some (Post.set_comments post12 (Post.comments post12 ++ [c])) ∧
     Comment.createdAt c = 100%N).
Proof.
  assert (H501 : String.length (filler 501) = 501%nat) by reflexivity.
  assert (H500 : String.length (filler 500) = 500%nat) by reflexivity.
  split; (split; [assumption|]).
  - apply (proj1 (comment_length_boundary 100
             (comment_request 12 (filler 501) (Some 2%N)) sample_world
             2%N bob 12%N post12 (filler 501)
             eq_refl eq_refl eq_refl eq_refl eq_refl)).
    exact H501.
  - apply (proj2 (comment_length_boundary 100
             (comment_request 12 (filler 500) (Some 2%N)) sample_world
             2%N bob 12%N post12 (filler 500)
             eq_refl eq_refl eq_refl eq_refl eq_refl)).
    exact H500.
Defined.

(** ** Reading a single post *)

(** What GET /post/:id renders for a post whose owner still exists. *)
Lemma post_page_run r w pid p owner :
  params_id r = ValidId pid → posts (db w) !! pid = Some p →
  users (db w) !! Post.user p = Some owner →
  ∃ title viewer isLiked isOwner,
    GET_post_page r w =
      (mkResponse 200
         (RenderPostDetail title viewer (populate_post (db w) true pid p)
            isLiked isOwner (length (Post.likes p)) (length (Post.comments p))),
       w).
Proof.
  intros Hr Hp Ho. unfold GET_post_page, page, chain, optionalAuth, incoming.
  unfold bind at 2. unfold bind at 2. unfold get_db at 1. cbn beta iota.
  unfold ret at 1 2. cbn beta iota. unfold bind at 1.
  unfold post_page_handler. cbn [Req.request Req.user]. rewrite Hr.
  erewrite bind_next by (apply findById_found; eassumption).
  unfold bind, get_db. cbn beta iota.
  unfold populate_post at 1. cbn [pp_user]. unfold populate_user at 1.
  rewrite Ho. cbn [fmap option_fmap option_map].
  eexists _, _, _, _. reflexivity.
Qed.

(** C1.  Both single-post routes hand out a private post to viewers who
    are not its owner.  Post 10 is private and owned by alice (1);
    GET /api/posts/10 answers 200 with the post to an anonymous viewer
    and to bob (2), and the page /post/10 is rendered with the post for
    an anonymous viewer as well as for bob, instead of a not-found or
    forbidden answer.  The owner gets the post too. *)
Theorem private_post_served_to_anyone :
  Post.visibility post10 = "private" ∧ Post.user post10 = 1%N ∧
  GET_posts_id (request_for 10 None) sample_world =
    (mkResponse 200 (PostResult (populate_post sample_db false 10 post10)),
     sample_world) ∧
  GET_posts_id (request_for 10 (Some 2%N)) sample_world =
    (mkResponse 200 (PostResult (populate_post sample_db false 10 post10)),
     sample_world) ∧
  GET_post_page (request_for 10 None) sample_world =
    (mkResponse 200
       (RenderPostDetail "alice's Post - FlexBase" None
          (populate_post sample_db true 10 post10) false false 0 0),
     sample_world) ∧
  GET_post_page (request_for 10 (Some 2%N)) sample_world =
    (mkResponse 200
       (RenderPostDetail "alice's Post - FlexBase" (Some 2%N)
          (populate_post sample_db true 10 post10) false false 0 0),
     sample_world) ∧
  GET_posts_id (request_for 10 (Some 1%N)) sample_world =
    (mkResponse 200 (PostResult (populate_post sample_db false 10 post10)),
     sample_world).
Proof. repeat split; vm_compute; reflexivity. Qed.

(** ** Creating a post *)

(** A tag without a type is stored with the type "general". *)
Lemma processedTags_default l tag :
  tag ∈ l → (Tag.type tag = None ∨ Tag.type tag = Some "") →
  Tag.mk (Tag.name tag) (Some "general") ∈ processedTags (Some (TagArray l)).
Proof.
  intros Hin Ht. unfold processedTags. apply list_elem_of_fmap.
  exists tag. split; [| exact Hin].
  destruct Ht as [-> | ->]; reflexivity.
Qed.

(** The schema turns down every document that holds such a tag. *)
Lemma validate_post_general p name :
  Tag.mk name (Some "general") ∈ Post.tags p → validate_post p ≠ [].
Proof.
  intros Hin Hnil.
  assert (Hmsg : general_rejected ∈ validate_post p).
  { unfold validate_post. do 4 (apply elem_of_app; right).
    apply elem_of_app; left. apply list_elem_of_join.
    exists (validate_tag (Tag.mk name (Some "general"))). split.
    - vm_compute. left.
    - apply list_elem_of_fmap. eauto. }
  rewrite Hnil in Hmsg. inversion Hmsg.
Qed.

(** So a request to create a post with a tag that has no type is always
    answered with an error, and stores nothing. *)
Lemma create_untyped_tag_fails newId r w l tag :
  Body.tags (body r) = Some (TagArray l) →
  tag ∈ l → (Tag.type tag = None ∨ Tag.type tag = Some "") →
  ∃ res, POST_posts newId r w = (res, w) ∧ (400 ≤ status res)%nat.
Proof.
  intros Htags Hin Ht. unfold POST_posts.
  destruct (credential r) as [uid|] eqn:Hc;
    [| rewrite route_auth_anonymous by assumption; eexists; split; [reflexivity | simpl; lia]].
  destruct (users (db w) !! uid) as [u|] eqn:Hu;
    [| rewrite (route_auth_unknown _ _ _ uid) by assumption; eexists; split; [reflexivity | simpl; lia]].
  rewrite (route_auth _ _ _ _ _ Hc Hu).
  unfold create_handler. cbn [Req.request Req.user].
  destruct (create_validators (body r)); [| eexists; split; [reflexivity | simpl; lia]].
  destruct (file r) as [f|]; [| eexists; split; [reflexivity | simpl; lia]].
  unfold the_user. erewrite bind_next by reflexivity. cbn [fst snd].
  rewrite Htags.
  pose proof (processedTags_default l tag Hin Ht) as Hproc.
  assert (Hsave : ∀ coll k,
    settle errorHandler
      (bind (Post_save newId
               (Post.mk uid (default "" (Body.caption (body r)))
                  ("/uploads/posts/" ++ filename f)%string
                  (if String.prefix "video/" (mimetype f) then "video" else "image")
                  (processedTags (Some (TagArray l))) [] [] coll
                  (or_default (Body.visibility (body r)) "public"))
               (validate_post
                  (Post.mk uid (default "" (Body.caption (body r)))
                     ("/uploads/posts/" ++ filename f)%string
                     (if String.prefix "video/" (mimetype f) then "video" else "image")
                     (processedTags (Some (TagArray l))) [] [] coll
                     (or_default (Body.visibility (body r)) "public"))))
            k w)
    = (mkResponse 400 (Failure (String.concat ", "
         (validate_post
            (Post.mk uid (default "" (Body.caption (body r)))
               ("/uploads/posts/" ++ filename f)%string
               (if String.prefix "video/" (mimetype f) then "video" else "image")
               (processedTags (Some (TagArray l))) [] [] coll
               (or_default (Body.visibility (body r)) "public"))))), w)).
  { intros coll k.
    match goal with |- context [validate_post ?p] =>
      pose proof (validate_post_general p (Tag.name tag) Hproc) as Hne;
      destruct (validate_post p); [contradiction | reflexivity]
    end. }
  destruct (Body.userCollection (body r)) as [[cid|s]|].
  - unfold bind at 1.
    destruct (collections (db w) !! cid) as [c|] eqn:Hcoll.
    + erewrite bind_next by (apply findById_found; eassumption).
      cbn beta iota. case_bool_decide.
      * unfold ret at 1. cbn beta iota. rewrite Hsave. eexists; split; [reflexivity | simpl; lia].
      * eexists; split; [reflexivity | simpl; lia].
    + erewrite bind_next by (apply findById_missing; eassumption).
      eexists; split; [reflexivity | simpl; lia].
  - eexists; split; [reflexivity | simpl; lia].
  - unfold bind at 1, ret at 1. cbn beta iota. rewrite Hsave. eexists; split; [reflexivity | simpl; lia].
Qed.

(** C4.  A request by alice to create a post with the tag
    [{ name: "Nike" }], which has no type, does not create the post: the
    handler fills in the type "general", the schema's enum for the tag
    type does not contain it, the save throws a validation error, and
    the request is answered 400 with nothing stored. *)
Theorem create_post_untyped_tag_rejected :
  processedTags (Some (TagArray [Tag.mk (Some "Nike") None]))
    = [Tag.mk (Some "Nike") (Some "general")] ∧
  ("general" ∉ tag_type_enum) ∧
  POST_posts 13 (create_request "first post" [Tag.mk (Some "Nike") None] (Some 1%N))
             sample_world =
    (mkResponse 400 (Failure general_rejected), sample_world).
Proof.
  split; [reflexivity|]. split.
  - apply (bool_decide_eq_false_1 ("general" ∈ tag_type_enum)). vm_compute. reflexivity.
  - vm_compute. reflexivity.
Qed.

(** * Further properties of the routes *)

(** ** Deleting a post *)

Lemma delete_post_run r w uid u pid p :
  credential r = Some uid → users (db w) !! uid = Some u →
  params_id r = ValidId pid → posts (db w) !! pid = Some p →
  Post.user p = uid →
  DELETE_posts_id r w =
    (mkResponse 200 (Success "Post deleted successfully"),
     mkWorld
       (mkDb (users (db w)) (delete pid (posts (db w)))
             (match Post.userCollection p with
              | Some cid =>
                  alter (λ c, UserCollection.set_items c
                                (without pid (UserCollection.items c)))
                        cid (collections (db w))
              | None => collections (db w)
              end))
       (emitted w)).
Proof.
  intros Hc Hu Hr Hp Hown. unfold DELETE_posts_id.
  rewrite (route_auth _ _ _ _ _ Hc Hu).
  unfold delete_post_handler. cbn [Req.request Req.user]. rewrite Hr.
  erewrite bind_next by (apply findById_found; eassumption).
  unfold the_user. erewrite bind_next by reflexivity. cbn [fst snd].
  rewrite bool_decide_eq_true_2 by assumption. cbn [negb].
  destruct (Post.userCollection p); destruct w as [[us ps cs] ev]; reflexivity.
Qed.

(** X1.  When its owner deletes a post, the request succeeds, the post
    is gone (a later GET of it answers 404), the collection it
    referenced, if it is still there, keeps its other items in order
    and no longer lists the post, and every other post and collection
    is as before. *)
Theorem delete_post_detaches r w uid u pid p r' :
  credential r = Some uid → users (db w) !! uid = Some u →
  params_id r = ValidId pid → posts (db w) !! pid = Some p →
  Post.user p = uid → params_id r' = ValidId pid →
  let out := DELETE_posts_id r w in
  out.1 = mkResponse 200 (Success "Post deleted successfully") ∧
  posts (db out.2) !! pid = None ∧
  GET_posts_id r' out.2 = (mkResponse 404 (Failure "Post not found"), out.2) ∧
  (∀ q, q ≠ pid → posts (db out.2) !! q = posts (db w) !! q) ∧
  (∀ cid c, Post.userCollection p = Some cid →
     collections (db w) !! cid = Some c →
     collections (db out.2) !! cid
       = Some (UserCollection.set_items c (without pid (UserCollection.items c)))
     ∧ pid ∉ without pid (UserCollection.items c)) ∧
  (∀ cid, Post.userCollection p ≠ Some cid →
     collections (db out.2) !! cid = collections (db w) !! cid).
Proof.
  intros Hc Hu Hr Hp Hown Hr' out. subst out.
  rewrite (delete_post_run r w uid u pid p) by assumption.
  cbn [fst snd db posts collections].
  split; [reflexivity|]. split; [apply lookup_delete_eq|].
  split.
  { unfold GET_posts_id. rewrite route_open.
    unfold get_post_handler, incoming. cbn [Req.request]. rewrite Hr'.
    erewrite bind_next by (apply findById_missing; apply lookup_delete_eq).
    reflexivity. }
  split; [intros q Hq; apply lookup_delete_ne; congruence|].
  split.
  - intros cid c Href Hcoll. rewrite Href. rewrite lookup_alter_eq, Hcoll.
    split; [reflexivity | apply not_in_without].
  - intros cid Href. destruct (Post.userCollection p) as [cid'|]; [|reflexivity].
    apply lookup_alter_ne. congruence.
Qed.

Lemma delete_post_detaches_witness :
  let out := DELETE_posts_id (request_for 11 (Some 1%N)) sample_world in
  out.1 = mkResponse 200 (Success "Post deleted successfully") ∧
  posts (db out.2) !! 11%N = None ∧
  GET_posts_id (request_for 11 None) out.2
    = (mkResponse 404 (Failure "Post not found"), out.2) ∧
  (∀ q, q ≠ 11%N → posts (db out.2) !! q = posts (db sample_world) !! q) ∧
  (∀ cid c, Post.userCollection post11 = Some cid →
     collections (db sample_world) !! cid = Some c →
     collections (db out.2) !! cid
       = Some (UserCollection.set_items c (without 11 (UserCollection.items c)))
     ∧ 11%N ∉ without 11 (UserCollection.items c)) ∧
  (∀ cid, Post.userCollection post11 ≠ Some cid →
     collections (db out.2) !! cid = collections (db sample_world) !! cid).
Proof.
  apply (delete_post_detaches (request_for 11 (Some 1%N)) sample_world
           1%N alice 11%N post11 (request_for 11 None)); reflexivity.
Defined.

(** X2.  A user who does not own a post cannot delete it: the answer is
    403 and nothing changes. *)
Theorem delete_post_forbidden r w uid u pid p :
  credential r = Some uid → users (db w) !! uid = Some u →
  params_id r = ValidId pid → posts (db w) !! pid = Some p →
  Post.user p ≠ uid →
  DELETE_posts_id r w =
    (mkResponse 403 (Failure "Not authorized to delete this post"), w).
Proof.
  intros Hc Hu Hr Hp Hown. unfold DELETE_posts_id.
  rewrite (route_auth _ _ _ _ _ Hc Hu).
  unfold delete_post_handler. cbn [Req.request Req.user]. rewrite Hr.
  erewrite bind_next by (apply findById_found; eassumption).
  unfold the_user. erewrite bind_next by reflexivity. cbn [fst snd].
  rewrite bool_decide_eq_false_2 by assumption. reflexivity.
Qed.

Lemma delete_post_forbidden_witness :
  Post.user post11 ≠ 2%N ∧
  DELETE_posts_id (request_for 11 (Some 2%N)) sample_world =
    (mkResponse 403 (Failure "Not authorized to delete this post"), sample_world).
Proof.
  assert (Hne : Post.user post11 ≠ 2%N) by (simpl; lia).
  split; [exact Hne|].
  apply (delete_post_forbidden (request_for 11 (Some 2%N)) sample_world
           2%N bob 11%N post11); [reflexivity.. | exact Hne].
Defined.

(** ** More on likes and comments *)

(** X3.  A like toggle on an existing post touches the acting user's
    entry and nothing else: the answer is 200 with the flag opposite to
    the user's previous state, the like count moves by exactly one, the
    entries of the other users are kept, only the [likes] of the post
    change, and every other post, every user and every collection is as
    before. *)
Theorem like_touches_one_entry now r w uid u pid p :
  credential r = Some uid → users (db w) !! uid = Some u →
  params_id r = ValidId pid → posts (db w) !! pid = Some p →
  let out := POST_posts_like now r w in
  ∃ likes',
    posts (db out.2) !! pid = Some (Post.set_likes p likes') ∧
    out.1 = mkResponse 200
              (LikeResult (negb (bool_decide (uid ∈ likers p))) (length likes')) ∧
    (if bool_decide (uid ∈ likers p)
     then S (length likes') = length (Post.likes p)
     else length likes' = S (length (Post.likes p))) ∧
    (∀ x, Like.user x ≠ uid → x ∈ likes' ↔ x ∈ Post.likes p) ∧
    (∀ q, q ≠ pid → posts (db out.2) !! q = posts (db w) !! q) ∧
    users (db out.2) = users (db w) ∧
    collections (db out.2) = collections (db w).
Proof.
  intros Hc Hu Hr Hp out. subst out.
  destruct (decide (uid ∈ likers p)) as [Hin | Hout].
  - destruct (likers_split _ _ Hin) as (l1 & x & l2 & Hl & Hl1 & Hx).
    rewrite (like_run_unlike now r w uid u pid p l1 x l2) by assumption.
    rewrite (bool_decide_eq_true_2 _ Hin).
    exists (l1 ++ l2). cbn [fst snd liked_world db posts users collections set_posts].
    split; [apply lookup_insert_eq|]. split; [reflexivity|].
    split; [rewrite Hl, !length_app; simpl; lia|].
    split.
    { intros y Hy. rewrite Hl, !elem_of_app, elem_of_cons.
      split; [tauto|]. intros [H | [-> | H]]; [tauto | contradiction | tauto]. }
    split; [intros q Hq; apply lookup_insert_ne; congruence|].
    split; reflexivity.
  - rewrite (like_run_like now r w uid u pid p) by assumption.
    rewrite (bool_decide_eq_false_2 _ Hout).
    exists (Post.likes p ++ [Like.mk uid now]).
    cbn [fst snd liked_world db posts users collections set_posts].
    split; [apply lookup_insert_eq|]. split; [reflexivity|].
    split; [rewrite length_app; simpl; lia|].
    split.
    { intros y Hy. rewrite elem_of_app, list_elem_of_singleton.
      split; [| tauto]. intros [H | ->]; [exact H | contradiction]. }
    split; [intros q Hq; apply lookup_insert_ne; congruence|].
    split; reflexivity.
Qed.

Lemma like_touches_one_entry_witness :
  let out := POST_posts_like 100 (request_for 11 (Some 3%N)) sample_world in
  ∃ likes',
    posts (db out.2) !! 11%N = Some (Post.set_likes post11 likes') ∧
    out.1 = mkResponse 200
              (LikeResult (negb (bool_decide (3%N ∈ likers post11))) (length likes')) ∧
    (if bool_decide (3%N ∈ likers post11)
     then S (length likes') = length (Post.likes post11)
     else length likes' = S (length (Post.likes post11))) ∧
    (∀ x, Like.user x ≠ 3%N → x ∈ likes' ↔ x ∈ Post.likes post11) ∧
    (∀ q, q ≠ 11%N → posts (db out.2) !! q = posts (db sample_world) !! q) ∧
    users (db out.2) = users (db sample_world) ∧
    collections (db out.2) = collections (db sample_world).
Proof.
  apply (like_touches_one_entry 100 (request_for 11 (Some 3%N)) sample_world
           3%N carol 11%N post11); reflexivity.
Defined.

(** X4.  A like toggle aimed at an id under which no post is stored is
    answered 404 "Post not found", and one aimed at a malformed id is
    answered 404 "Resource not found" by the error handler; neither
    changes anything. *)
Theorem like_unknown_post now r w uid u :
  credential r = Some uid → users (db w) !! uid = Some u →
  (∀ pid, params_id r = ValidId pid → posts (db w) !! pid = None →
     POST_posts_like now r w = (mkResponse 404 (Failure "Post not found"), w))
  ∧ (∀ s, params_id r = InvalidId s →
       POST_posts_like now r w = (mkResponse 404 (Failure "Resource not found"), w)).
Proof.
  intros Hc Hu. unfold POST_posts_like.
  rewrite (route_auth _ _ _ _ _ Hc Hu).
  unfold like_handler. cbn [Req.request Req.user]. split.
  - intros pid Hr Hp. rewrite Hr.
    erewrite bind_next by (apply findById_missing; eassumption). reflexivity.
  - intros s Hr. rewrite Hr. reflexivity.
Qed.

Lemma like_unknown_post_witness :
  POST_posts_like 100 (request_for 99 (Some 2%N)) sample_world
    = (mkResponse 404 (Failure "Post not found"), sample_world)
  ∧ POST_posts_like 100 (mkRequest (InvalidId "abc") Body.empty None (Some 2%N))
      sample_world
    = (mkResponse 404 (Failure "Resource not found"), sample_world).
Proof.
  split.
  - apply (proj1 (like_unknown_post 100 (request_for 99 (Some 2%N)) sample_world
                    2%N bob eq_refl eq_refl) 99%N); reflexivity.
  - apply (proj2 (like_unknown_post 100
                    (mkRequest (InvalidId "abc") Body.empty None (Some 2%N))
                    sample_world 2%N bob eq_refl eq_refl) "abc"); reflexivity.
Defined.

(** Every way a comment request can go: it changes nothing, or it
    appends one comment by the acting user to the post it names. *)
Lemma comment_cases now r w :
  let out := POST_posts_comment now r w in
  ((400 ≤ status out.1)%nat ∧ out.2 = w)
  ∨ ∃ uid pid p text events,
      credential r = Some uid ∧ params_id r = ValidId pid ∧
      posts (db w) !! pid = Some p ∧
      Body.text (body r) = Some text ∧
      status out.1 = 201 ∧
      out.2 = mkWorld
                (set_posts (db w)
                   (<[pid := Post.set_comments p
                               (Post.comments p ++ [Comment.mk uid text now])]>
                      (posts (db w))))
                (emitted w ++ events).
Proof.
  intros out. subst out. unfold POST_posts_comment.
  destruct (credential r) as [uid|] eqn:Hc;
    [| rewrite route_auth_anonymous by assumption; left; split; [simpl; lia | reflexivity]].
  destruct (users (db w) !! uid) as [u|] eqn:Hu;
    [| rewrite (route_auth_unknown _ _ _ uid) by assumption; left; split; [simpl; lia | reflexivity]].
  rewrite (route_auth _ _ _ _ _ Hc Hu).
  unfold comment_handler. cbn [Req.request Req.user].
  destruct (comment_validators (body r)) eqn:Hv;
    [| left; split; [simpl; lia | reflexivity]].
  destruct (params_id r) as [pid|s] eqn:Hr;
    [| left; split; [simpl; lia | reflexivity]].
  destruct (posts (db w) !! pid) as [p|] eqn:Hp.
  2:{ erewrite bind_next by (apply findById_missing; eassumption).
      left; split; [simpl; lia | reflexivity]. }
  erewrite bind_next by (apply findById_found; eassumption).
  unfold the_user. erewrite bind_next by reflexivity. cbn [fst snd].
  destruct (Body.text (body r)) as [text|] eqn:Ht.
  2:{ unfold comment_validators, notEmpty, check in Hv. rewrite Ht in Hv.
      simpl in Hv. discriminate Hv. }
  cbn [default from_option id].
  destruct (validate_comment (Comment.mk uid text now)) eqn:Hval.
  - right. exists uid, pid, p, text.
    unfold Post_save, bind, get_db, put_db, emit, ret, respond, settle.
    cbn [db emitted Post.user Post.comments Post.set_comments].
    destruct (bool_decide (Post.user p = uid)); cbn [negb].
    + eexists. repeat split; try assumption; reflexivity.
    + eexists. repeat split; try assumption; try reflexivity.
      cbn [snd]. f_equal. symmetry. apply app_assoc.
  - left. split; [simpl; lia | reflexivity].
Qed.

(** X5.  Comments are append-only.  Whatever the request to the comment
    route, every stored post is still stored afterwards with the
    comments it had as the first comments it has: either unchanged, or
    with exactly one comment added at the end, written by the
    authenticated user and stamped with the time of the request, and no
    other field changed. *)
Theorem comments_append_only now r w pid p :
  posts (db w) !! pid = Some p →
  let out := POST_posts_comment now r w in
  ∃ p',
    posts (db out.2) !! pid = Some p' ∧
    (p' = p
     ∨ ∃ uid text,
         credential r = Some uid ∧
         p' = Post.set_comments p (Post.comments p ++ [Comment.mk uid text now])).
Proof.
  intros Hp out. pose proof (comment_cases now r w) as Hcases. fold out in Hcases.
  destruct Hcases as [[_ Hw] | (uid & pid' & p0 & text & events & Hc & Hr & Hp0 & Ht & _ & Hw)].
  - exists p. rewrite Hw. split; [exact Hp | left; reflexivity].
  - rewrite Hw. cbn [db posts set_posts].
    destruct (decide (pid' = pid)) as [-> | Hne].
    + rewrite Hp in Hp0. injection Hp0 as <-.
      eexists. split; [apply lookup_insert_eq|].
      right. exists uid, text. split; [exact Hc | reflexivity].
    + exists p. split; [rewrite lookup_insert_ne by exact Hne; exact Hp | left; reflexivity].
Qed.

Lemma comments_append_only_witness :
  let out := POST_posts_comment 100 (comment_request 12 "nice" (Some 2%N)) sample_world in
  ∃ p',
    posts (db out.2) !! 12%N = Some p' ∧
    (p' = post12
     ∨ ∃ uid text,
         credential (comment_request 12 "nice" (Some 2%N)) = Some uid ∧
         p' = Post.set_comments post12
                (Post.comments post12 ++ [Comment.mk uid text 100])).
Proof.
  apply (comments_append_only 100 (comment_request 12 "nice" (Some 2%N))
           sample_world 12%N post12). reflexivity.
Defined.

(** X6.  A comment without text, or with the empty text, is turned down
    by validation with "Comment text is required" and changes nothing. *)
Theorem comment_requires_text now r w uid u :
  credential r = Some uid → users (db w) !! uid = Some u →
  (Body.text (body r) = None ∨ Body.text (body r) = Some "") →
  POST_posts_comment now r w =
    (mkResponse 400 (ValidationFailed ["Comment text is required"]), w).
Proof.
  intros Hc Hu Ht. unfold POST_posts_comment.
  rewrite (route_auth _ _ _ _ _ Hc Hu).
  unfold comment_handler, comment_validators, notEmpty, isLength_max, check.
  cbn [Req.request]. destruct Ht as [-> | ->]; reflexivity.
Qed.

Lemma comment_requires_text_witness :
  POST_posts_comment 100 (comment_request 12 "" (Some 2%N)) sample_world =
    (mkResponse 400 (ValidationFailed ["Comment text is required"]), sample_world).
Proof.
  apply (comment_requires_text 100 (comment_request 12 "" (Some 2%N)) sample_world
           2%N bob); [reflexivity | reflexivity | right; reflexivity].
Defined.

(** ** More on the follow toggle *)

Lemma without_all (x : N) (l : list N) : x ∉ l → without x l = l.
Proof.
  unfold without. induction l as [|y l IH]; intros Hx; [reflexivity|].
  apply not_elem_of_cons in Hx as [Hne Hx].
  rewrite filter_cons_True by congruence. rewrite IH by exact Hx. reflexivity.
Qed.

Lemma without_pushed (x : N) (l : list N) : x ∉ l → without x (l ++ [x]) = l.
Proof.
  intros Hx. unfold without. rewrite filter_app.
  rewrite filter_cons_False by (intros H; apply H; reflexivity).
  rewrite filter_nil, app_nil_r. apply without_all, Hx.
Qed.

Lemma emitted_by_same w d : emitted_by w (mkWorld d (emitted w)) = [].
Proof. unfold emitted_by. simpl. apply drop_all. Qed.

Lemma emitted_by_app w d events :
  emitted_by w (mkWorld d (emitted w ++ events)) = events.
Proof. unfold emitted_by. simpl. apply drop_app_length. Qed.

(** X7.  A follow toggle by A on another user B notifies B exactly on
    the follow transition: when B was not in A's following set the one
    event emitted is the "follow" notification to B's personal channel,
    and on an unfollow nothing is emitted.  The records of all other
    users, and all posts and collections, are as before. *)
Theorem follow_notifies_on_follow_only r w a ua b ub :
  credential r = Some a → users (db w) !! a = Some ua →
  params_id r = ValidId b → users (db w) !! b = Some ub →
  a ≠ b →
  let out := POST_users_follow r w in
  emitted_by w out.2 =
    (if bool_decide (b ∈ User.following ua) then []
     else [mkEmit (user_ b)
             (notification "follow" (User.username ua) a None
                (User.username ua ++ " started following you")%string)]) ∧
  (∀ c, c ≠ a → c ≠ b → users (db out.2) !! c = users (db w) !! c) ∧
  posts (db out.2) = posts (db w) ∧
  collections (db out.2) = collections (db w).
Proof.
  intros Hc Ha Hr Hb Hne out. subst out.
  rewrite (follow_run r w a ua b ub) by assumption.
  destruct (bool_decide (b ∈ User.following ua)); cbn [fst snd].
  - split; [apply emitted_by_same|]. split; [| split; reflexivity].
    intros c Hca Hcb. unfold follow_db. simpl.
    rewrite !lookup_insert_ne by congruence. reflexivity.
  - split; [apply emitted_by_app|]. split; [| split; reflexivity].
    intros c Hca Hcb. unfold follow_db. simpl.
    rewrite !lookup_insert_ne by congruence. reflexivity.
Qed.

Lemma follow_notifies_on_follow_only_witness :
  3%N ≠ 1%N ∧
  let out := POST_users_follow (request_for 1 (Some 3%N)) sample_world in
  emitted_by sample_world out.2 =
    (if bool_decide (1%N ∈ User.following carol) then []
     else [mkEmit (user_ 1)
             (notification "follow" (User.username carol) 3 None
                (User.username carol ++ " started following you")%string)]) ∧
  (∀ c, c ≠ 3%N → c ≠ 1%N →
     users (db out.2) !! c = users (db sample_world) !! c) ∧
  posts (db out.2) = posts (db sample_world) ∧
  collections (db out.2) = collections (db sample_world).
Proof.
  assert (Hne : 3%N ≠ 1%N) by lia.
  split; [exact Hne|].
  apply (follow_notifies_on_follow_only (request_for 1 (Some 3%N)) sample_world
           3%N carol 1%N alice); [reflexivity.. | exact Hne].
Defined.

(** X8.  Two follow toggles in succession by A on B answer with opposite
    states, the second being A's state before the first, and leave B in
    A's following set exactly if it was there.  When the first toggle is
    a follow and A was not among B's followers, the second toggle puts
    the whole user table back as it was. *)
Theorem follow_twice_restores r w a ua b ub :
  credential r = Some a → users (db w) !! a = Some ua →
  params_id r = ValidId b → users (db w) !! b = Some ub →
  a ≠ b →
  let first := POST_users_follow r w in
  let second := POST_users_follow r first.2 in
  (∃ m1 n1 m2 n2 ua2,
     first.1 = mkResponse 200
                 (FollowResult m1 (negb (bool_decide (b ∈ User.following ua))) n1) ∧
     second.1 = mkResponse 200
                  (FollowResult m2 (bool_decide (b ∈ User.following ua)) n2) ∧
     users (db second.2) !! a = Some ua2 ∧
     (b ∈ User.following ua2 ↔ b ∈ User.following ua))
  ∧ (b ∉ User.following ua → a ∉ User.followers ub →
       users (db second.2) = users (db w)).
Proof.
  intros Hc Ha Hr Hb Hne first second. subst first second.
  rewrite (follow_run r w a ua b ub) by assumption.
  destruct (bool_decide (b ∈ User.following ua)) eqn:Hf; cbn [fst snd negb].
  - apply bool_decide_eq_true in Hf.
    erewrite (follow_run r _ a _ b _);
      [| assumption | apply follow_db_lookup_actor, Hne | assumption
       | apply follow_db_lookup_target | assumption].
    cbn [User.following User.set_following].
    rewrite bool_decide_eq_false_2 by apply not_in_without.
    cbn [fst snd db]. split.
    + eexists _, _, _, _, _. split; [reflexivity|]. split; [reflexivity|].
      split; [apply follow_db_lookup_actor, Hne|].
      cbn [User.following User.set_following].
      split; [intros _; exact Hf | intros _; apply in_pushed].
    + intros Hout. contradiction.
  - apply bool_decide_eq_false in Hf.
    erewrite (follow_run r _ a _ b _);
      [| assumption | apply follow_db_lookup_actor, Hne | assumption
       | apply follow_db_lookup_target | assumption].
    cbn [User.following User.set_following].
    rewrite bool_decide_eq_true_2 by apply in_pushed.
    cbn [fst snd db]. split.
    + eexists _, _, _, _, _. split; [reflexivity|]. split; [reflexivity|].
      split; [apply follow_db_lookup_actor, Hne|].
      cbn [User.following User.set_following].
      split; [intros H; exfalso; revert H; apply not_in_without|].
      intros H. contradiction.
    + intros _ Hfol. apply map_eq. intros c.
      unfold follow_db. cbn [users set_users].
      cbn [User.following User.followers User.set_following User.set_followers].
      rewrite (without_pushed b) by exact Hf.
      rewrite (without_pushed a) by exact Hfol.
      destruct ua as [n1 av1 bio1 fs1 fg1], ub as [n2 av2 bio2 fs2 fg2].
      cbn [User.username User.avatar User.bio User.followers User.following] in *.
      destruct (decide (c = b)) as [-> | Hcb].
      { rewrite lookup_insert_eq. symmetry. exact Hb. }
      rewrite lookup_insert_ne by congruence.
      destruct (decide (c = a)) as [-> | Hca].
      { rewrite lookup_insert_eq. symmetry. exact Ha. }
      rewrite !lookup_insert_ne by congruence. reflexivity.
Qed.

Lemma follow_twice_restores_witness :
  3%N ≠ 1%N ∧
  let first := POST_users_follow (request_for 1 (Some 3%N)) sample_world in
  let second := POST_users_follow (request_for 1 (Some 3%N)) first.2 in
  (∃ m1 n1 m2 n2 ua2,
     first.1 = mkResponse 200
                 (FollowResult m1 (negb (bool_decide (1%N ∈ User.following carol))) n1) ∧
     second.1 = mkResponse 200
                  (FollowResult m2 (bool_decide (1%N ∈ User.following carol)) n2) ∧
     users (db second.2) !! 3%N = Some ua2 ∧
     (1%N ∈ User.following ua2 ↔ 1%N ∈ User.following carol))
  ∧ (1%N ∉ User.following carol → 3%N ∉ User.followers alice →
       users (db second.2) = users (db sample_world)).
Proof.
  assert (Hne : 3%N ≠ 1%N) by lia.
  split; [exact Hne|].
  apply (follow_twice_restores (request_for 1 (Some 3%N)) sample_world
           3%N carol 1%N alice); [reflexivity.. | exact Hne].
Defined.

(** ** Listings and who may see what *)

Lemma elem_of_find {V} (query : N → V → bool) (table : gmap N V) k v :
  (k, v) ∈ find query table ↔ table !! k = Some v ∧ query k v = true.
Proof.
  unfold find. rewrite list_elem_of_filter, elem_of_map_to_list. simpl. tauto.
Qed.

(** The viewer that [optionalAuth] finds for a request. *)
Lemma route_json_optionalAuth {A} (h : Req.t → Handler (nat * A)) r w :
  route_json [optionalAuth] h r w =
    settle_json errorHandler
      (h (Req.mk r (uid ← credential r; u ← users (db w) !! uid; Some (uid, u))) w).
Proof. reflexivity. Qed.

Lemma route_json_auth {A} (h : Req.t → Handler (nat * A)) r w uid u :
  credential r = Some uid → users (db w) !! uid = Some u →
  route_json [auth] h r w = settle_json errorHandler (h (Req.mk r (Some (uid, u))) w).
Proof.
  intros Hc Hu. unfold route_json, chain, auth, incoming, bind, get_db, ret.
  simpl. rewrite Hc. simpl. rewrite Hu. reflexivity.
Qed.

Lemma route_json_auth_anonymous {A} (h : Req.t → Handler (nat * A)) r w :
  credential r = None →
  route_json [auth] h r w = (Sent (mkResponse 401 (Failure "Not authorized")), w).
Proof.
  intros Hc. unfold route_json, chain, auth, incoming, bind. simpl.
  rewrite Hc. reflexivity.
Qed.

Lemma route_json_auth_unknown {A} (h : Req.t → Handler (nat * A)) r w uid :
  credential r = Some uid → users (db w) !! uid = None →
  route_json [auth] h r w = (Sent (mkResponse 401 (Failure "Not authorized")), w).
Proof.
  intros Hc Hu. unfold route_json, chain, auth, incoming, bind, get_db. simpl.
  rewrite Hc. simpl. rewrite Hu. reflexivity.
Qed.

(** What the visibility filter lets through, label by label. *)
Lemma visibilityFilter_spec viewer uid user label :
  label ∈ visibilityFilter viewer uid user ↔
    label = "public"
    ∨ (label = "followers" ∧
       ∃ me, viewer = Some me ∧ (me.1 = uid ∨ me.1 ∈ User.followers user))
    ∨ (label = "private" ∧ ∃ me, viewer = Some me ∧ me.1 = uid).
Proof.
  unfold visibilityFilter, includes. destruct viewer as [me|].
  - case_bool_decide as Hme.
    + rewrite !elem_of_cons, elem_of_nil. split.
      * intros [-> | [-> | [-> | []]]]; eauto 10.
      * intros [-> | [[-> _] | [-> _]]]; tauto.
    + case_bool_decide as Hfol.
      * rewrite !elem_of_cons, elem_of_nil. split.
        -- intros [-> | [-> | []]]; eauto 10.
        -- intros [-> | [[-> _] | [-> (me' & [= <-] & Heq)]]]; tauto.
      * rewrite !elem_of_cons, elem_of_nil. split.
        -- intros [-> | []]; eauto.
        -- intros [-> | [[-> (me' & [= <-] & [Heq | Hin])] | [-> (me' & [= <-] & Heq)]]];
             tauto.
  - rewrite !elem_of_cons, elem_of_nil. split.
    + intros [-> | []]; eauto.
    + intros [-> | [[_ (me & [=] & _)] | [_ (me & [=] & _)]]]. tauto.
Qed.

(** X9.  The posts that GET /api/users/:id/posts lists for a user are
    stored posts of that user, and each is public, or followers-only
    with the request coming from the user or from one of the user's
    followers, or private with the request coming from the user itself;
    whatever page of the matches the cursor yields. *)
Theorem user_posts_visible (cursor : Cursor Post.t) r w uid user :
  (∀ l x, x ∈ cursor l → x ∈ l) →
  params_id r = ValidId uid → users (db w) !! uid = Some user →
  ∃ listed,
    GET_users_posts cursor r w = (Json 200 listed, w) ∧
    ∀ pid p cr, (pid, p, cr) ∈ listed →
      posts (db w) !! pid = Some p ∧ Post.user p = uid ∧
      (Post.visibility p = "public"
       ∨ (Post.visibility p = "followers" ∧
          ∃ me, credential r = Some me ∧ (me = uid ∨ me ∈ User.followers user))
       ∨ (Post.visibility p = "private" ∧ credential r = Some uid)).
Proof.
  intros Hsub Hr Hu. unfold GET_users_posts.
  rewrite route_json_optionalAuth.
  unfold user_posts_handler. cbn [Req.request Req.user]. rewrite Hr.
  erewrite bind_next by (apply findById_found; eassumption).
  unfold bind, get_db, ret. cbn beta iota.
  eexists. split; [reflexivity|].
  intros pid p cr (kv & [= -> -> ->] & Hkv)%list_elem_of_fmap.
  apply Hsub in Hkv. destruct kv as [k v]. apply elem_of_find in Hkv as [Hp Hq].
  apply andb_true_iff in Hq as [Hown Hvis].
  apply bool_decide_eq_true in Hown, Hvis.
  split; [exact Hp|]. split; [exact Hown|].
  apply visibilityFilter_spec in Hvis
    as [Hpub | [[Hfol (me & Hme & Hrel)] | [Hpriv (me & Hme & Heq)]]].
  - left. exact Hpub.
  - right. left. split; [exact Hfol|]. exists me.1.
    destruct (credential r) as [c|]; [|discriminate Hme]. simpl in Hme.
    destruct (users (db w) !! c); [|discriminate Hme].
    injection Hme as <-. split; [reflexivity | exact Hrel].
  - right. right. split; [exact Hpriv|].
    destruct (credential r) as [c|]; [|discriminate Hme]. simpl in Hme.
    destruct (users (db w) !! c); [|discriminate Hme].
    injection Hme as <-. simpl in Heq. congruence.
Qed.

Lemma user_posts_visible_witness :
  ∃ listed,
    GET_users_posts (λ l, l) (request_for 1 (Some 2%N)) sample_world
      = (Json 200 listed, sample_world) ∧
    ∀ pid p cr, (pid, p, cr) ∈ listed →
      posts (db sample_world) !! pid = Some p ∧ Post.user p = 1%N ∧
      (Post.visibility p = "public"
       ∨ (Post.visibility p = "followers" ∧
          ∃ me, credential (request_for 1 (Some 2%N)) = Some me
                ∧ (me = 1%N ∨ me ∈ User.followers alice))
       ∨ (Post.visibility p = "private"
          ∧ credential (request_for 1 (Some 2%N)) = Some 1%N)).
Proof.
  apply (user_posts_visible (λ l, l) (request_for 1 (Some 2%N)) sample_world
           1%N alice); [intros l x H; exact H | reflexivity | reflexivity].
Defined.

(** The listing of a user's posts, spelled out. *)
Lemma user_posts_run (cursor : Cursor Post.t) r w uid user :
  params_id r = ValidId uid → users (db w) !! uid = Some user →
  GET_users_posts cursor r w =
    (Json 200
       ((λ kv, (kv.1, kv.2, Post.userCollection kv.2 ≫= populate_collection_ref (db w)))
          <$> cursor
                (find (λ _ p,
                         bool_decide (Post.user p = uid)
                         && bool_decide
                              (Post.visibility p
                                 ∈ visibilityFilter
                                     (c ← credential r; u ← users (db w) !! c; Some (c, u))
                                     uid user))
                      (posts (db w)))),
     w).
Proof.
  intros Hr Hu. unfold GET_users_posts. rewrite route_json_optionalAuth.
  unfold user_posts_handler. cbn [Req.request Req.user]. rewrite Hr.
  erewrite bind_next by (apply findById_found; eassumption).
  reflexivity.
Qed.

(** X10.  Following unlocks followers-only posts.  After a follow toggle
    by A on B, a listing of B's posts requested by A (with a cursor that
    yields every match) contains a followers-only post of B exactly when
    the toggle answered that A now follows B. *)
Theorem follow_unlocks_followers_posts (cursor : Cursor Post.t)
    r w a ua b ub r2 pid p :
  (∀ l x, x ∈ cursor l ↔ x ∈ l) →
  credential r = Some a → users (db w) !! a = Some ua →
  params_id r = ValidId b → users (db w) !! b = Some ub →
  a ≠ b →
  credential r2 = Some a → params_id r2 = ValidId b →
  posts (db w) !! pid = Some p → Post.user p = b →
  Post.visibility p = "followers" →
  let out := POST_users_follow r w in
  let listing := GET_users_posts cursor r2 out.2 in
  ∃ message flag count listed,
    out.1 = mkResponse 200 (FollowResult message flag count) ∧
    listing.1 = Json 200 listed ∧
    (flag = true ↔ ∃ cr, (pid, p, cr) ∈ listed).
Proof.
  intros Hcur Hc Ha Hr Hb Hne Hc2 Hr2 Hp Hown Hvis out listing.
  subst listing out.
  rewrite (follow_run r w a ua b ub) by assumption.
  destruct (bool_decide (b ∈ User.following ua)); cbn [fst snd].
  - erewrite user_posts_run;
      [| exact Hr2 | cbn [db]; apply follow_db_lookup_target].
    eexists _, _, _, _. split; [reflexivity|]. split; [reflexivity|].
    split; [discriminate|].
    intros (cr & (kv & Heq & Hkv)%list_elem_of_fmap). exfalso.
    injection Heq as -> -> _. apply (proj1 (Hcur _ _)) in Hkv. destruct kv as [k v].
    cbn [fst snd] in *.
    apply elem_of_find in Hkv as [_ Hq]. cbn [fst snd] in Hq.
    apply andb_true_iff in Hq as [_ Hq]. apply bool_decide_eq_true in Hq.
    rewrite Hc2 in Hq. cbn [db mbind option_bind] in Hq.
    rewrite follow_db_lookup_actor in Hq by exact Hne. cbn [mbind option_bind] in Hq.
    rewrite Hvis in Hq. apply visibilityFilter_spec in Hq
      as [Hq | [[_ (me & [= <-] & [Hq | Hq])] | [Hq _]]];
      [discriminate Hq | simpl in Hq; congruence | | discriminate Hq].
    cbn [fst User.followers User.set_followers] in Hq.
    revert Hq. apply not_in_without.
  - erewrite user_posts_run;
      [| exact Hr2 | cbn [db]; apply follow_db_lookup_target].
    eexists _, _, _, _. split; [reflexivity|]. split; [reflexivity|].
    split; [intros _ | reflexivity].
    eexists. apply list_elem_of_fmap. exists (pid, p). split; [reflexivity|].
    apply Hcur. apply elem_of_find. split; [exact Hp|].
    apply andb_true_iff. split; [apply bool_decide_eq_true, Hown|].
    apply bool_decide_eq_true. rewrite Hc2. cbn [db mbind option_bind].
    rewrite follow_db_lookup_actor by exact Hne. cbn [mbind option_bind].
    rewrite Hvis. apply visibilityFilter_spec. right. left.
    split; [reflexivity|]. eexists. split; [reflexivity|]. right.
    cbn [fst User.followers User.set_followers]. apply in_pushed.
Qed.

Lemma follow_unlocks_followers_posts_witness :
  3%N ≠ 1%N ∧
  let out := POST_users_follow (request_for 1 (Some 3%N)) social_world in
  let listing := GET_users_posts every (request_for 1 (Some 3%N)) out.2 in
  ∃ message flag count listed,
    out.1 = mkResponse 200 (FollowResult message flag count) ∧
    listing.1 = Json 200 listed ∧
    (flag = true ↔ ∃ cr, (13%N, post13, cr) ∈ listed).
Proof.
  assert (Hne : 3%N ≠ 1%N) by lia.
  split; [exact Hne|].
  apply (follow_unlocks_followers_posts every (request_for 1 (Some 3%N)) social_world
           3%N carol 1%N alice (request_for 1 (Some 3%N)) 13%N post13);
    [intros l x; reflexivity | reflexivity.. | exact Hne
     | reflexivity | reflexivity | reflexivity | reflexivity | reflexivity].
Defined.

Lemma user_collections_sound (cursor : Cursor UserCollection.t) r w uid user :
  (∀ l x, x ∈ cursor l → x ∈ l) →
  params_id r = ValidId uid → users (db w) !! uid = Some user →
  ∃ listed,
    GET_users_collections cursor r w = (Json 200 listed, w) ∧
    ∀ cid c items, (cid, c, items) ∈ listed →
      collections (db w) !! cid = Some c ∧ UserCollection.user c = uid ∧
      (UserCollection.isPrivate c = true → credential r = Some uid).
Proof.
  intros Hsub Hr Hu. unfold GET_users_collections.
  rewrite route_json_optionalAuth.
  unfold user_collections_handler. cbn [Req.request Req.user]. rewrite Hr.
  erewrite bind_next by (apply findById_found; eassumption).
  unfold bind, get_db, ret. cbn beta iota.
  eexists. split; [reflexivity|].
  intros cid c items (kv & Heq & Hkv)%list_elem_of_fmap.
  unfold populate_listed in Heq. injection Heq as -> -> _.
  apply Hsub in Hkv. destruct kv as [k v]. cbn [fst snd].
  apply elem_of_find in Hkv as [Hc Hq].
  apply andb_true_iff in Hq as [Hown Hpub]. apply bool_decide_eq_true in Hown.
  split; [exact Hc|]. split; [exact Hown|]. intros Hprivate.
  rewrite Hprivate in Hpub.
  destruct (credential r) as [me|]; [| discriminate Hpub]. simpl in Hpub.
  destruct (users (db w) !! me); [| discriminate Hpub]. simpl in Hpub.
  case_bool_decide as Hme; [| discriminate Hpub]. simpl in Hme. congruence.
Qed.

(** X11.  The collections that GET /api/users/:id/collections lists for
    a user are stored collections of that user, and a private one is
    listed only when the request comes from the user itself. *)
Theorem user_collections_private_hidden (cursor : Cursor UserCollection.t)
    r w uid user :
  (∀ l x, x ∈ cursor l → x ∈ l) →
  params_id r = ValidId uid → users (db w) !! uid = Some user →
  ∃ listed,
    GET_users_collections cursor r w = (Json 200 listed, w) ∧
    ∀ cid c items, (cid, c, items) ∈ listed →
      collections (db w) !! cid = Some c ∧ UserCollection.user c = uid ∧
      (UserCollection.isPrivate c = true → credential r = Some uid).
Proof. exact (user_collections_sound cursor r w uid user). Qed.

Lemma user_collections_private_hidden_witness :
  ∃ listed,
    GET_users_collections every (request_for 1 (Some 2%N)) social_world
      = (Json 200 listed, social_world) ∧
    ∀ cid c items, (cid, c, items) ∈ listed →
      collections (db social_world) !! cid = Some c ∧ UserCollection.user c = 1%N ∧
      (UserCollection.isPrivate c = true
       → credential (request_for 1 (Some 2%N)) = Some 1%N).
Proof.
  apply (user_collections_private_hidden every (request_for 1 (Some 2%N))
           social_world 1%N alice); [intros l x H; exact H | reflexivity | reflexivity].
Defined.

(** X12.  The feed of a user holds stored posts written by the user or
    by someone in the user's following set, each public or
    followers-only: no private post is in a feed, the user's own
    included. *)
Theorem feed_contents (cursor : Cursor Post.t) r w uid u :
  (∀ l x, x ∈ cursor l → x ∈ l) →
  credential r = Some uid → users (db w) !! uid = Some u →
  ∃ listed,
    GET_posts_feed cursor r w = (Json 200 listed, w) ∧
    ∀ pp, pp ∈ listed →
      posts (db w) !! pp_id pp = Some (pp_doc pp) ∧
      (Post.user (pp_doc pp) = uid ∨ Post.user (pp_doc pp) ∈ User.following u) ∧
      (Post.visibility (pp_doc pp) = "public"
       ∨ Post.visibility (pp_doc pp) = "followers") ∧
      Post.visibility (pp_doc pp) ≠ "private".
Proof.
  intros Hsub Hc Hu. unfold GET_posts_feed.
  rewrite (route_json_auth _ _ _ _ _ Hc Hu).
  unfold feed_handler, the_user. cbn [Req.user].
  erewrite bind_next by reflexivity.
  unfold bind, get_db, ret. cbn beta iota.
  eexists. split; [reflexivity|].
  intros pp (kv & -> & Hkv)%list_elem_of_fmap.
  apply Hsub in Hkv. destruct kv as [k v]. cbn [fst snd pp_id pp_doc populate_post].
  apply elem_of_find in Hkv as [Hp Hq]. unfold feed_query in Hq.
  apply andb_true_iff in Hq as [Hauthor Hvis].
  apply bool_decide_eq_true in Hauthor, Hvis. cbn [fst snd] in Hauthor.
  split; [exact Hp|]. split.
  { apply elem_of_app in Hauthor as [H | H%list_elem_of_singleton]; [right | left]; assumption. }
  assert (Hlabel : Post.visibility v = "public" ∨ Post.visibility v = "followers").
  { rewrite !elem_of_cons, elem_of_nil in Hvis. tauto. }
  split; [exact Hlabel|]. destruct Hlabel as [-> | ->]; discriminate.
Qed.

Lemma feed_contents_witness :
  ∃ listed,
    GET_posts_feed every (request_for 0 (Some 2%N)) social_world
      = (Json 200 listed, social_world) ∧
    ∀ pp, pp ∈ listed →
      posts (db social_world) !! pp_id pp = Some (pp_doc pp) ∧
      (Post.user (pp_doc pp) = 2%N ∨ Post.user (pp_doc pp) ∈ User.following bob) ∧
      (Post.visibility (pp_doc pp) = "public"
       ∨ Post.visibility (pp_doc pp) = "followers") ∧
      Post.visibility (pp_doc pp) ≠ "private".
Proof.
  apply (feed_contents every (request_for 0 (Some 2%N)) social_world 2%N bob);
    [intros l x H; exact H | reflexivity | reflexivity].
Defined.

(** X13.  With a cursor that yields every match, GET /api/collections
    lists exactly the collections of the acting user, the private ones
    included. *)
Theorem my_collections_exact (cursor : Cursor UserCollection.t) r w uid u :
  (∀ l x, x ∈ cursor l ↔ x ∈ l) →
  credential r = Some uid → users (db w) !! uid = Some u →
  ∃ listed,
    GET_collections cursor r w = (Json 200 listed, w) ∧
    ∀ cid c,
      (∃ items, (cid, c, items) ∈ listed)
      ↔ collections (db w) !! cid = Some c ∧ UserCollection.user c = uid.
Proof.
  intros Hcur Hc Hu. unfold GET_collections.
  rewrite (route_json_auth _ _ _ _ _ Hc Hu).
  unfold my_collections_handler, the_user. cbn [Req.user].
  erewrite bind_next by reflexivity.
  unfold bind, get_db, ret. cbn beta iota.
  eexists. split; [reflexivity|].
  intros cid c. cbn [fst]. split.
  - intros (items & (kv & Heq & Hkv)%list_elem_of_fmap).
    unfold populate_listed in Heq. injection Heq as -> -> _.
    apply (proj1 (Hcur _ _)) in Hkv. destruct kv as [k v]. cbn [fst snd].
    apply elem_of_find in Hkv as [Hcoll Hq]. apply bool_decide_eq_true in Hq.
    split; assumption.
  - intros [Hcoll Hown]. eexists. apply list_elem_of_fmap.
    exists (cid, c). split; [reflexivity|].
    apply Hcur. apply elem_of_find. split; [exact Hcoll|].
    apply bool_decide_eq_true, Hown.
Qed.

Lemma my_collections_exact_witness :
  ∃ listed,
    GET_collections every (request_for 0 (Some 1%N)) social_world
      = (Json 200 listed, social_world) ∧
    ∀ cid c,
      (∃ items, (cid, c, items) ∈ listed)
      ↔ collections (db social_world) !! cid = Some c ∧ UserCollection.user c = 1%N.
Proof.
  apply (my_collections_exact every (request_for 0 (Some 1%N)) social_world 1%N alice);
    [intros l x; reflexivity | reflexivity | reflexivity].
Defined.

(** ** More on collections *)

(** What a successful add does. *)
Lemma add_post_run r w uid u cid c pid p :
  credential r = Some uid → users (db w) !! uid = Some u →
  params_id r = ValidId cid → collections (db w) !! cid = Some c →
  Body.postId (body r) = Some (ValidId pid) → posts (db w) !! pid = Some p →
  UserCollection.user c = uid → Post.user p = uid →
  pid ∉ UserCollection.items c →
  POST_collections_add_post r w =
    (mkResponse 200 (Success "Post added to collection successfully"),
     mkWorld
       (mkDb (users (db w))
             (<[pid := Post.set_userCollection p (Some cid)]> (posts (db w)))
             (<[cid := UserCollection.set_items c (UserCollection.items c ++ [pid])]>
                (collections (db w))))
       (emitted w)).
Proof.
  intros Hc Hu Hr Hcoll Hb Hp Hoc Hop Hin. unfold POST_collections_add_post.
  rewrite (route_auth _ _ _ _ _ Hc Hu).
  unfold add_post_handler, add_post_validators, check.
  cbn [Req.request Req.user]. rewrite Hb, Hr. cbn [isMongoId].
  erewrite bind_next by (apply findById_found; eassumption).
  erewrite bind_next by (apply findById_found; eassumption).
  unfold the_user. erewrite bind_next by reflexivity. cbn [fst snd].
  rewrite (bool_decide_eq_true_2 _ Hoc), (bool_decide_eq_true_2 _ Hop).
  unfold includes. rewrite (bool_decide_eq_false_2 _ Hin). reflexivity.
Qed.

(** What a remove does for the owner of the collection. *)
Lemma remove_post_run r w uid u cid c pid p :
  credential r = Some uid → users (db w) !! uid = Some u →
  params_id r = ValidId cid → collections (db w) !! cid = Some c →
  posts (db w) !! pid = Some p →
  UserCollection.user c = uid →
  DELETE_collections_remove_post (ValidId pid) r w =
    (mkResponse 200 (Success "Post removed from collection successfully"),
     mkWorld
       (mkDb (users (db w))
             (<[pid := Post.set_userCollection p None]> (posts (db w)))
             (<[cid := UserCollection.set_items c (without pid (UserCollection.items c))]>
                (collections (db w))))
       (emitted w)).
Proof.
  intros Hc Hu Hr Hcoll Hp Hoc. unfold DELETE_collections_remove_post.
  rewrite (route_auth _ _ _ _ _ Hc Hu).
  unfold remove_post_handler. cbn [Req.request Req.user]. rewrite Hr.
  erewrite bind_next by (apply findById_found; eassumption).
  erewrite bind_next by (apply findById_found; eassumption).
  unfold the_user. erewrite bind_next by reflexivity. cbn [fst snd].
  rewrite (bool_decide_eq_true_2 _ Hoc). reflexivity.
Qed.

(** What an add does when the post is already an item. *)
Lemma add_post_duplicate_run r w uid u cid c pid p :
  credential r = Some uid → users (db w) !! uid = Some u →
  params_id r = ValidId cid → collections (db w) !! cid = Some c →
  Body.postId (body r) = Some (ValidId pid) → posts (db w) !! pid = Some p →
  UserCollection.user c = uid → Post.user p = uid →
  pid ∈ UserCollection.items c →
  POST_collections_add_post r w =
    (mkResponse 400 (Failure "Post is already in this collection"), w).
Proof.
  intros Hc Hu Hr Hcoll Hb Hp Hoc Hop Hin. unfold POST_collections_add_post.
  rewrite (route_auth _ _ _ _ _ Hc Hu).
  unfold add_post_handler, add_post_validators, check.
  cbn [Req.request Req.user]. rewrite Hb, Hr. cbn [isMongoId].
  erewrite bind_next by (apply findById_found; eassumption).
  erewrite bind_next by (apply findById_found; eassumption).
  unfold the_user. erewrite bind_next by reflexivity. cbn [fst snd].
  rewrite (bool_decide_eq_true_2 _ Hoc), (bool_decide_eq_true_2 _ Hop).
  unfold includes. rewrite (bool_decide_eq_true_2 _ Hin). reflexivity.
Qed.

(** X14.  A successful add links both sides: the post is appended to the
    collection's items, the post refers to the collection, items that
    were free of duplicates stay so, and asking again for the same add
    is answered 400 without any change. *)
Theorem add_post_links_both_sides r w uid u cid c pid p :
  credential r = Some uid → users (db w) !! uid = Some u →
  params_id r = ValidId cid → collections (db w) !! cid = Some c →
  Body.postId (body r) = Some (ValidId pid) → posts (db w) !! pid = Some p →
  UserCollection.user c = uid → Post.user p = uid →
  pid ∉ UserCollection.items c →
  let out := POST_collections_add_post r w in
  ∃ c' p',
    out.1 = mkResponse 200 (Success "Post added to collection successfully") ∧
    collections (db out.2) !! cid = Some c' ∧
    posts (db out.2) !! pid = Some p' ∧
    UserCollection.items c' = UserCollection.items c ++ [pid] ∧
    Post.userCollection p' = Some cid ∧
    (NoDup (UserCollection.items c) → NoDup (UserCollection.items c')) ∧
    POST_collections_add_post r out.2 =
      (mkResponse 400 (Failure "Post is already in this collection"), out.2).
Proof.
  intros Hc Hu Hr Hcoll Hb Hp Hoc Hop Hin out. subst out.
  rewrite (add_post_run r w uid u cid c pid p) by assumption.
  cbn [fst snd db posts collections].
  eexists _, _. split; [reflexivity|].
  split; [apply lookup_insert_eq|]. split; [apply lookup_insert_eq|].
  split; [reflexivity|]. split; [reflexivity|]. split.
  - intros Hnd. cbn [UserCollection.items UserCollection.set_items].
    apply NoDup_app. repeat split; [exact Hnd | | apply NoDup_singleton].
    intros y Hy ->%list_elem_of_singleton. contradiction.
  - apply (add_post_duplicate_run r _ uid u cid
             (UserCollection.set_items c (UserCollection.items c ++ [pid]))
             pid (Post.set_userCollection p (Some cid)));
      [assumption | assumption | assumption | apply lookup_insert_eq
      | assumption | apply lookup_insert_eq | assumption | assumption
      | apply in_pushed].
Qed.

Lemma add_post_links_both_sides_witness :
  (12%N ∉ UserCollection.items coll20) ∧
  let out := POST_collections_add_post (add_request 20 12 (Some 1%N)) sample_world in
  ∃ c' p',
    out.1 = mkResponse 200 (Success "Post added to collection successfully") ∧
    collections (db out.2) !! 20%N = Some c' ∧
    posts (db out.2) !! 12%N = Some p' ∧
    UserCollection.items c' = UserCollection.items coll20 ++ [12%N] ∧
    Post.userCollection p' = Some 20%N ∧
    (NoDup (UserCollection.items coll20) → NoDup (UserCollection.items c')) ∧
    POST_collections_add_post (add_request 20 12 (Some 1%N)) out.2 =
      (mkResponse 400 (Failure "Post is already in this collection"), out.2).
Proof.
  assert (Hout : 12%N ∉ UserCollection.items coll20).
  { simpl. intros H%list_elem_of_singleton. discriminate H. }
  split; [exact Hout|].
  apply (add_post_links_both_sides (add_request 20 12 (Some 1%N)) sample_world
           1%N alice 20%N coll20 12%N post12); [reflexivity.. | exact Hout].
Defined.

(** X15.  Removing a post from a collection undoes adding it: after a
    successful add followed by the remove, the table of collections is
    exactly as it was before the add, and the post has no collection
    reference. *)
Theorem add_then_remove_restores r w uid u cid c pid p r2 :
  credential r = Some uid → users (db w) !! uid = Some u →
  params_id r = ValidId cid → collections (db w) !! cid = Some c →
  Body.postId (body r) = Some (ValidId pid) → posts (db w) !! pid = Some p →
  UserCollection.user c = uid → Post.user p = uid →
  pid ∉ UserCollection.items c →
  credential r2 = Some uid → params_id r2 = ValidId cid →
  let added := POST_collections_add_post r w in
  let removed := DELETE_collections_remove_post (ValidId pid) r2 added.2 in
  added.1 = mkResponse 200 (Success "Post added to collection successfully") ∧
  removed.1 = mkResponse 200 (Success "Post removed from collection successfully") ∧
  collections (db removed.2) = collections (db w) ∧
  posts (db removed.2) !! pid = Some (Post.set_userCollection p None) ∧
  (∀ q, q ≠ pid → posts (db removed.2) !! q = posts (db w) !! q).
Proof.
  intros Hc Hu Hr Hcoll Hb Hp Hoc Hop Hin Hc2 Hr2 added removed.
  subst removed added.
  rewrite (add_post_run r w uid u cid c pid p) by assumption.
  cbn [fst snd].
  erewrite (remove_post_run r2 _ uid u cid _ pid _);
    [| assumption | assumption | assumption
     | cbn [db collections]; apply lookup_insert_eq
     | cbn [db posts]; apply lookup_insert_eq
     | assumption].
  cbn [fst snd db posts collections].
  split; [reflexivity|]. split; [reflexivity|]. split.
  - cbn [UserCollection.items UserCollection.set_items].
    rewrite without_pushed by exact Hin.
    rewrite insert_insert_eq.
    destruct c as [cu cn cd cc cp ci cit]. cbn. apply insert_id. exact Hcoll.
  - split.
    + rewrite lookup_insert_eq. destruct p. reflexivity.
    + intros q Hq. rewrite !lookup_insert_ne by congruence. reflexivity.
Qed.

Lemma add_then_remove_restores_witness :
  (12%N ∉ UserCollection.items coll20) ∧
  let added := POST_collections_add_post (add_request 20 12 (Some 1%N)) sample_world in
  let removed := DELETE_collections_remove_post (ValidId 12)
                   (request_for 20 (Some 1%N)) added.2 in
  added.1 = mkResponse 200 (Success "Post added to collection successfully") ∧
  removed.1 = mkResponse 200 (Success "Post removed from collection successfully") ∧
  collections (db removed.2) = collections (db sample_world) ∧
  posts (db removed.2) !! 12%N = Some (Post.set_userCollection post12 None) ∧
  (∀ q, q ≠ 12%N → posts (db removed.2) !! q = posts (db sample_world) !! q).
Proof.
  assert (Hout : 12%N ∉ UserCollection.items coll20).
  { simpl. intros H%list_elem_of_singleton. discriminate H. }
  split; [exact Hout|].
  apply (add_then_remove_restores (add_request 20 12 (Some 1%N)) sample_world
           1%N alice 20%N coll20 12%N post12 (request_for 20 (Some 1%N)));
    [reflexivity | reflexivity | reflexivity | reflexivity | reflexivity
    | reflexivity | reflexivity | reflexivity | exact Hout | reflexivity | reflexivity].
Defined.

(** X16.  The owner of a collection can detach any stored post through
    the remove route: the answer is 200, the collection no longer lists
    the post, and the post loses its collection reference, whoever owns
    the post and whichever collection it referred to; the collection the
    post did refer to, when it is another one, keeps listing it. *)
Theorem remove_post_clears_any_reference r w uid u cid c pid p :
  credential r = Some uid → users (db w) !! uid = Some u →
  params_id r = ValidId cid → collections (db w) !! cid = Some c →
  posts (db w) !! pid = Some p →
  UserCollection.user c = uid →
  let out := DELETE_collections_remove_post (ValidId pid) r w in
  out.1 = mkResponse 200 (Success "Post removed from collection successfully") ∧
  collections (db out.2) !! cid
    = Some (UserCollection.set_items c (without pid (UserCollection.items c))) ∧
  (pid ∉ without pid (UserCollection.items c)) ∧
  posts (db out.2) !! pid = Some (Post.set_userCollection p None) ∧
  (∀ other, other ≠ cid →
     collections (db out.2) !! other = collections (db w) !! other).
Proof.
  intros Hc Hu Hr Hcoll Hp Hoc out. subst out.
  rewrite (remove_post_run r w uid u cid c pid p) by assumption.
  cbn [fst snd db posts collections].
  split; [reflexivity|]. split; [apply lookup_insert_eq|].
  split; [apply not_in_without|]. split; [apply lookup_insert_eq|].
  intros other Hne. apply lookup_insert_ne. congruence.
Qed.

Lemma remove_post_clears_any_reference_witness :
  Post.user post11 ≠ 2%N ∧ Post.userCollection post11 = Some 20%N ∧
  let out := DELETE_collections_remove_post (ValidId 11)
               (request_for 22 (Some 2%N)) social_world in
  out.1 = mkResponse 200 (Success "Post removed from collection successfully") ∧
  collections (db out.2) !! 22%N
    = Some (UserCollection.set_items coll22 (without 11 (UserCollection.items coll22))) ∧
  (11%N ∉ without 11 (UserCollection.items coll22)) ∧
  posts (db out.2) !! 11%N = Some (Post.set_userCollection post11 None) ∧
  (∀ other, other ≠ 22%N →
     collections (db out.2) !! other = collections (db social_world) !! other).
Proof.
  split; [simpl; lia|]. split; [reflexivity|].
  apply (remove_post_clears_any_reference (request_for 22 (Some 2%N)) social_world
           2%N bob 22%N coll22 11%N post11); reflexivity.
Defined.

(** Every way a request to delete a collection can go. *)
Lemma delete_collection_cases r w :
  let out := DELETE_collections_id r w in
  ((400 ≤ status out.1)%nat ∧ out.2 = w)
  ∨ ∃ uid cid c,
      credential r = Some uid ∧ params_id r = ValidId cid ∧
      collections (db w) !! cid = Some c ∧ UserCollection.user c = uid ∧
      out = (mkResponse 200 (Success "Collection deleted successfully"),
             mkWorld (mkDb (users (db w))
                           (unset_userCollection cid <$> posts (db w))
                           (delete cid (collections (db w))))
                     (emitted w)).
Proof.
  intros out. subst out. unfold DELETE_collections_id.
  destruct (credential r) as [uid|] eqn:Hc;
    [| rewrite route_auth_anonymous by assumption; left; split; [simpl; lia | reflexivity]].
  destruct (users (db w) !! uid) as [u|] eqn:Hu;
    [| rewrite (route_auth_unknown _ _ _ uid) by assumption; left; split; [simpl; lia | reflexivity]].
  destruct (params_id r) as [cid|s] eqn:Hr.
  2:{ rewrite (route_auth _ _ _ _ _ Hc Hu). unfold delete_collection_handler.
      cbn [Req.request]. rewrite Hr. left; split; [simpl; lia | reflexivity]. }
  destruct (collections (db w) !! cid) as [c|] eqn:Hcoll.
  2:{ rewrite (route_auth _ _ _ _ _ Hc Hu). unfold delete_collection_handler.
      cbn [Req.request]. rewrite Hr.
      erewrite bind_next by (apply findById_missing; eassumption).
      left; split; [simpl; lia | reflexivity]. }
  destruct (decide (UserCollection.user c = uid)) as [Hown | Hown].
  - right. exists uid, cid, c. repeat split; try assumption.
    apply (delete_collection_run r w uid u cid c); assumption.
  - rewrite (route_auth _ _ _ _ _ Hc Hu). unfold delete_collection_handler.
    cbn [Req.request Req.user]. rewrite Hr.
    erewrite bind_next by (apply findById_found; eassumption).
    unfold the_user. erewrite bind_next by reflexivity. cbn [fst snd].
    rewrite bool_decide_eq_false_2 by assumption.
    left; split; [simpl; lia | reflexivity].
Qed.

(** X17.  Deleting a collection is the owner's alone and leaves the rest
    of the data alone.  Whatever the request, a stored collection that
    is gone afterwards was the one named by the request and was owned by
    its authenticated sender; no post is removed; a post is unchanged
    unless it referred to the collection named by the request, in which
    case it may differ only in having lost that reference; users are
    unchanged. *)
Theorem delete_collection_owner_only r w :
  let out := DELETE_collections_id r w in
  (∀ cid c, collections (db w) !! cid = Some c →
     collections (db out.2) !! cid = Some c
     ∨ (collections (db out.2) !! cid = None ∧
        params_id r = ValidId cid ∧ credential r = Some (UserCollection.user c))) ∧
  (∀ pid p, posts (db w) !! pid = Some p →
     posts (db out.2) !! pid = Some p
     ∨ (posts (db out.2) !! pid = Some (Post.set_userCollection p None) ∧
        ∃ cid, Post.userCollection p = Some cid ∧ params_id r = ValidId cid)) ∧
  users (db out.2) = users (db w).
Proof.
  intros out. pose proof (delete_collection_cases r w) as Hcases. fold out in Hcases.
  destruct Hcases as [[_ Hw] | (uid & cid & c & Hc & Hr & Hcoll & Hown & Hout)].
  - rewrite Hw. split; [intros; left; assumption|].
    split; [intros; left; assumption | reflexivity].
  - rewrite Hout. cbn [fst snd db users posts collections].
    split; [| split; [| reflexivity]].
    + intros cid' c' Hc'. destruct (decide (cid' = cid)) as [-> | Hne].
      * right. rewrite Hcoll in Hc'. injection Hc' as <-.
        split; [apply lookup_delete_eq|]. split; [exact Hr | congruence].
      * left. rewrite lookup_delete_ne by congruence. exact Hc'.
    + intros pid p Hp. rewrite lookup_fmap, Hp. cbn [fmap option_fmap option_map].
      unfold unset_userCollection. case_bool_decide as Href.
      * right. split; [reflexivity|]. exists cid. split; assumption.
      * left. reflexivity.
Qed.

Lemma delete_collection_owner_only_witness :
  let out := DELETE_collections_id (request_for 20 (Some 2%N)) sample_world in
  (∀ cid c, collections (db sample_world) !! cid = Some c →
     collections (db out.2) !! cid = Some c
     ∨ (collections (db out.2) !! cid = None ∧
        params_id (request_for 20 (Some 2%N)) = ValidId cid ∧
        credential (request_for 20 (Some 2%N)) = Some (UserCollection.user c))) ∧
  (∀ pid p, posts (db sample_world) !! pid = Some p →
     posts (db out.2) !! pid = Some p
     ∨ (posts (db out.2) !! pid = Some (Post.set_userCollection p None) ∧
        ∃ cid, Post.userCollection p = Some cid
               ∧ params_id (request_for 20 (Some 2%N)) = ValidId cid)) ∧
  users (db out.2) = users (db sample_world).
Proof.
  apply (delete_collection_owner_only (request_for 20 (Some 2%N)) sample_world).
Defined.

Lemma or_default_length (v : option string) (n : nat) :
  (∀ s, v = Some s → (String.length s ≤ n)%nat) →
  (String.length (or_default v "") ≤ n)%nat.
Proof.
  intros H. unfold or_default. destruct v as [s|]; [| simpl; lia].
  case_bool_decide; [simpl; lia | apply H; reflexivity].
Qed.

Lemma category_nonempty (cat : string) : cat ∈ category_enum → cat ≠ "".
Proof.
  unfold category_enum. rewrite !elem_of_cons, elem_of_nil.
  intros H ->. repeat destruct H as [H | H]; try discriminate H. exact H.
Qed.

(** X18.  A request to create a collection with a name of 1 to 50
    characters, a category of the list and a description of at most 200
    stores, under the new id, a collection owned by the sender, with no
    items, the given name and category, the description or the empty
    one, the privacy flag or [false]; it answers 201 with it and changes
    nothing else. *)
Theorem create_collection_stores newId b r w uid u n cat :
  credential r = Some uid → users (db w) !! uid = Some u →
  CollectionBody.name b = Some n → n ≠ "" → (String.length n ≤ 50)%nat →
  CollectionBody.category b = Some cat → cat ∈ category_enum →
  (∀ d, CollectionBody.description b = Some d → (String.length d ≤ 200)%nat) →
  let out := POST_collections newId b r w in
  let c := UserCollection.mk uid n (or_default (CollectionBody.description b) "")
             cat (default false (CollectionBody.isPrivate b)) "" [] in
  out.1 = Json 201 ("Collection created successfully",
                    populate_collection (db w) newId c) ∧
  collections (db out.2) !! newId = Some c ∧
  (∀ other, other ≠ newId →
     collections (db out.2) !! other = collections (db w) !! other) ∧
  posts (db out.2) = posts (db w) ∧ users (db out.2) = users (db w) ∧
  emitted out.2 = emitted w.
Proof.
  intros Hc Hu Hn Hne Hlen Hcat Hin Hdesc out c. subst out.
  unfold POST_collections. rewrite (route_json_auth _ _ _ _ _ Hc Hu).
  unfold create_collection_handler, create_collection_validators,
    notEmpty, isLength_max, isIn, optional, check.
  rewrite Hn, Hcat. cbn [default from_option id].
  rewrite (bool_decide_eq_false_2 (n = "")) by exact Hne.
  rewrite (bool_decide_eq_true_2 (String.length n ≤ 50)%nat) by exact Hlen.
  rewrite (bool_decide_eq_true_2 (cat ∈ category_enum)) by exact Hin.
  cbn [negb app].
  assert (Hd : (match CollectionBody.description b with
                | Some _ =>
                    bool_decide
                      (String.length (default "" (CollectionBody.description b)) ≤ 200)%nat
                | None => true
                end) = true).
  { destruct (CollectionBody.description b) as [d|] eqn:Hd; [| reflexivity].
    apply bool_decide_eq_true. simpl. apply Hdesc. reflexivity. }
  rewrite Hd. cbn [app].
  unfold the_user. cbn [Req.user]. erewrite bind_next by reflexivity. cbn [fst snd].
  fold c.
  assert (Hvalid : validate_collection c = []).
  { unfold validate_collection, validate_required, validate_maxlength,
      validate_enum, check. subst c.
    cbn [UserCollection.name UserCollection.description UserCollection.category].
    rewrite (bool_decide_eq_false_2 (n = "")) by exact Hne.
    rewrite (bool_decide_eq_true_2 (String.length n ≤ 50)%nat) by exact Hlen.
    rewrite (bool_decide_eq_true_2
               (String.length (or_default (CollectionBody.description b) "") ≤ 200)%nat)
      by (apply or_default_length, Hdesc).
    rewrite (bool_decide_eq_false_2 (cat = "")) by (apply category_nonempty, Hin).
    rewrite (bool_decide_eq_true_2 (cat ∈ category_enum)) by exact Hin.
    reflexivity. }
  rewrite Hvalid.
  unfold UserCollection_validated_save, UserCollection_save, bind, get_db,
    put_db, ret, settle_json.
  cbn [fst snd db users posts collections emitted set_collections].
  split; [reflexivity|]. split; [apply lookup_insert_eq|].
  split; [intros other Ho; apply lookup_insert_ne; congruence|].
  repeat split.
Qed.

Lemma create_collection_stores_witness :
  let b := CollectionBody.mk (Some "Grails") None (Some "sneakers") None in
  let out := POST_collections 30 b (request_for 0 (Some 2%N)) sample_world in
  let c := UserCollection.mk 2 "Grails" (or_default (CollectionBody.description b) "")
             "sneakers" (default false (CollectionBody.isPrivate b)) "" [] in
  out.1 = Json 201 ("Collection created successfully",
                    populate_collection (db sample_world) 30 c) ∧
  collections (db out.2) !! 30%N = Some c ∧
  (∀ other, other ≠ 30%N →
     collections (db out.2) !! other = collections (db sample_world) !! other) ∧
  posts (db out.2) = posts (db sample_world) ∧
  users (db out.2) = users (db sample_world) ∧
  emitted out.2 = emitted sample_world.
Proof.
  apply (create_collection_stores 30
           (CollectionBody.mk (Some "Grails") None (Some "sneakers") None)
           (request_for 0 (Some 2%N)) sample_world 2%N bob "Grails" "sneakers");
    [reflexivity | reflexivity | reflexivity | discriminate | simpl; lia
    | reflexivity | | intros d H; discriminate H].
  unfold category_enum. left.
Defined.

(** X19.  A request to create a collection without a category, or with
    one outside the list, is turned down by validation with "Invalid
    category" among the errors, and stores nothing. *)
Theorem create_collection_bad_category newId b r w uid u :
  credential r = Some uid → users (db w) !! uid = Some u →
  (CollectionBody.category b = None
   ∨ ∃ cat, CollectionBody.category b = Some cat ∧ cat ∉ category_enum) →
  ∃ errors,
    POST_collections newId b r w
      = (Sent (mkResponse 400 (ValidationFailed errors)), w) ∧
    "Invalid category" ∈ errors.
Proof.
  intros Hc Hu Hcat. unfold POST_collections.
  rewrite (route_json_auth _ _ _ _ _ Hc Hu).
  unfold create_collection_handler.
  assert (Hin : "Invalid category" ∈ create_collection_validators b).
  { unfold create_collection_validators. do 2 (apply elem_of_app; right).
    apply elem_of_app; left. unfold isIn, check.
    rewrite bool_decide_eq_false_2; [left|].
    destruct Hcat as [-> | (cat & -> & Hout)]; [| exact Hout].
    simpl. intros H. apply category_nonempty in H. congruence. }
  destruct (create_collection_validators b) as [|e errors] eqn:Hv.
  - inversion Hin.
  - exists (e :: errors). split; [reflexivity | exact Hin].
Qed.

Lemma create_collection_bad_category_witness :
  ∃ errors,
    POST_collections 30 (CollectionBody.mk (Some "Grails") None (Some "stamps") None)
      (request_for 0 (Some 2%N)) sample_world
      = (Sent (mkResponse 400 (ValidationFailed errors)), sample_world) ∧
    "Invalid category" ∈ errors.
Proof.
  apply (create_collection_bad_category 30
           (CollectionBody.mk (Some "Grails") None (Some "stamps") None)
           (request_for 0 (Some 2%N)) sample_world 2%N bob);
    [reflexivity | reflexivity |].
  right. exists "stamps". split; [reflexivity|].
  apply (bool_decide_eq_false_1 ("stamps" ∈ category_enum)). vm_compute. reflexivity.
Defined.

(** Every way a request to update a collection can go. *)
Lemma update_collection_cases b r w :
  let out := PUT_collections_id b r w in
  (∃ res, out = (Sent res, w) ∧ (400 ≤ status res)%nat)
  ∨ ∃ uid cid c,
      credential r = Some uid ∧ params_id r = ValidId cid ∧
      collections (db w) !! cid = Some c ∧ UserCollection.user c = uid ∧
      update_collection_validators b = [] ∧
      validate_update b (apply_update b c) = [] ∧
      out = (Json 200 ("Collection updated successfully",
                       populate_collection (db w) cid (apply_update b c)),
             mkWorld (set_collections (db w)
                        (<[cid := apply_update b c]> (collections (db w))))
                     (emitted w)).
Proof.
  intros out. subst out. unfold PUT_collections_id.
  destruct (credential r) as [uid|] eqn:Hc.
  2:{ rewrite route_json_auth_anonymous by assumption.
      left. eexists. split; [reflexivity | simpl; lia]. }
  destruct (users (db w) !! uid) as [u|] eqn:Hu.
  2:{ rewrite (route_json_auth_unknown _ _ _ uid) by assumption.
      left. eexists. split; [reflexivity | simpl; lia]. }
  rewrite (route_json_auth _ _ _ _ _ Hc Hu).
  unfold update_collection_handler. cbn [Req.request Req.user].
  destruct (update_collection_validators b) eqn:Hv.
  2:{ left. eexists. split; [reflexivity | simpl; lia]. }
  destruct (params_id r) as [cid|s] eqn:Hr.
  2:{ left. eexists. split; [reflexivity | simpl; lia]. }
  destruct (collections (db w) !! cid) as [c|] eqn:Hcoll.
  2:{ erewrite bind_next by (apply findById_missing; eassumption).
      left. eexists. split; [reflexivity | simpl; lia]. }
  erewrite bind_next by (apply findById_found; eassumption).
  unfold the_user. erewrite bind_next by reflexivity. cbn [fst snd].
  case_bool_decide as Hown; cbn [negb].
  2:{ left. eexists. split; [reflexivity | simpl; lia]. }
  destruct (validate_update b (apply_update b c)) eqn:Hval.
  - right. exists uid, cid, c. repeat split; try assumption.
  - left. eexists. split; [reflexivity | simpl; lia].
Qed.

(** X20.  An update never moves a collection to another owner and never
    touches its items or its cover image.  Whatever the request to the
    update route, every stored collection is still stored afterwards
    with the same owner, items and cover image; it is unchanged unless
    the request names it and comes from its owner, in which case it is
    the old document with the fields of the body written over it.
    Posts and users are unchanged. *)
Theorem update_keeps_owner_and_items b r w cid c :
  collections (db w) !! cid = Some c →
  let out := PUT_collections_id b r w in
  ∃ c',
    collections (db out.2) !! cid = Some c' ∧
    UserCollection.user c' = UserCollection.user c ∧
    UserCollection.items c' = UserCollection.items c ∧
    UserCollection.coverImage c' = UserCollection.coverImage c ∧
    (c' = c
     ∨ (credential r = Some (UserCollection.user c) ∧ params_id r = ValidId cid ∧
        c' = apply_update b c)) ∧
    posts (db out.2) = posts (db w) ∧ users (db out.2) = users (db w).
Proof.
  intros Hcoll out. pose proof (update_collection_cases b r w) as Hcases.
  fold out in Hcases.
  destruct Hcases as [(res & Hout & _)
                     | (uid & cid0 & c0 & Hc & Hr & Hc0 & Hown & _ & _ & Hout)];
    rewrite Hout; cbn [snd db collections posts users set_collections].
  - exists c. repeat split; try assumption; try reflexivity. left. reflexivity.
  - destruct (decide (cid0 = cid)) as [-> | Hne].
    + rewrite Hcoll in Hc0. injection Hc0 as <-.
      exists (apply_update b c). split; [apply lookup_insert_eq|].
      repeat split. right. repeat split; [congruence | exact Hr].
    + exists c. split; [rewrite lookup_insert_ne by exact Hne; exact Hcoll|].
      repeat split. left. reflexivity.
Qed.

Lemma update_keeps_owner_and_items_witness :
  let b := CollectionBody.mk (Some "Safe") None None (Some false) in
  let out := PUT_collections_id b (request_for 20 (Some 1%N)) sample_world in
  ∃ c',
    collections (db out.2) !! 20%N = Some c' ∧
    UserCollection.user c' = UserCollection.user coll20 ∧
    UserCollection.items c' = UserCollection.items coll20 ∧
    UserCollection.coverImage c' = UserCollection.coverImage coll20 ∧
    (c' = coll20
     ∨ (credential (request_for 20 (Some 1%N)) = Some (UserCollection.user coll20) ∧
        params_id (request_for 20 (Some 1%N)) = ValidId 20 ∧
        c' = apply_update b coll20)) ∧
    posts (db out.2) = posts (db sample_world) ∧
    users (db out.2) = users (db sample_world).
Proof.
  apply (update_keeps_owner_and_items
           (CollectionBody.mk (Some "Safe") None None (Some false))
           (request_for 20 (Some 1%N)) sample_world 20%N coll20).
  reflexivity.
Defined.

(** What a valid update by the owner does. *)
Lemma update_collection_run b r w uid u cid c :
  credential r = Some uid → users (db w) !! uid = Some u →
  params_id r = ValidId cid → collections (db w) !! cid = Some c →
  UserCollection.user c = uid →
  update_collection_validators b = [] →
  PUT_collections_id b r w =
    match validate_update b (apply_update b c) with
    | [] =>
        (Json 200 ("Collection updated successfully",
                   populate_collection (db w) cid (apply_update b c)),
         mkWorld (set_collections (db w)
                    (<[cid := apply_update b c]> (collections (db w))))
                 (emitted w))
    | errors => (Sent (errorHandler (ValidationError errors)), w)
    end.
Proof.
  intros Hc Hu Hr Hcoll Hown Hv. unfold PUT_collections_id.
  rewrite (route_json_auth _ _ _ _ _ Hc Hu).
  unfold update_collection_handler. cbn [Req.request Req.user].
  rewrite Hv, Hr.
  erewrite bind_next by (apply findById_found; eassumption).
  unfold the_user. erewrite bind_next by reflexivity. cbn [fst snd].
  rewrite bool_decide_eq_true_2 by assumption. cbn [negb].
  destruct (validate_update b (apply_update b c)); reflexivity.
Qed.

(** X21.  An update whose body has none of the four fields is accepted
    from the owner of a collection that has a name and a category, and
    changes nothing at all. *)
Theorem update_empty_body_changes_nothing r w uid u cid c :
  credential r = Some uid → users (db w) !! uid = Some u →
  params_id r = ValidId cid → collections (db w) !! cid = Some c →
  UserCollection.user c = uid →
  UserCollection.name c ≠ "" → UserCollection.category c ≠ "" →
  PUT_collections_id (CollectionBody.mk None None None None) r w =
    (Json 200 ("Collection updated successfully",
               populate_collection (db w) cid c), w).
Proof.
  intros Hc Hu Hr Hcoll Hown Hname Hcat.
  rewrite (update_collection_run _ r w uid u cid c) by (assumption || reflexivity).
  assert (Hsame : apply_update (CollectionBody.mk None None None None) c = c)
    by (destruct c; reflexivity).
  rewrite Hsame.
  unfold validate_update, validate_required, check, present.
  cbn [CollectionBody.name CollectionBody.description CollectionBody.category].
  rewrite (bool_decide_eq_false_2 (UserCollection.name c = "")) by exact Hname.
  rewrite (bool_decide_eq_false_2 (UserCollection.category c = "")) by exact Hcat.
  cbn [negb app]. f_equal.
  destruct w as [[us ps cs] ev]. cbn [db collections set_collections] in *.
  rewrite insert_id by exact Hcoll. reflexivity.
Qed.

Lemma update_empty_body_changes_nothing_witness :
  PUT_collections_id (CollectionBody.mk None None None None)
    (request_for 20 (Some 1%N)) sample_world =
    (Json 200 ("Collection updated successfully",
               populate_collection (db sample_world) 20 coll20), sample_world).
Proof.
  apply (update_empty_body_changes_nothing (request_for 20 (Some 1%N)) sample_world
           1%N alice 20%N coll20);
    [reflexivity | reflexivity | reflexivity | reflexivity | reflexivity
    | discriminate | discriminate].
Defined.



(** ** The collection page *)

Lemma page_json_optionalAuth {A} (h : Req.t → Handler (nat * A)) failed r w :
  page_json [optionalAuth] h failed r w =
    settle_json (λ _, mkResponse 200 (RenderError "Error" failed))
      (h (Req.mk r (uid ← credential r; u ← users (db w) !! uid; Some (uid, u))) w).
Proof. reflexivity. Qed.

(** X23.  The page of a private collection is rendered for its owner,
    flagged as the owner's, and answered 403 for every other request,
    anonymous or not. *)
Theorem collection_page_privacy r w cid c owner :
  params_id r = ValidId cid → collections (db w) !! cid = Some c →
  UserCollection.isPrivate c = true →
  users (db w) !! UserCollection.user c = Some owner →
  (credential r = Some (UserCollection.user c) →
     GET_collection_page r w =
       (Json 200 ((UserCollection.name c ++ " - FlexBase")%string,
                  Some (UserCollection.user c),
                  populate_collection (db w) cid c, true), w))
  ∧ (credential r ≠ Some (UserCollection.user c) →
       GET_collection_page r w =
         (Sent (mkResponse 403
                  (RenderError "Private Collection" "This collection is private")), w)).
Proof.
  intros Hr Hcoll Hpriv Howner. unfold GET_collection_page.
  rewrite page_json_optionalAuth.
  unfold collection_page_handler. cbn [Req.request Req.user]. rewrite Hr.
  erewrite bind_next by (apply findById_found; eassumption).
  unfold bind, get_db, ret, respond, throw. cbn beta iota.
  rewrite Hpriv. unfold populate_collection, populate_user. rewrite Howner.
  cbn [fmap option_fmap option_map pcoll_user ref_id].
  split.
  - intros Hc. rewrite Hc. cbn [mbind option_bind]. rewrite Howner.
    cbn [mbind option_bind fst snd].
    rewrite bool_decide_eq_true_2 by reflexivity. reflexivity.
  - intros Hc. destruct (credential r) as [v|]; [| reflexivity].
    cbn [mbind option_bind]. destruct (users (db w) !! v); [| reflexivity].
    cbn [mbind option_bind fst snd].
    rewrite bool_decide_eq_false_2 by congruence. reflexivity.
Qed.

Lemma collection_page_privacy_witness :
  (credential (request_for 20 (Some 1%N)) = Some (UserCollection.user coll20) →
     GET_collection_page (request_for 20 (Some 1%N)) sample_world =
       (Json 200 ((UserCollection.name coll20 ++ " - FlexBase")%string,
                  Some (UserCollection.user coll20),
                  populate_collection (db sample_world) 20 coll20, true),
        sample_world))
  ∧ (credential (request_for 20 (Some 2%N)) ≠ Some (UserCollection.user coll20) →
       GET_collection_page (request_for 20 (Some 2%N)) sample_world =
         (Sent (mkResponse 403
                  (RenderError "Private Collection" "This collection is private")),
          sample_world)).
Proof.
  split.
  - apply (proj1 (collection_page_privacy (request_for 20 (Some 1%N)) sample_world
                    20%N coll20 alice eq_refl eq_refl eq_refl eq_refl)).
  - apply (proj2 (collection_page_privacy (request_for 20 (Some 2%N)) sample_world
                    20%N coll20 alice eq_refl eq_refl eq_refl eq_refl)).
Defined.

(** X24.  Making a collection private hides it.  After its owner has set
    [isPrivate] to true through the update route, the listing of the
    owner's collections requested by anyone else no longer contains it,
    whatever the cursor yields. *)
Theorem make_private_hides_from_listing (cursor : Cursor UserCollection.t)
    r w uid u cid c r2 :
  (∀ l x, x ∈ cursor l → x ∈ l) →
  credential r = Some uid → users (db w) !! uid = Some u →
  params_id r = ValidId cid → collections (db w) !! cid = Some c →
  UserCollection.user c = uid →
  UserCollection.name c ≠ "" → UserCollection.category c ≠ "" →
  params_id r2 = ValidId uid → credential r2 ≠ Some uid →
  let out := PUT_collections_id (CollectionBody.mk None None None (Some true)) r w in
  ∃ c' listed,
    collections (db out.2) !! cid = Some c' ∧
    UserCollection.isPrivate c' = true ∧
    GET_users_collections cursor r2 out.2 = (Json 200 listed, out.2) ∧
    ∀ c'' items, (cid, c'', items) ∉ listed.
Proof.
  intros Hsub Hc Hu Hr Hcoll Hown Hname Hcat Hr2 Hc2 out. subst out.
  rewrite (update_collection_run _ r w uid u cid c) by (assumption || reflexivity).
  unfold validate_update, validate_required, check, present, apply_update.
  cbn [CollectionBody.name CollectionBody.description CollectionBody.category
       CollectionBody.isPrivate UserCollection.name UserCollection.category
       default from_option id].
  rewrite (bool_decide_eq_false_2 (UserCollection.name c = "")) by exact Hname.
  rewrite (bool_decide_eq_false_2 (UserCollection.category c = "")) by exact Hcat.
  cbn [negb app snd].
  set (w' := mkWorld _ _).
  assert (Hu' : users (db w') !! uid = Some u) by exact Hu.
  destruct (user_collections_sound cursor r2 w' uid u Hsub Hr2 Hu')
    as (listed & Hlist & Hsound).
  eexists _, listed. split; [apply lookup_insert_eq|]. split; [reflexivity|].
  split; [exact Hlist|].
  intros c'' items Hin. apply Hsound in Hin as (Hstored & _ & Hprivate).
  apply Hc2, Hprivate. subst w'.
  cbn [db collections set_collections] in Hstored.
  rewrite lookup_insert_eq in Hstored. injection Hstored as <-. reflexivity.
Qed.

Lemma make_private_hides_from_listing_witness :
  credential (request_for 1 (Some 2%N)) ≠ Some 1%N ∧
  let out := PUT_collections_id (CollectionBody.mk None None None (Some true))
               (request_for 21 (Some 1%N)) social_world in
  ∃ c' listed,
    collections (db out.2) !! 21%N = Some c' ∧
    UserCollection.isPrivate c' = true ∧
    GET_users_collections every (request_for 1 (Some 2%N)) out.2
      = (Json 200 listed, out.2) ∧
    ∀ c'' items, (21%N, c'', items) ∉ listed.
Proof.
  assert (Hne : credential (request_for 1 (Some 2%N)) ≠ Some 1%N) by discriminate.
  split; [exact Hne|].
  apply (make_private_hides_from_listing every (request_for 21 (Some 1%N)) social_world
           1%N alice 21%N coll21 (request_for 1 (Some 2%N)));
    [intros l x H; exact H | reflexivity | reflexivity | reflexivity | reflexivity
    | reflexivity | discriminate | discriminate | reflexivity | exact Hne].
Defined.

(** ** Creating a post: the success path *)

Lemma forEach_emit (room_of : N → Room) (event_of : N → Event) (l : list N) w :
  forEach l (λ x, emit (room_of x) (event_of x)) w =
    Next tt (mkWorld (db w)
               (emitted w ++ ((λ x, mkEmit (room_of x) (event_of x)) <$> l))).
Proof.
  revert w. induction l as [|x l IH]; intros w.
  - simpl. unfold ret. rewrite app_nil_r. destruct w. reflexivity.
  - cbn [forEach]. unfold bind at 1. unfold emit at 1. rewrite IH.
    cbn [db emitted fmap list_fmap]. rewrite <- app_assoc. reflexivity.
Qed.

Lemma tag_type_nonempty (ty : string) : ty ∈ tag_type_enum → ty ≠ "".
Proof.
  unfold tag_type_enum. rewrite !elem_of_cons, elem_of_nil.
  intros H ->. repeat destruct H as [H | H]; try discriminate H. exact H.
Qed.

(** A tag that carries a type of the schema's list. *)
Lemma processed_typed_valid (l : list Tag.t) :
  Forall (λ t, ∃ ty, Tag.type t = Some ty ∧ ty ∈ tag_type_enum) l →
  mjoin (validate_tag <$> processedTags (Some (TagArray l))) = [].
Proof.
  intros H. unfold processedTags. apply join_nil_2.
  apply Forall_fmap, Forall_fmap. eapply Forall_impl; [exact H|].
  intros t (ty & Ht & Hin). cbn.
  unfold validate_tag. cbn [Tag.type]. rewrite Ht. unfold or_default.
  rewrite bool_decide_eq_false_2 by (apply tag_type_nonempty, Hin).
  unfold validate_enum, check. rewrite bool_decide_eq_true_2 by exact Hin.
  reflexivity.
Qed.

Lemma visibility_default_valid (v : option string) :
  (∀ s, v = Some s → s = "" ∨ s ∈ visibility_enum) →
  or_default v "public" ∈ visibility_enum.
Proof.
  intros H. unfold or_default. destruct v as [s|].
  - case_bool_decide as Hs; [left|].
    destruct (H s eq_refl) as [-> | Hin]; [contradiction | exact Hin].
  - left.
Qed.

(** What a well-formed request to create a post does.  [coll] is the
    collection the body names, which must be one of the sender's. *)
Lemma create_post_run newId r w uid u f cap coll :
  credential r = Some uid → users (db w) !! uid = Some u →
  file r = Some f →
  Body.caption (body r) = Some cap → cap ≠ "" → (String.length cap ≤ 1000)%nat →
  Body.tags (body r) ≠ Some NotAnArray →
  (∀ l, Body.tags (body r) = Some (TagArray l) →
        Forall (λ t, ∃ ty, Tag.type t = Some ty ∧ ty ∈ tag_type_enum) l) →
  (∀ s, Body.visibility (body r) = Some s → s = "" ∨ s ∈ visibility_enum) →
  match Body.userCollection (body r) with
  | None => coll = None
  | Some (ValidId cid) =>
      coll = Some cid
      ∧ ∃ c, collections (db w) !! cid = Some c ∧ UserCollection.user c = uid
  | Some (InvalidId _) => False
  end →
  let post := created_post uid cap f (Body.tags (body r)) coll
                (Body.visibility (body r)) in
  POST_posts newId r w =
    (mkResponse 201
       (PostCreated "Post created successfully"
          (populate_post (created_db (db w) newId post) false newId post)),
     mkWorld (created_db (db w) newId post)
             (emitted w ++ (new_post_to u uid newId <$> User.followers u))).
Proof.
  intros Hc Hu Hf Hcap Hne Hlen Harr Htags Hvis Hcoll post.
  unfold POST_posts. rewrite (route_auth _ _ _ _ _ Hc Hu).
  unfold create_handler. cbn [Req.request Req.user].
  assert (Hv : create_validators (body r) = []).
  { unfold create_validators, notEmpty, isLength_max, check.
    rewrite Hcap. cbn [default from_option id].
    rewrite (bool_decide_eq_false_2 (cap = "")) by exact Hne.
    rewrite (bool_decide_eq_true_2 (String.length cap ≤ 1000)%nat) by exact Hlen.
    cbn [negb app].
    destruct (Body.tags (body r)) as [[|l]|]; [contradiction | |];
      destruct (Body.userCollection (body r)) as [[cid|s]|];
      try contradiction; reflexivity. }
  rewrite Hv, Hf. unfold the_user. erewrite bind_next by reflexivity.
  cbn [fst snd]. rewrite Hcap. cbn [default from_option id].
  assert (Hvalid : validate_post post = []).
  { unfold validate_post, post, created_post.
    cbn [Post.caption Post.mediaURL Post.mediaType Post.tags Post.comments
         Post.visibility].
    unfold validate_required, validate_maxlength, validate_enum, check.
    rewrite (bool_decide_eq_false_2 (cap = "")) by exact Hne.
    rewrite (bool_decide_eq_true_2 (String.length cap ≤ 1000)%nat) by exact Hlen.
    rewrite (bool_decide_eq_false_2 (_ = "")) by discriminate.
    rewrite (bool_decide_eq_true_2 (_ ∈ mediaType_enum))
      by (destruct (String.prefix "video/" (mimetype f)); [right; left | left]).
    rewrite (bool_decide_eq_true_2 (_ ∈ visibility_enum))
      by (apply visibility_default_valid, Hvis).
    cbn [negb app fmap list_fmap mjoin list_join]. rewrite app_nil_r.
    destruct (Body.tags (body r)) as [[|l]|] eqn:Ht; try reflexivity.
    apply processed_typed_valid, Htags. reflexivity. }
  destruct (Body.userCollection (body r)) as [[cid|s]|] eqn:Huc;
    [| contradiction |].
  - destruct Hcoll as (-> & c & Hcc & Hown).
    unfold bind at 1. erewrite bind_next by (apply findById_found; eassumption).
    cbn beta iota. rewrite bool_decide_eq_true_2 by exact Hown.
    unfold ret at 1. cbn beta iota.
    unfold created_post in post. subst post. rewrite Hvalid.
    unfold Post_save. erewrite bind_next by reflexivity.
    erewrite bind_next by reflexivity. erewrite bind_next by reflexivity.
    erewrite bind_next by (apply forEach_emit). reflexivity.
  - subst coll. unfold bind at 1. unfold ret at 1. cbn beta iota.
    unfold created_post in post. subst post. rewrite Hvalid.
    unfold Post_save. erewrite bind_next by reflexivity.
    erewrite bind_next by reflexivity. erewrite bind_next by reflexivity.
    erewrite bind_next by (apply forEach_emit). reflexivity.
Qed.

(** X25.  A well-formed request to create a post (a file, a caption of 1
    to 1000 characters, tags that all carry a type of the schema's list,
    a visibility of the list or none, and no collection or one of the
    sender's) is answered 201; the post is stored under the new id as
    the sender's, with no likes and no comments; one "new_post" event
    goes to the personal channel of each of the sender's followers, in
    their order, and nothing else is emitted; and when a collection is
    named, the post refers to it and is appended to its items. *)
Theorem create_post_fans_out newId r w uid u f cap coll :
  credential r = Some uid → users (db w) !! uid = Some u →
  file r = Some f →
  Body.caption (body r) = Some cap → cap ≠ "" → (String.length cap ≤ 1000)%nat →
  Body.tags (body r) ≠ Some NotAnArray →
  (∀ l, Body.tags (body r) = Some (TagArray l) →
        Forall (λ t, ∃ ty, Tag.type t = Some ty ∧ ty ∈ tag_type_enum) l) →
  (∀ s, Body.visibility (body r) = Some s → s = "" ∨ s ∈ visibility_enum) →
  match Body.userCollection (body r) with
  | None => coll = None
  | Some (ValidId cid) =>
      coll = Some cid
      ∧ ∃ c, collections (db w) !! cid = Some c ∧ UserCollection.user c = uid
  | Some (InvalidId _) => False
  end →
  let out := POST_posts newId r w in
  ∃ post,
    status out.1 = 201 ∧
    posts (db out.2) !! newId = Some post ∧
    Post.user post = uid ∧ Post.likes post = [] ∧ Post.comments post = [] ∧
    Post.userCollection post = coll ∧
    emitted_by w out.2 = (new_post_to u uid newId <$> User.followers u) ∧
    (∀ cid c, coll = Some cid → collections (db w) !! cid = Some c →
       collections (db out.2) !! cid
         = Some (UserCollection.set_items c (UserCollection.items c ++ [newId]))).
Proof.
  intros Hc Hu Hf Hcap Hne Hlen Harr Htags Hvis Hcoll out. subst out.
  rewrite (create_post_run newId r w uid u f cap coll) by assumption.
  cbn [fst snd db status].
  eexists. split; [reflexivity|].
  split; [unfold created_db; cbn [posts]; apply lookup_insert_eq|].
  split; [reflexivity|]. split; [reflexivity|]. split; [reflexivity|].
  split; [reflexivity|]. split; [apply emitted_by_app|].
  intros cid c -> Hcc. unfold created_db. cbn [collections created_post Post.userCollection].
  rewrite lookup_alter_eq, Hcc. reflexivity.
Qed.

Lemma create_post_fans_out_witness :
  let r := create_in_request "unboxing" 20 (Some 1%N) in
  let out := POST_posts 14 r sample_world in
  ∃ post,
    status out.1 = 201 ∧
    posts (db out.2) !! 14%N = Some post ∧
    Post.user post = 1%N ∧ Post.likes post = [] ∧ Post.comments post = [] ∧
    Post.userCollection post = Some 20%N ∧
    emitted_by sample_world out.2 = (new_post_to alice 1 14 <$> User.followers alice) ∧
    (∀ cid c, Some 20%N = Some cid → collections (db sample_world) !! cid = Some c →
       collections (db out.2) !! cid
         = Some (UserCollection.set_items c (UserCollection.items c ++ [14%N]))).
Proof.
  apply (create_post_fans_out 14 (create_in_request "unboxing" 20 (Some 1%N))
           sample_world 1%N alice (mkFile "1700000000000-2.mp4" "video/mp4")
           "unboxing" (Some 20%N));
    [reflexivity | reflexivity | reflexivity | reflexivity | discriminate
    | simpl; lia | discriminate | intros l H; discriminate H
    | intros s H; discriminate H |].
  simpl. split; [reflexivity|]. exists coll20. split; reflexivity.
Defined.

(** X26.  A request to create a post in a collection that does not exist
    or belongs to someone else is answered with an error; no post is
    stored, no collection is touched and no follower is notified. *)
Theorem create_post_foreign_collection newId r w uid u cid :
  credential r = Some uid → users (db w) !! uid = Some u →
  Body.userCollection (body r) = Some (ValidId cid) →
  (collections (db w) !! cid = None
   ∨ ∃ c, collections (db w) !! cid = Some c ∧ UserCollection.user c ≠ uid) →
  ∃ res, POST_posts newId r w = (res, w) ∧ (400 ≤ status res)%nat.
Proof.
  intros Hc Hu Huc Hforeign. unfold POST_posts.
  rewrite (route_auth _ _ _ _ _ Hc Hu).
  unfold create_handler. cbn [Req.request Req.user].
  destruct (create_validators (body r));
    [| eexists; split; [reflexivity | simpl; lia]].
  destruct (file r) as [f|]; [| eexists; split; [reflexivity | simpl; lia]].
  unfold the_user. erewrite bind_next by reflexivity. cbn [fst snd].
  rewrite Huc. unfold bind at 1.
  destruct Hforeign as [Hnone | (c & Hsome & Hown)].
  - erewrite bind_next by (apply findById_missing; eassumption).
    eexists; split; [reflexivity | simpl; lia].
  - erewrite bind_next by (apply findById_found; eassumption).
    cbn beta iota. rewrite bool_decide_eq_false_2 by exact Hown.
    eexists; split; [reflexivity | simpl; lia].
Qed.

Lemma create_post_foreign_collection_witness :
  ∃ res,
    POST_posts 14 (create_in_request "unboxing" 20 (Some 2%N)) sample_world
      = (res, sample_world) ∧ (400 ≤ status res)%nat.
Proof.
  apply (create_post_foreign_collection 14
           (create_in_request "unboxing" 20 (Some 2%N)) sample_world 2%N bob 20%N);
    [reflexivity | reflexivity | reflexivity |].
  right. exists coll20. split; [reflexivity | simpl; lia].
Defined.

(** ** The items of a collection belong to its owner *)

(** X27.  Adding a post to a collection keeps the invariant of the data
    model: if every stored post listed by a collection is a post of the
    collection's owner before a request to the add route, it is so
    after it, whatever the request. *)
Theorem add_post_keeps_items_owned r w :
  items_owned (db w) → items_owned (db (POST_collections_add_post r w).2).
Proof.
  intros Hinv. pose proof (add_post_cases r w) as Hcases. cbv zeta in Hcases.
  destruct Hcases as [[_ ->] | (uid & cid & c & pid & p & Hc & Hr & Hcoll & Hb & Hp
                                 & Hoc & Hop & Hin & Hok)]; [exact Hinv|].
  destruct (users (db w) !! uid) as [u|] eqn:Hu.
  2:{ unfold POST_collections_add_post in Hok.
      rewrite (route_auth_unknown _ _ _ uid) in Hok by assumption.
      discriminate Hok. }
  rewrite (add_post_run r w uid u cid c pid p) by assumption.
  cbn [snd db]. intros cid0 c0 pid0 p0 Hc0 Hi0 Hp0.
  cbn [collections posts] in Hc0, Hp0.
  destruct (decide (cid0 = cid)) as [-> | Hcne].
  - rewrite lookup_insert_eq in Hc0. injection Hc0 as <-.
    cbn [UserCollection.user UserCollection.items UserCollection.set_items] in *.
    destruct (decide (pid0 = pid)) as [-> | Hpne].
    + rewrite lookup_insert_eq in Hp0. injection Hp0 as <-. simpl. congruence.
    + rewrite lookup_insert_ne in Hp0 by congruence.
      apply elem_of_app in Hi0 as [Hi0 | Hi0%list_elem_of_singleton]; [| contradiction].
      apply (Hinv cid c pid0 p0); assumption.
  - rewrite lookup_insert_ne in Hc0 by congruence.
    destruct (decide (pid0 = pid)) as [-> | Hpne].
    + rewrite lookup_insert_eq in Hp0. injection Hp0 as <-. simpl.
      apply (Hinv cid0 c0 pid p); assumption.
    + rewrite lookup_insert_ne in Hp0 by congruence.
      apply (Hinv cid0 c0 pid0 p0); assumption.
Qed.

Lemma add_post_keeps_items_owned_witness :
  items_owned (db sample_world) ∧
  items_owned (db (POST_collections_add_post (add_request 20 12 (Some 1%N))
                     sample_world).2).
Proof.
  assert (Hinv : items_owned (db sample_world)).
  { intros cid c pid p Hc Hi Hp. cbn in Hc, Hp.
    apply lookup_insert_Some in Hc as [[<- <-] | [_ Hc]];
      [| rewrite lookup_empty in Hc; discriminate Hc].
    simpl in Hi. apply list_elem_of_singleton in Hi as ->.
    vm_compute in Hp. injection Hp as <-. reflexivity. }
  split; [exact Hinv|].
  apply (add_post_keeps_items_owned (add_request 20 12 (Some 1%N)) sample_world Hinv).
Defined.

(** X28.  Creating a post keeps the same invariant.  When the new id is
    fresh (no post is stored under it and no collection lists it), a
    well-formed request to create a post, in a collection of the
    sender's or in none, leaves every stored post that a collection
    lists a post of that collection's owner. *)
Theorem create_post_keeps_items_owned newId r w uid u f cap coll :
  credential r = Some uid → users (db w) !! uid = Some u →
  file r = Some f →
  Body.caption (body r) = Some cap → cap ≠ "" → (String.length cap ≤ 1000)%nat →
  Body.tags (body r) ≠ Some NotAnArray →
  (∀ l, Body.tags (body r) = Some (TagArray l) →
        Forall (λ t, ∃ ty, Tag.type t = Some ty ∧ ty ∈ tag_type_enum) l) →
  (∀ s, Body.visibility (body r) = Some s → s = "" ∨ s ∈ visibility_enum) →
  match Body.userCollection (body r) with
  | None => coll = None
  | Some (ValidId cid) =>
      coll = Some cid
      ∧ ∃ c, collections (db w) !! cid = Some c ∧ UserCollection.user c = uid
  | Some (InvalidId _) => False
  end →
  (∀ cid c, collections (db w) !! cid = Some c → newId ∉ UserCollection.items c) →
  items_owned (db w) →
  items_owned (db (POST_posts newId r w).2).
Proof.
  intros Hc Hu Hf Hcap Hne Hlen Harr Htags Hvis Hcoll Hfresh Hinv.
  rewrite (create_post_run newId r w uid u f cap coll) by assumption.
  cbn [snd db]. unfold created_db. cbn [created_post Post.userCollection].
  intros cid0 c0 pid0 p0 Hc0 Hi0 Hp0. cbn [collections posts] in Hc0, Hp0.
  assert (Hold : ∀ c1, collections (db w) !! cid0 = Some c1 →
                       pid0 ∈ UserCollection.items c1 →
                       Post.user p0 = UserCollection.user c1).
  { intros c1 Hc1 Hi1. destruct (decide (pid0 = newId)) as [-> | Hpne].
    - exfalso. exact (Hfresh cid0 c1 Hc1 Hi1).
    - rewrite lookup_insert_ne in Hp0 by congruence.
      apply (Hinv cid0 c1 pid0 p0); assumption. }
  destruct coll as [cid|]; [| apply Hold; assumption].
  destruct (Body.userCollection (body r)) as [[cid'|s]|]; [| contradiction | discriminate Hcoll].
  destruct Hcoll as ([= <-] & c & Hcc & Hown).
  destruct (decide (cid0 = cid)) as [-> | Hcne].
  - rewrite lookup_alter_eq, Hcc in Hc0. injection Hc0 as <-.
    cbn [UserCollection.user UserCollection.items UserCollection.set_items] in *.
    apply elem_of_app in Hi0 as [Hi0 | ->%list_elem_of_singleton].
    + apply (Hold c); assumption.
    + rewrite lookup_insert_eq in Hp0. injection Hp0 as <-. simpl. congruence.
  - rewrite lookup_alter_ne in Hc0 by congruence. apply Hold; assumption.
Qed.

Lemma create_post_keeps_items_owned_witness :
  items_owned (db sample_world) ∧
  items_owned (db (POST_posts 14 (create_in_request "unboxing" 20 (Some 1%N))
                     sample_world).2).
Proof.
  assert (Hinv : items_owned (db sample_world)).
  { intros cid c pid p Hc Hi Hp. cbn in Hc, Hp.
    apply lookup_insert_Some in Hc as [[<- <-] | [_ Hc]];
      [| rewrite lookup_empty in Hc; discriminate Hc].
    simpl in Hi. apply list_elem_of_singleton in Hi as ->.
    vm_compute in Hp. injection Hp as <-. reflexivity. }
  split; [exact Hinv|].
  apply (create_post_keeps_items_owned 14 (create_in_request "unboxing" 20 (Some 1%N))
           sample_world 1%N alice (mkFile "1700000000000-2.mp4" "video/mp4")
           "unboxing" (Some 20%N));
    [reflexivity | reflexivity | reflexivity | reflexivity | discriminate
    | simpl; lia | discriminate | intros l H; discriminate H
    | intros s H; discriminate H | | | exact Hinv].
  - simpl. split; [reflexivity|]. exists coll20. split; reflexivity.
  - intros cid c Hc. cbn in Hc.
    apply lookup_insert_Some in Hc as [[<- <-] | [_ Hc]];
      [| rewrite lookup_empty in Hc; discriminate Hc].
    simpl. intros H%list_elem_of_singleton. discriminate H.
Defined.

(** ** The post page after a like *)

Lemma some_by_user uid (l : list Like.t) :
  some (by_user uid) l = bool_decide (uid ∈ Like.user <$> l).
Proof.
  unfold some. induction l as [|x l IH]; [reflexivity|].
  cbn [existsb fmap list_fmap]. rewrite IH. unfold by_user at 1.
  destruct (decide (Like.user x = uid)) as [Heq | Hne].
  - rewrite (bool_decide_eq_true_2 _ Heq). symmetry.
    apply bool_decide_eq_true. rewrite Heq. left.
  - rewrite (bool_decide_eq_false_2 _ Hne). cbn [orb].
    apply bool_decide_ext. rewrite elem_of_cons. split; [tauto|].
    intros [H | H]; [congruence | exact H].
Qed.

(** What the post page shows to an authenticated viewer. *)
Lemma post_page_shows r w v uv pid p owner :
  credential r = Some v → users (db w) !! v = Some uv →
  params_id r = ValidId pid → posts (db w) !! pid = Some p →
  users (db w) !! Post.user p = Some owner →
  GET_post_page r w =
    (mkResponse 200
       (RenderPostDetail (User.username owner ++ "'s Post - FlexBase")%string
          (Some v) (populate_post (db w) true pid p)
          (bool_decide (v ∈ likers p)) (bool_decide (Post.user p = v))
          (length (Post.likes p)) (length (Post.comments p))),
     w).
Proof.
  intros Hc Hv Hr Hp Ho. unfold GET_post_page, page, chain, optionalAuth, incoming.
  unfold bind at 2. unfold bind at 2. unfold get_db at 1. cbn beta iota.
  unfold ret at 1 2. cbn beta iota. unfold bind at 1.
  cbn [Req.request]. rewrite Hc. cbn [mbind option_bind]. rewrite Hv.
  cbn [mbind option_bind].
  unfold post_page_handler. cbn [Req.request Req.user]. rewrite Hr.
  erewrite bind_next by (apply findById_found; eassumption).
  unfold bind, get_db. cbn beta iota.
  unfold populate_post at 1. cbn [pp_user]. unfold populate_user at 1.
  rewrite Ho. cbn [fmap option_fmap option_map ref_id ref_username fst snd].
  fold (by_user v). rewrite some_by_user. reflexivity.
Qed.

(** X29.  The post page agrees with the like toggle.  After a user's
    like toggle on a post whose like set holds no user twice, the page
    of that post requested by the same user shows the liked flag and the
    like count that the toggle answered. *)
Theorem post_page_after_like now r w uid u pid p owner r2 :
  credential r = Some uid → users (db w) !! uid = Some u →
  params_id r = ValidId pid → posts (db w) !! pid = Some p →
  NoDup (likers p) →
  users (db w) !! Post.user p = Some owner →
  credential r2 = Some uid → params_id r2 = ValidId pid →
  let toggled := POST_posts_like now r w in
  let shown := GET_post_page r2 toggled.2 in
  ∃ isLiked totalLikes title post isOwner commentsCount,
    toggled.1 = mkResponse 200 (LikeResult isLiked totalLikes) ∧
    shown.1 = mkResponse 200
                (RenderPostDetail title (Some uid) post isLiked isOwner
                   totalLikes commentsCount).
Proof.
  intros Hc Hu Hr Hp Hnd Ho Hc2 Hr2 toggled shown. subst shown toggled.
  destruct (decide (uid ∈ likers p)) as [Hin | Hout].
  - destruct (likers_split _ _ Hin) as (l1 & x & l2 & Hl & Hl1 & Hx).
    assert (Hgone : uid ∉ Like.user <$> (l1 ++ l2)).
    { unfold likers in Hnd. rewrite Hl, fmap_app in Hnd. simpl in Hnd.
      apply NoDup_app in Hnd as (_ & _ & H3).
      apply NoDup_cons in H3 as [H3 _]. rewrite Hx in H3.
      rewrite fmap_app. intros [H | H]%elem_of_app; contradiction. }
    rewrite (like_run_unlike now r w uid u pid p l1 x l2) by assumption.
    cbn [fst snd].
    erewrite (post_page_shows r2 _ uid u pid _ owner);
      [| assumption | exact Hu | assumption | apply lookup_insert_eq | exact Ho].
    eexists _, _, _, _, _, _. split; [reflexivity|]. cbn [fst].
    unfold likers. cbn [Post.likes Post.set_likes].
    rewrite (bool_decide_eq_false_2 _ Hgone). reflexivity.
  - rewrite (like_run_like now r w uid u pid p) by assumption.
    cbn [fst snd].
    erewrite (post_page_shows r2 _ uid u pid _ owner);
      [| assumption | exact Hu | assumption | apply lookup_insert_eq | exact Ho].
    eexists _, _, _, _, _, _. split; [reflexivity|]. cbn [fst].
    unfold likers. cbn [Post.likes Post.set_likes].
    rewrite (bool_decide_eq_true_2
               (uid ∈ Like.user <$> Post.likes p ++ [Like.mk uid now])); [reflexivity|].
    rewrite fmap_app. apply elem_of_app. right. left.
Qed.

Lemma post_page_after_like_witness :
  NoDup (likers post11) ∧
  let toggled := POST_posts_like 100 (request_for 11 (Some 2%N)) sample_world in
  let shown := GET_post_page (request_for 11 (Some 2%N)) toggled.2 in
  ∃ isLiked totalLikes title post isOwner commentsCount,
    toggled.1 = mkResponse 200 (LikeResult isLiked totalLikes) ∧
    shown.1 = mkResponse 200
                (RenderPostDetail title (Some 2%N) post isLiked isOwner
                   totalLikes commentsCount).
Proof.
  assert (Hnd : NoDup (likers post11)) by (vm_compute; apply NoDup_singleton).
  split; [exact Hnd|].
  apply (post_page_after_like 100 (request_for 11 (Some 2%N)) sample_world
           2%N bob 11%N post11 alice (request_for 11 (Some 2%N)));
    [reflexivity | reflexivity | reflexivity | reflexivity | exact Hnd
    | reflexivity | reflexivity | reflexivity].
Defined.
